(** * Job-protected lifecycle operations of the QEMU driver

    A shallow embedding of the administrative entry points of
    [src/qemu/qemu_driver.c] that drive the per-domain job and lifecycle
    state machine: [qemuDomainSuspend], [qemuDomainResume],
    [qemuDomainShutdownFlags], [qemuDomainDestroyFlags],
    [qemuDomainSaveInternal], [qemuDomainGetJobInfo],
    [qemuDomainGetJobStats] and [qemuDomainAbortJob].

    The entry points are straight-line C with [goto cleanup]/[goto endjob]
    exits.  Each one becomes a computation in a small state monad over a
    [World]: the fields of the domain object the driver reads or writes,
    the rest of the world (hypervisor process, other threads, file system)
    and the log of the calls the entry point made into the rest of libvirt.
    A label of the C function becomes a definition of its own
    ([qemuDomainSuspend_endjob], [qemuDomainSuspend_cleanup], ...).

    Helpers that live in other files of libvirt (job controller, process
    driver, monitor, agent, events, persistence) are not interpreted: their
    return value and their effect on the domain object are given by one
    oracle [ext], over which every general theorem quantifies. *)

From Stdlib Require Import ZArith List String Bool Lia.
Import ListNotations.
Open Scope string_scope.
Open Scope Z_scope.

Set Implicit Arguments.

(** ** Constants of the public API

    The numeric values are those of the public header
    (include/libvirt/libvirt.h), which is not part of the driver file; the
    driver only compares them for equality and, for event details, tests
    [eventDetail >= 0]. *)

Definition VIR_DOMAIN_NOSTATE : Z := 0.
Definition VIR_DOMAIN_RUNNING : Z := 1.
Definition VIR_DOMAIN_BLOCKED : Z := 2.
Definition VIR_DOMAIN_PAUSED : Z := 3.
Definition VIR_DOMAIN_SHUTDOWN : Z := 4.
Definition VIR_DOMAIN_SHUTOFF : Z := 5.
Definition VIR_DOMAIN_CRASHED : Z := 6.
Definition VIR_DOMAIN_PMSUSPENDED : Z := 7.

Definition VIR_DOMAIN_PAUSED_USER : Z := 1.
Definition VIR_DOMAIN_PAUSED_MIGRATION : Z := 2.
Definition VIR_DOMAIN_PAUSED_SAVE : Z := 3.
Definition VIR_DOMAIN_PAUSED_SNAPSHOT : Z := 9.

Definition VIR_DOMAIN_RUNNING_UNPAUSED : Z := 5.
Definition VIR_DOMAIN_RUNNING_SAVE_CANCELED : Z := 7.

Definition VIR_DOMAIN_SHUTOFF_DESTROYED : Z := 2.
Definition VIR_DOMAIN_SHUTOFF_SAVED : Z := 5.

Definition VIR_DOMAIN_EVENT_SUSPENDED : Z := 3.
Definition VIR_DOMAIN_EVENT_RESUMED : Z := 4.
Definition VIR_DOMAIN_EVENT_STOPPED : Z := 5.

Definition VIR_DOMAIN_EVENT_SUSPENDED_PAUSED : Z := 0.
Definition VIR_DOMAIN_EVENT_SUSPENDED_MIGRATED : Z := 1.
Definition VIR_DOMAIN_EVENT_SUSPENDED_API_ERROR : Z := 6.
Definition VIR_DOMAIN_EVENT_RESUMED_UNPAUSED : Z := 0.
Definition VIR_DOMAIN_EVENT_STOPPED_DESTROYED : Z := 1.
Definition VIR_DOMAIN_EVENT_STOPPED_SAVED : Z := 4.

Definition VIR_DOMAIN_SHUTDOWN_ACPI_POWER_BTN : Z := Z.shiftl 1 0.
Definition VIR_DOMAIN_SHUTDOWN_GUEST_AGENT : Z := Z.shiftl 1 1.
Definition VIR_DOMAIN_DESTROY_GRACEFUL : Z := Z.shiftl 1 0.
Definition VIR_DOMAIN_SAVE_BYPASS_CACHE : Z := Z.shiftl 1 0.
Definition VIR_DOMAIN_SAVE_RUNNING : Z := Z.shiftl 1 1.
Definition VIR_DOMAIN_SAVE_PAUSED : Z := Z.shiftl 1 2.
Definition VIR_QEMU_PROCESS_KILL_FORCE : Z := Z.shiftl 1 0.

(** ** Enumerations *)

Inductive qemuDomainJob : Type :=
| QEMU_JOB_NONE
| QEMU_JOB_QUERY
| QEMU_JOB_DESTROY
| QEMU_JOB_SUSPEND
| QEMU_JOB_MODIFY
| QEMU_JOB_ABORT
| QEMU_JOB_MIGRATION_OP.

Inductive qemuDomainAsyncJob : Type :=
| QEMU_ASYNC_JOB_NONE
| QEMU_ASYNC_JOB_MIGRATION_OUT
| QEMU_ASYNC_JOB_MIGRATION_IN
| QEMU_ASYNC_JOB_SAVE
| QEMU_ASYNC_JOB_DUMP
| QEMU_ASYNC_JOB_SNAPSHOT.

Inductive virDomainJobType : Type :=
| VIR_DOMAIN_JOB_NONE
| VIR_DOMAIN_JOB_BOUNDED
| VIR_DOMAIN_JOB_UNBOUNDED
| VIR_DOMAIN_JOB_COMPLETED
| VIR_DOMAIN_JOB_FAILED
| VIR_DOMAIN_JOB_CANCELLED.

Inductive virDomainLifecycleAction : Type :=
| VIR_DOMAIN_LIFECYCLE_DESTROY
| VIR_DOMAIN_LIFECYCLE_RESTART
| VIR_DOMAIN_LIFECYCLE_RESTART_RENAME
| VIR_DOMAIN_LIFECYCLE_PRESERVE.

Inductive qemuAgentShutdownMode : Type :=
| QEMU_AGENT_SHUTDOWN_POWERDOWN
| QEMU_AGENT_SHUTDOWN_REBOOT.

Inductive virErrorNumber : Type :=
| VIR_ERR_INTERNAL_ERROR
| VIR_ERR_INVALID_ARG
| VIR_ERR_NO_DOMAIN
| VIR_ERR_OPERATION_FAILED
| VIR_ERR_OPERATION_INVALID.

(** ** The domain object *)

(** [virDomainJobInfo]: the progress block of the async job; every counter
    is an [unsigned long long]. *)
Record virDomainJobInfo : Type := mkJobInfo {
  type : virDomainJobType;
  timeElapsed : Z;
  timeRemaining : Z;
  dataTotal : Z;
  dataProcessed : Z;
  dataRemaining : Z;
  memTotal : Z;
  memProcessed : Z;
  memRemaining : Z;
  fileTotal : Z;
  fileProcessed : Z;
  fileRemaining : Z
}.

(** [qemuMonitorMigrationStatus], the fields read by the statistics query. *)
Record qemuMonitorMigrationStatus : Type := mkMigStatus {
  downtime_set : bool;
  downtime : Z;
  ram_duplicate_set : bool;
  ram_duplicate : Z;
  ram_normal : Z;
  ram_normal_bytes : Z;
  xbzrle_set : bool;
  xbzrle_cache_size : Z;
  xbzrle_bytes : Z;
  xbzrle_pages : Z;
  xbzrle_cache_miss : Z;
  xbzrle_overflow : Z
}.

(** [priv->job], the fields the driver file reads or writes. *)
Record qemuDomainJobObj : Type := mkJobObj {
  asyncJob : qemuDomainAsyncJob;
  dump_memory_only : bool;
  start : Z;
  info : virDomainJobInfo;
  status : qemuMonitorMigrationStatus
}.

(** [virDomainObj] together with its [qemuDomainObjPrivate]:
    [active] is [virDomainObjIsActive(vm)], [state]/[reason] are
    [vm->state], [agent] is [priv->agent != NULL]. *)
Record virDomainObj : Type := mkVm {
  active : bool;
  state : Z;
  reason : Z;
  persistent : bool;
  onPoweroff : virDomainLifecycleAction;
  agent : bool;
  beingDestroyed : bool;
  job : qemuDomainJobObj
}.

Definition set_beingDestroyed (b : bool) (v : virDomainObj) : virDomainObj :=
  mkVm (active v) (state v) (reason v) (persistent v) (onPoweroff v)
       (agent v) b (job v).

Definition set_job (j : qemuDomainJobObj) (v : virDomainObj) : virDomainObj :=
  mkVm (active v) (state v) (reason v) (persistent v) (onPoweroff v)
       (agent v) (beingDestroyed v) j.

Definition set_state (s r : Z) (v : virDomainObj) : virDomainObj :=
  mkVm (active v) s r (persistent v) (onPoweroff v)
       (agent v) (beingDestroyed v) (job v).

Definition set_active (a : bool) (v : virDomainObj) : virDomainObj :=
  mkVm a (state v) (reason v) (persistent v) (onPoweroff v)
       (agent v) (beingDestroyed v) (job v).

Definition set_info (i : virDomainJobInfo) (j : qemuDomainJobObj) : qemuDomainJobObj :=
  mkJobObj (asyncJob j) (dump_memory_only j) (start j) i (status j).

Definition set_asyncJob (a : qemuDomainAsyncJob) (j : qemuDomainJobObj) : qemuDomainJobObj :=
  mkJobObj a (dump_memory_only j) (start j) (info j) (status j).

Definition set_timeElapsed (t : Z) (i : virDomainJobInfo) : virDomainJobInfo :=
  mkJobInfo (type i) t (timeRemaining i) (dataTotal i) (dataProcessed i)
            (dataRemaining i) (memTotal i) (memProcessed i) (memRemaining i)
            (fileTotal i) (fileProcessed i) (fileRemaining i).

Definition set_type (t : virDomainJobType) (i : virDomainJobInfo) : virDomainJobInfo :=
  mkJobInfo t (timeElapsed i) (timeRemaining i) (dataTotal i) (dataProcessed i)
            (dataRemaining i) (memTotal i) (memProcessed i) (memRemaining i)
            (fileTotal i) (fileProcessed i) (fileRemaining i).

(** [memset(&info, 0, sizeof(info))]: type 0 is [VIR_DOMAIN_JOB_NONE]. *)
Definition zero_info : virDomainJobInfo :=
  mkJobInfo VIR_DOMAIN_JOB_NONE 0 0 0 0 0 0 0 0 0 0 0.

(** A lifecycle event object: [type] and [detail] of
    [virDomainEventLifecycleNewFromObj]. *)
Record Event : Type := mkEvent { ev_type : Z; ev_detail : Z }.

(** ** Calls into the rest of libvirt *)

Inductive Call : Type :=
| virDomainObjListFindByUUID
| virObjectUnlock
| virReportError (code : virErrorNumber) (msg : string)
| virGetLastError
| virDomainSuspendEnsureACL
| virDomainResumeEnsureACL
| virDomainShutdownFlagsEnsureACL (flags : Z)
| virDomainDestroyFlagsEnsureACL
| virDomainGetJobInfoEnsureACL
| virDomainGetJobStatsEnsureACL
| virDomainAbortJobEnsureACL
| qemuDomainObjBeginJob (j : qemuDomainJob)
| qemuDomainObjEndJob
| qemuDomainObjBeginAsyncJob (j : qemuDomainAsyncJob)
| qemuDomainObjEndAsyncJob
| qemuDomainObjAbortAsyncJob
| qemuProcessStopCPUs (reason : Z) (asyncJob : qemuDomainAsyncJob)
| qemuProcessStartCPUs (reason : Z) (asyncJob : qemuDomainAsyncJob)
| qemuProcessKill (flags : Z)
| qemuProcessStop (reason : Z) (flags : Z)
| qemuDomainRemoveInactive
| qemuDomainSetFakeReboot (value : bool)
| virDomainAuditStop (reason : string)
| virDomainEventLifecycleNewFromObj (type detail : Z)
| qemuDomainEventQueue (event : Event)
| virDomainSaveStatus
| virQEMUDriverGetCapabilities
| qemuDomainAgentAvailable (reportError : bool)
| qemuDomainObjEnterAgent
| qemuAgentShutdown (mode : qemuAgentShutdownMode)
| qemuDomainObjExitAgent
| qemuDomainObjEnterMonitor
| qemuMonitorSystemPowerdown
| qemuMonitorMigrateCancel
| qemuDomainObjExitMonitor
| qemuMigrationIsAllowed
| virDomainDefParseString
| qemuDomainDefCheckABIStability
| virDomainDefFree
| qemuDomainDefFormatLive (from_xmlin : bool)
| qemuDomainSaveMemory (path : string) (compressed : Z) (was_running : bool) (flags : Z)
| virTimeMillisNow
| virTypedParamsAddULLong (name : string) (value : Z)
| virTypedParamsFree.

(** Modelled from the spec: which helpers may change the domain object as
    the caller sees it.  These are the helpers that release the object lock
    while they wait or talk to the hypervisor ([begin_job] and
    [begin_async_job] wait on the condition variable, a channel guard
    releases the lock between enter and exit, the process driver starts,
    stops and kills the process) and the ones that update the async slot.
    [end_job] clears the synchronous slot only, which this model reads off
    the log and not off the object; error reporting, access control,
    persistence of the status file, event construction and queueing, the
    clock and typed parameter lists do not write to the object. *)
Definition touches_vm (c : Call) : bool :=
  match c with
  | qemuDomainObjBeginJob _
  | qemuDomainObjBeginAsyncJob _
  | qemuDomainObjEndAsyncJob
  | qemuDomainObjAbortAsyncJob
  | qemuProcessStopCPUs _ _
  | qemuProcessStartCPUs _ _
  | qemuProcessKill _
  | qemuProcessStop _ _
  | qemuDomainRemoveInactive
  | qemuDomainSetFakeReboot _
  | qemuDomainObjEnterAgent
  | qemuAgentShutdown _
  | qemuDomainObjExitAgent
  | qemuDomainObjEnterMonitor
  | qemuMonitorSystemPowerdown
  | qemuMonitorMigrateCancel
  | qemuDomainObjExitMonitor
  | qemuDomainSaveMemory _ _ _ _ => true
  | _ => false
  end.

(** One log entry: the call, what it returned (an [int], a [bool] as 0/1,
    a pointer as 0 for [NULL]) and the domain object before and after. *)
Record Entry : Type := mkEntry {
  e_call : Call;
  e_ret : Z;
  e_pre : virDomainObj;
  e_post : virDomainObj
}.

(** ** The driver monad *)

(** The oracle for the helpers: given the call, the rest of the world and
    the domain object, the return value, the new rest of the world and the
    domain object after the call. *)
Definition Oracle (Env : Type) : Type :=
  Call -> Env -> virDomainObj -> Z * Env * virDomainObj.

Section Driver.

Variable Env : Type.
Variable ext : Oracle Env.

Record World : Type := mkWorld {
  w_vm : virDomainObj;
  w_env : Env;
  w_log : list Entry
}.

Definition Drv (A : Type) : Type := World -> A * World.

Definition ret {A : Type} (a : A) : Drv A := fun w => (a, w).

Definition bind {A B : Type} (m : Drv A) (k : A -> Drv B) : Drv B :=
  fun w => let (a, w') := m w in k a w'.

(** A call to a helper: ask the oracle, keep its change to the object
    only for the helpers of [touches_vm], and log the call. *)
Definition call (c : Call) : Drv Z :=
  fun w =>
    let '(r, e', v') := ext c (w_env w) (w_vm w) in
    let v'' := if touches_vm c then v' else w_vm w in
    (r, mkWorld v'' e' (w_log w ++ [mkEntry c r (w_vm w) v''])).

(** Reading a field of the locked object, and writing one in place. *)
Definition read {A : Type} (f : virDomainObj -> A) : Drv A :=
  fun w => (f (w_vm w), w).

Definition write (f : virDomainObj -> virDomainObj) : Drv unit :=
  fun w => (tt, mkWorld (f (w_vm w)) (w_env w) (w_log w)).

Definition run {A : Type} (m : Drv A) (env : Env) (vm : virDomainObj) : A * World :=
  m (mkWorld vm env []).

Notation "x <- m ;; k" := (bind m (fun x => k))
  (at level 61, m at next level, right associativity).
Notation "m ;;; k" := (bind m (fun _ => k))
  (at level 61, right associativity).

(** [if (c) stmt;] for a statement without a result. *)
Definition when (c : bool) (m : Drv Z) : Drv unit :=
  if c then (m ;;; ret tt) else ret tt.

(** [virCheckFlags(supported, retval)], the macro of internal.h: any bit
    outside [supported] is reported and the function returns [retval]. *)
Definition virCheckFlags {A : Type} (supported : Z) (retval : A) (flags : Z)
           (k : Drv A) : Drv A :=
  if Z.land flags (Z.lnot supported) =? 0 then k
  else (call (virReportError VIR_ERR_INVALID_ARG "unsupported flags (0x%lx) in function %s") ;;;
        ret retval).

(** [qemuDomObjFromDomain]: the locked domain object, or [NULL] with
    [VIR_ERR_NO_DOMAIN] reported. *)
Definition qemuDomObjFromDomain : Drv Z :=
  vm <- call virDomainObjListFindByUUID ;;
  if vm =? 0 then
    (call (virReportError VIR_ERR_NO_DOMAIN "no domain with matching uuid '%s' (%s)") ;;;
     ret 0)
  else ret vm.

(** [event = virDomainEventLifecycleNewFromObj(vm, type, detail)]; the
    allocation may fail and leave [event] at [NULL]. *)
Definition newEvent (type detail : Z) : Drv (option Event) :=
  p <- call (virDomainEventLifecycleNewFromObj type detail) ;;
  ret (if p =? 0 then None else Some (mkEvent type detail)).

(** [if (event) qemuDomainEventQueue(driver, event);] *)
Definition queueEvent (event : option Event) : Drv unit :=
  match event with
  | Some ev => call (qemuDomainEventQueue ev) ;;; ret tt
  | None => ret tt
  end.

Definition not_running : Drv Z :=
  call (virReportError VIR_ERR_OPERATION_INVALID "domain is not running").

(** *** qemuDomainSuspend *)

Definition qemuDomainSuspend_cleanup (vm : bool) (event : option Event)
           (ret_ : Z) : Drv Z :=
  when vm (call virObjectUnlock) ;;;
  queueEvent event ;;;
  ret ret_.

Definition qemuDomainSuspend_endjob (event : option Event) (ret_ : Z) : Drv Z :=
  r <- call qemuDomainObjEndJob ;;
  qemuDomainSuspend_cleanup (negb (r =? 0)) event ret_.

(** The pause reason and the event detail [qemuDomainSuspend] picks
    from the async job ([-1]: no lifecycle event during a snapshot). *)
Definition suspend_reason (aj : qemuDomainAsyncJob) : Z * Z :=
  match aj with
  | QEMU_ASYNC_JOB_MIGRATION_OUT =>
      (VIR_DOMAIN_PAUSED_MIGRATION, VIR_DOMAIN_EVENT_SUSPENDED_MIGRATED)
  | QEMU_ASYNC_JOB_SNAPSHOT =>
      (VIR_DOMAIN_PAUSED_SNAPSHOT, -1)
  | _ =>
      (VIR_DOMAIN_PAUSED_USER, VIR_DOMAIN_EVENT_SUSPENDED_PAUSED)
  end.

Definition qemuDomainSuspend : Drv Z :=
  vm <- qemuDomObjFromDomain ;;
  if vm =? 0 then ret (-1) else
  acl <- call virDomainSuspendEnsureACL ;;
  if acl <? 0 then qemuDomainSuspend_cleanup true None (-1) else
  act <- read active ;;
  if negb act then (not_running ;;; qemuDomainSuspend_cleanup true None (-1)) else
  bj <- call (qemuDomainObjBeginJob QEMU_JOB_SUSPEND) ;;
  if bj <? 0 then qemuDomainSuspend_cleanup true None (-1) else
  act <- read active ;;
  if negb act then (not_running ;;; qemuDomainSuspend_endjob None (-1)) else
  aj <- read (fun v => asyncJob (job v)) ;;
  let reason_ := fst (suspend_reason aj) in
  let eventDetail := snd (suspend_reason aj) in
  state_ <- read state ;;
  if state_ =? VIR_DOMAIN_PMSUSPENDED then
    (call (virReportError VIR_ERR_OPERATION_INVALID "domain is pmsuspended") ;;;
     qemuDomainSuspend_endjob None (-1))
  else
  let save_status (event : option Event) : Drv Z :=
    st <- call virDomainSaveStatus ;;
    if st <? 0 then qemuDomainSuspend_endjob event (-1)
    else qemuDomainSuspend_endjob event 0 in
  if negb (state_ =? VIR_DOMAIN_PAUSED) then
    (sc <- call (qemuProcessStopCPUs reason_ QEMU_ASYNC_JOB_NONE) ;;
     if sc <? 0 then qemuDomainSuspend_endjob None (-1) else
     if 0 <=? eventDetail then
       (event <- newEvent VIR_DOMAIN_EVENT_SUSPENDED eventDetail ;;
        save_status event)
     else save_status None)
  else save_status None.

(** *** qemuDomainResume *)

Definition qemuDomainResume_cleanup := qemuDomainSuspend_cleanup.
Definition qemuDomainResume_endjob := qemuDomainSuspend_endjob.

Definition qemuDomainResume : Drv Z :=
  vm <- qemuDomObjFromDomain ;;
  if vm =? 0 then ret (-1) else
  acl <- call virDomainResumeEnsureACL ;;
  if acl <? 0 then qemuDomainResume_cleanup true None (-1) else
  bj <- call (qemuDomainObjBeginJob QEMU_JOB_MODIFY) ;;
  if bj <? 0 then qemuDomainResume_cleanup true None (-1) else
  act <- read active ;;
  if negb act then (not_running ;;; qemuDomainResume_endjob None (-1)) else
  state_ <- read state ;;
  if state_ =? VIR_DOMAIN_PMSUSPENDED then
    (call (virReportError VIR_ERR_OPERATION_INVALID "domain is pmsuspended") ;;;
     qemuDomainResume_endjob None (-1))
  else
  let finish (event : option Event) : Drv Z :=
    caps <- call virQEMUDriverGetCapabilities ;;
    if caps =? 0 then qemuDomainResume_endjob event (-1) else
    st <- call virDomainSaveStatus ;;
    if st <? 0 then qemuDomainResume_endjob event (-1)
    else qemuDomainResume_endjob event 0 in
  if state_ =? VIR_DOMAIN_PAUSED then
    (sc <- call (qemuProcessStartCPUs VIR_DOMAIN_RUNNING_UNPAUSED QEMU_ASYNC_JOB_NONE) ;;
     if sc <? 0 then
       (le <- call virGetLastError ;;
        when (le =? 0)
             (call (virReportError VIR_ERR_OPERATION_FAILED "resume operation failed")) ;;;
        qemuDomainResume_endjob None (-1))
     else
       (event <- newEvent VIR_DOMAIN_EVENT_RESUMED VIR_DOMAIN_EVENT_RESUMED_UNPAUSED ;;
        finish event))
  else finish None.

(** *** qemuDomainShutdownFlags *)

Definition qemuDomainShutdownFlags_cleanup (vm : bool) (ret_ : Z) : Drv Z :=
  when vm (call virObjectUnlock) ;;;
  ret ret_.

Definition qemuDomainShutdownFlags_endjob (ret_ : Z) : Drv Z :=
  r <- call qemuDomainObjEndJob ;;
  qemuDomainShutdownFlags_cleanup (negb (r =? 0)) ret_.

(** [on_poweroff] set to restart turns the shutdown into a reboot. *)
Definition is_reboot (a : virDomainLifecycleAction) : bool :=
  match a with
  | VIR_DOMAIN_LIFECYCLE_RESTART | VIR_DOMAIN_LIFECYCLE_RESTART_RENAME => true
  | _ => false
  end.

Definition shutdown_mode (a : virDomainLifecycleAction) : qemuAgentShutdownMode :=
  if is_reboot a then QEMU_AGENT_SHUTDOWN_REBOOT else QEMU_AGENT_SHUTDOWN_POWERDOWN.

Definition qemuDomainShutdownFlags (flags : Z) : Drv Z :=
  virCheckFlags (Z.lor VIR_DOMAIN_SHUTDOWN_ACPI_POWER_BTN
                       VIR_DOMAIN_SHUTDOWN_GUEST_AGENT) (-1) flags
  (vm <- qemuDomObjFromDomain ;;
   if vm =? 0 then qemuDomainShutdownFlags_cleanup false (-1) else
   onp <- read onPoweroff ;;
   let isReboot := is_reboot onp in
   let agentFlag := shutdown_mode onp in
   let agentRequested := negb (Z.land flags VIR_DOMAIN_SHUTDOWN_GUEST_AGENT =? 0) in
   let acpiRequested := negb (Z.land flags VIR_DOMAIN_SHUTDOWN_ACPI_POWER_BTN =? 0) in
   ag <- read agent ;;
   let useAgent0 := agentRequested || ((flags =? 0) && ag) in
   acl <- call (virDomainShutdownFlagsEnsureACL flags) ;;
   if acl <? 0 then qemuDomainShutdownFlags_cleanup true (-1) else
   let agentForced := agentRequested && negb acpiRequested in
   avail <- call (qemuDomainAgentAvailable agentForced) ;;
   if (avail =? 0) && agentForced then qemuDomainShutdownFlags_cleanup true (-1) else
   let useAgent := if avail =? 0 then false else useAgent0 in
   bj <- call (qemuDomainObjBeginJob QEMU_JOB_MODIFY) ;;
   if bj <? 0 then qemuDomainShutdownFlags_cleanup true (-1) else
   act <- read active ;;
   if negb act then (not_running ;;; qemuDomainShutdownFlags_endjob (-1)) else
   ret1 <- (if useAgent then
              (call qemuDomainObjEnterAgent ;;;
               r <- call (qemuAgentShutdown agentFlag) ;;
               call qemuDomainObjExitAgent ;;;
               ret r)
            else ret (-1)) ;;
   if negb useAgent || ((ret1 <? 0) && (acpiRequested || (flags =? 0))) then
     (call (qemuDomainSetFakeReboot isReboot) ;;;
      call qemuDomainObjEnterMonitor ;;;
      r <- call qemuMonitorSystemPowerdown ;;
      call qemuDomainObjExitMonitor ;;;
      qemuDomainShutdownFlags_endjob r)
   else qemuDomainShutdownFlags_endjob ret1).

(** *** qemuDomainDestroyFlags *)

Definition qemuDomainDestroyFlags_cleanup (vm : bool) (event : option Event)
           (ret_ : Z) : Drv Z :=
  when vm (call virObjectUnlock) ;;;
  queueEvent event ;;;
  ret ret_.

(** [endjob: if (vm && !qemuDomainObjEndJob(driver, vm)) vm = NULL;] *)
Definition qemuDomainDestroyFlags_endjob (vm : bool) (event : option Event)
           (ret_ : Z) : Drv Z :=
  if vm then
    (r <- call qemuDomainObjEndJob ;;
     qemuDomainDestroyFlags_cleanup (negb (r =? 0)) event ret_)
  else qemuDomainDestroyFlags_cleanup false event ret_.

Definition qemuDomainDestroyFlags (flags : Z) : Drv Z :=
  virCheckFlags VIR_DOMAIN_DESTROY_GRACEFUL (-1) flags
  (vm <- qemuDomObjFromDomain ;;
   if vm =? 0 then ret (-1) else
   acl <- call virDomainDestroyFlagsEnsureACL ;;
   if acl <? 0 then qemuDomainDestroyFlags_cleanup true None (-1) else
   call (qemuDomainSetFakeReboot false) ;;;
   write (set_beingDestroyed true) ;;;
   k <- call (qemuProcessKill
                (if negb (Z.land flags VIR_DOMAIN_DESTROY_GRACEFUL =? 0)
                 then 0 else VIR_QEMU_PROCESS_KILL_FORCE)) ;;
   if k <? 0 then
     (write (set_beingDestroyed false) ;;;
      qemuDomainDestroyFlags_cleanup true None (-1))
   else
   bj <- call (qemuDomainObjBeginJob QEMU_JOB_DESTROY) ;;
   if bj <? 0 then qemuDomainDestroyFlags_cleanup true None (-1) else
   write (set_beingDestroyed false) ;;;
   act <- read active ;;
   if negb act then (not_running ;;; qemuDomainDestroyFlags_endjob true None (-1)) else
   call (qemuProcessStop VIR_DOMAIN_SHUTOFF_DESTROYED 0) ;;;
   event <- newEvent VIR_DOMAIN_EVENT_STOPPED VIR_DOMAIN_EVENT_STOPPED_DESTROYED ;;
   call (virDomainAuditStop "destroyed") ;;;
   p <- read persistent ;;
   if negb p then
     (r <- call qemuDomainObjEndJob ;;
      when (negb (r =? 0)) (call qemuDomainRemoveInactive) ;;;
      qemuDomainDestroyFlags_endjob false event 0)
   else qemuDomainDestroyFlags_endjob true event 0).

(** *** qemuDomainSaveInternal *)

(** [cleanup:] the event is queued first, the object unlocked second. *)
Definition qemuDomainSaveInternal_cleanup (vm : bool) (event : option Event)
           (ret_ : Z) : Drv Z :=
  queueEvent event ;;;
  when vm (call virObjectUnlock) ;;;
  ret ret_.

Definition qemuDomainSaveInternal_endjob (vm : bool) (was_running : bool)
           (event : option Event) (ret_ : Z) : Drv Z :=
  if vm then
    (event' <-
       (if negb (ret_ =? 0) then
          (act <- read active ;;
           if was_running && act then
             (rc <- call (qemuProcessStartCPUs VIR_DOMAIN_RUNNING_SAVE_CANCELED
                                               QEMU_ASYNC_JOB_SAVE) ;;
              if rc <? 0 then
                newEvent VIR_DOMAIN_EVENT_SUSPENDED VIR_DOMAIN_EVENT_SUSPENDED_API_ERROR
              else ret event)
           else ret event)
        else ret event) ;;
     r <- call qemuDomainObjEndAsyncJob ;;
     qemuDomainSaveInternal_cleanup (negb (r =? 0)) event' ret_)
  else qemuDomainSaveInternal_cleanup false event ret_.

Definition qemuDomainSaveInternal (path : string) (compressed : Z)
           (xmlin : bool) (flags : Z) : Drv Z :=
  caps <- call virQEMUDriverGetCapabilities ;;
  if caps =? 0 then qemuDomainSaveInternal_cleanup true None (-1) else
  ok <- call qemuMigrationIsAllowed ;;
  if ok =? 0 then qemuDomainSaveInternal_cleanup true None (-1) else
  aj <- call (qemuDomainObjBeginAsyncJob QEMU_ASYNC_JOB_SAVE) ;;
  if aj <? 0 then qemuDomainSaveInternal_cleanup true None (-1) else
  write (fun v => set_job (set_info (set_type VIR_DOMAIN_JOB_UNBOUNDED zero_info)
                                    (job v)) v) ;;;
  state_ <- read state ;;
  let after_pause (was_running0 : bool) : Drv Z :=
    let was_running :=
      if negb (Z.land flags VIR_DOMAIN_SAVE_RUNNING =? 0) then true
      else if negb (Z.land flags VIR_DOMAIN_SAVE_PAUSED =? 0) then false
      else was_running0 in
    let with_xml (xml : Z) : Drv Z :=
      if xml =? 0 then
        (call (virReportError VIR_ERR_OPERATION_FAILED "failed to get domain xml") ;;;
         qemuDomainSaveInternal_endjob true was_running None (-1))
      else
      r <- call (qemuDomainSaveMemory path compressed was_running flags) ;;
      if r <? 0 then qemuDomainSaveInternal_endjob true was_running None r else
      call (qemuProcessStop VIR_DOMAIN_SHUTOFF_SAVED 0) ;;;
      call (virDomainAuditStop "saved") ;;;
      event <- newEvent VIR_DOMAIN_EVENT_STOPPED VIR_DOMAIN_EVENT_STOPPED_SAVED ;;
      p <- read persistent ;;
      if negb p then
        (e <- call qemuDomainObjEndAsyncJob ;;
         when (0 <? e) (call qemuDomainRemoveInactive) ;;;
         qemuDomainSaveInternal_endjob false was_running event r)
      else qemuDomainSaveInternal_endjob true was_running event r in
    if xmlin then
      (def <- call virDomainDefParseString ;;
       if def =? 0 then qemuDomainSaveInternal_endjob true was_running None (-1) else
       abi <- call qemuDomainDefCheckABIStability ;;
       if abi =? 0 then
         (call virDomainDefFree ;;;
          qemuDomainSaveInternal_endjob true was_running None (-1))
       else
       xml <- call (qemuDomainDefFormatLive true) ;;
       with_xml xml)
    else
      (xml <- call (qemuDomainDefFormatLive false) ;;
       with_xml xml) in
  if state_ =? VIR_DOMAIN_RUNNING then
    (sc <- call (qemuProcessStopCPUs VIR_DOMAIN_PAUSED_SAVE QEMU_ASYNC_JOB_SAVE) ;;
     if sc <? 0 then qemuDomainSaveInternal_endjob true true None (-1) else
     act <- read active ;;
     if negb act then
       (call (virReportError VIR_ERR_INTERNAL_ERROR "guest unexpectedly quit") ;;;
        qemuDomainSaveInternal_endjob true true None (-1))
     else after_pause true)
  else after_pause false.


(** *** qemuDomainGetJobInfo, qemuDomainGetJobStats *)

Definition is_async_none (a : qemuDomainAsyncJob) : bool :=
  match a with QEMU_ASYNC_JOB_NONE => true | _ => false end.

Definition is_migration_in (a : qemuDomainAsyncJob) : bool :=
  match a with QEMU_ASYNC_JOB_MIGRATION_IN => true | _ => false end.

Definition is_bounded (t : virDomainJobType) : bool :=
  match t with VIR_DOMAIN_JOB_BOUNDED => true | _ => false end.

(** [unsigned long long] subtraction. *)
Definition ull_sub (a b : Z) : Z := (a - b) mod 2 ^ 64.

(** The oracle's answer to [virTimeMillisNow(&now)] stands for both
    results of the call: negative is the error return, otherwise it is
    the clock value stored through the pointer. *)
Definition qemuDomainGetJobInfo_cleanup (vm : bool) (info_ : virDomainJobInfo)
           (ret_ : Z) : Drv (Z * virDomainJobInfo) :=
  when vm (call virObjectUnlock) ;;;
  ret (ret_, info_).

(** [info0] is what the caller's buffer holds on entry; the result pairs
    the return value with what it holds on exit. *)
Definition qemuDomainGetJobInfo (info0 : virDomainJobInfo)
  : Drv (Z * virDomainJobInfo) :=
  vm <- qemuDomObjFromDomain ;;
  if vm =? 0 then qemuDomainGetJobInfo_cleanup false info0 (-1) else
  acl <- call virDomainGetJobInfoEnsureACL ;;
  if acl <? 0 then qemuDomainGetJobInfo_cleanup true info0 (-1) else
  act <- read active ;;
  if act then
    (j <- read job ;;
     if negb (is_async_none (asyncJob j)) && negb (dump_memory_only j) then
       (let info1 := info j in
        now <- call virTimeMillisNow ;;
        if now <? 0 then qemuDomainGetJobInfo_cleanup true info1 (-1) else
        qemuDomainGetJobInfo_cleanup true
          (set_timeElapsed (ull_sub now (start j)) info1) 0)
     else
       qemuDomainGetJobInfo_cleanup true (set_type VIR_DOMAIN_JOB_NONE zero_info) 0)
  else (not_running ;;; qemuDomainGetJobInfo_cleanup true info0 (-1)).

(** The out-parameters [*type], [*params] ([*nparams] is the length):
    [None] when the function left them alone. *)
Definition JobStats : Type := option (virDomainJobType * list (string * Z)).

Definition qemuDomainGetJobStats_cleanup (vm : bool) (out : JobStats)
           (ret_ : Z) : Drv (Z * JobStats) :=
  when vm (call virObjectUnlock) ;;;
  when (ret_ <? 0) (call virTypedParamsFree) ;;;
  ret (ret_, out).

(** [if (virTypedParamsAddULLong(&par, &npar, &maxpar, name, value) < 0)
      goto cleanup;] *)
Definition addULLong (par : list (string * Z)) (name : string) (value : Z)
           (k : list (string * Z) -> Drv (Z * JobStats)) : Drv (Z * JobStats) :=
  rc <- call (virTypedParamsAddULLong name value) ;;
  if rc <? 0 then qemuDomainGetJobStats_cleanup true None (-1)
  else k (par ++ [(name, value)])%list.

Definition addULLongIf (c : bool) (par : list (string * Z)) (name : string)
           (value : Z) (k : list (string * Z) -> Drv (Z * JobStats))
  : Drv (Z * JobStats) :=
  if c then addULLong par name value k else k par.

(** The part of [qemuDomainGetJobStats] that builds the typed parameter
    list from the (refreshed) progress block [priv->job.info] and the
    monitor's [priv->job.status], down to the assignment of the
    out-parameters. *)
Definition qemuDomainGetJobStats_params (j : qemuDomainJobObj) : Drv (Z * JobStats) :=
  let i := info j in
  let s := status j in
  addULLong [] "VIR_DOMAIN_JOB_TIME_ELAPSED" (timeElapsed i) (fun par =>
  addULLongIf (is_bounded (type i)) par
              "VIR_DOMAIN_JOB_TIME_REMAINING" (timeRemaining i) (fun par =>
  addULLongIf (downtime_set s) par "VIR_DOMAIN_JOB_DOWNTIME" (downtime s) (fun par =>
  addULLong par "VIR_DOMAIN_JOB_DATA_TOTAL" (dataTotal i) (fun par =>
  addULLong par "VIR_DOMAIN_JOB_DATA_PROCESSED" (dataProcessed i) (fun par =>
  addULLong par "VIR_DOMAIN_JOB_DATA_REMAINING" (dataRemaining i) (fun par =>
  addULLong par "VIR_DOMAIN_JOB_MEMORY_TOTAL" (memTotal i) (fun par =>
  addULLong par "VIR_DOMAIN_JOB_MEMORY_PROCESSED" (memProcessed i) (fun par =>
  addULLong par "VIR_DOMAIN_JOB_MEMORY_REMAINING" (memRemaining i) (fun par =>
  addULLongIf (ram_duplicate_set s) par
              "VIR_DOMAIN_JOB_MEMORY_CONSTANT" (ram_duplicate s) (fun par =>
  addULLongIf (ram_duplicate_set s) par
              "VIR_DOMAIN_JOB_MEMORY_NORMAL" (ram_normal s) (fun par =>
  addULLongIf (ram_duplicate_set s) par
              "VIR_DOMAIN_JOB_MEMORY_NORMAL_BYTES" (ram_normal_bytes s) (fun par =>
  addULLong par "VIR_DOMAIN_JOB_DISK_TOTAL" (fileTotal i) (fun par =>
  addULLong par "VIR_DOMAIN_JOB_DISK_PROCESSED" (fileProcessed i) (fun par =>
  addULLong par "VIR_DOMAIN_JOB_DISK_REMAINING" (fileRemaining i) (fun par =>
  addULLongIf (xbzrle_set s) par
              "VIR_DOMAIN_JOB_COMPRESSION_CACHE" (xbzrle_cache_size s) (fun par =>
  addULLongIf (xbzrle_set s) par
              "VIR_DOMAIN_JOB_COMPRESSION_BYTES" (xbzrle_bytes s) (fun par =>
  addULLongIf (xbzrle_set s) par
              "VIR_DOMAIN_JOB_COMPRESSION_PAGES" (xbzrle_pages s) (fun par =>
  addULLongIf (xbzrle_set s) par
              "VIR_DOMAIN_JOB_COMPRESSION_CACHE_MISSES" (xbzrle_cache_miss s) (fun par =>
  addULLongIf (xbzrle_set s) par
              "VIR_DOMAIN_JOB_COMPRESSION_OVERFLOW" (xbzrle_overflow s) (fun par =>
  qemuDomainGetJobStats_cleanup true (Some (type i, par)) 0)))))))))))))))))))).

Definition qemuDomainGetJobStats (flags : Z) : Drv (Z * JobStats) :=
  virCheckFlags 0 (-1, None) flags
  (vm <- qemuDomObjFromDomain ;;
   if vm =? 0 then qemuDomainGetJobStats_cleanup false None (-1) else
   acl <- call virDomainGetJobStatsEnsureACL ;;
   if acl <? 0 then qemuDomainGetJobStats_cleanup true None (-1) else
   act <- read active ;;
   if negb act then (not_running ;;; qemuDomainGetJobStats_cleanup true None (-1)) else
   j0 <- read job ;;
   if is_async_none (asyncJob j0) || dump_memory_only j0 then
     qemuDomainGetJobStats_cleanup true (Some (VIR_DOMAIN_JOB_NONE, [])) 0
   else
   now <- call virTimeMillisNow ;;
   if now <? 0 then qemuDomainGetJobStats_cleanup true None (-1) else
   write (fun v => set_job (set_info (set_timeElapsed (ull_sub now (start (job v)))
                                                      (info (job v)))
                                     (job v)) v) ;;;
   j <- read job ;;
   qemuDomainGetJobStats_params j).

(** *** qemuDomainAbortJob *)

Definition qemuDomainAbortJob_cleanup := qemuDomainShutdownFlags_cleanup.
Definition qemuDomainAbortJob_endjob := qemuDomainShutdownFlags_endjob.

Definition qemuDomainAbortJob : Drv Z :=
  vm <- qemuDomObjFromDomain ;;
  if vm =? 0 then qemuDomainAbortJob_cleanup false (-1) else
  acl <- call virDomainAbortJobEnsureACL ;;
  if acl <? 0 then qemuDomainAbortJob_cleanup true (-1) else
  bj <- call (qemuDomainObjBeginJob QEMU_JOB_ABORT) ;;
  if bj <? 0 then qemuDomainAbortJob_cleanup true (-1) else
  act <- read active ;;
  if negb act then (not_running ;;; qemuDomainAbortJob_endjob (-1)) else
  j <- read job ;;
  if is_async_none (asyncJob j) || dump_memory_only j then
    (call (virReportError VIR_ERR_OPERATION_INVALID "no job is active on the domain") ;;;
     qemuDomainAbortJob_endjob (-1))
  else if is_migration_in (asyncJob j) then
    (call (virReportError VIR_ERR_OPERATION_INVALID
             "cannot abort incoming migration; use virDomainDestroy instead") ;;;
     qemuDomainAbortJob_endjob (-1))
  else
    (call qemuDomainObjAbortAsyncJob ;;;
     call qemuDomainObjEnterMonitor ;;;
     r <- call qemuMonitorMigrateCancel ;;
     call qemuDomainObjExitMonitor ;;;
     qemuDomainAbortJob_endjob r).

End Driver.

Arguments run {Env A} m env vm.

(** ** Reading the log *)

Definition calls (l : list Entry) : list Call := map e_call l.

Definition is_begin_job (c : Call) : bool :=
  match c with qemuDomainObjBeginJob _ => true | _ => false end.

Definition is_begin_async_job (c : Call) : bool :=
  match c with qemuDomainObjBeginAsyncJob _ => true | _ => false end.

Definition is_end_job (c : Call) : bool :=
  match c with qemuDomainObjEndJob => true | _ => false end.

Definition is_event_queue (c : Call) : bool :=
  match c with qemuDomainEventQueue _ => true | _ => false end.

Definition is_new_event (c : Call) : bool :=
  match c with virDomainEventLifecycleNewFromObj _ _ => true | _ => false end.

Definition is_stop_cpus (c : Call) : bool :=
  match c with qemuProcessStopCPUs _ _ => true | _ => false end.

Definition is_start_cpus (c : Call) : bool :=
  match c with qemuProcessStartCPUs _ _ => true | _ => false end.

Definition is_kill (c : Call) : bool :=
  match c with qemuProcessKill _ => true | _ => false end.

Definition is_save_memory (c : Call) : bool :=
  match c with qemuDomainSaveMemory _ _ _ _ => true | _ => false end.

Definition is_save_status (c : Call) : bool :=
  match c with virDomainSaveStatus => true | _ => false end.

Definition is_get_capabilities (c : Call) : bool :=
  match c with virQEMUDriverGetCapabilities => true | _ => false end.

Definition is_agent_available (c : Call) : bool :=
  match c with qemuDomainAgentAvailable _ => true | _ => false end.

Definition is_agent_shutdown (c : Call) : bool :=
  match c with qemuAgentShutdown _ => true | _ => false end.

Definition is_powerdown (c : Call) : bool :=
  match c with qemuMonitorSystemPowerdown => true | _ => false end.

Definition is_abort_async (c : Call) : bool :=
  match c with qemuDomainObjAbortAsyncJob => true | _ => false end.

Definition is_migrate_cancel (c : Call) : bool :=
  match c with qemuMonitorMigrateCancel => true | _ => false end.

Definition is_lookup (c : Call) : bool :=
  match c with virDomainObjListFindByUUID => true | _ => false end.

Definition is_acl (c : Call) : bool :=
  match c with
  | virDomainSuspendEnsureACL | virDomainResumeEnsureACL
  | virDomainShutdownFlagsEnsureACL _ | virDomainDestroyFlagsEnsureACL
  | virDomainGetJobInfoEnsureACL | virDomainGetJobStatsEnsureACL
  | virDomainAbortJobEnsureACL => true
  | _ => false
  end.

(** The entry of the first call that satisfies [p], with the entries that
    follow it. *)
Fixpoint first_call (p : Call -> bool) (l : list Entry) : option (Entry * list Entry) :=
  match l with
  | [] => None
  | e :: l' => if p (e_call e) then Some (e, l') else first_call p l'
  end.

Definition called (p : Call -> bool) (l : list Entry) : bool :=
  existsb (fun e => p (e_call e)) l.

(** Modelled from the spec: whether the calling thread holds the object
    lock after a call returned.  The registry lookup returns the object
    locked; [virObjectUnlock] releases it; a channel guard releases it on
    enter and reacquires it on exit; [end_job]/[end_async_job] returning
    false (0) means the object is gone and the reference, lock included, is
    no longer valid; removing the object from the registry hands the lock
    back as well. *)
Definition lock_after (held : bool) (e : Entry) : bool :=
  match e_call e with
  | virDomainObjListFindByUUID => negb (e_ret e =? 0)
  | virObjectUnlock => false
  | qemuDomainObjEndJob | qemuDomainObjEndAsyncJob =>
      if e_ret e =? 0 then false else held
  | qemuDomainRemoveInactive => false
  | qemuDomainObjEnterMonitor | qemuDomainObjEnterAgent => false
  | qemuDomainObjExitMonitor | qemuDomainObjExitAgent => true
  | _ => held
  end.

(** No [qemuDomainEventQueue] in the log happens while the lock is held. *)
Fixpoint events_outside_lock (held : bool) (l : list Entry) : bool :=
  match l with
  | [] => true
  | e :: l' =>
      (if is_event_queue (e_call e) then negb held else true)
      && events_outside_lock (lock_after held e) l'
  end.

(** [virObjectUnlock] closes the log exactly when [end_job] left the
    reference valid. *)
Definition unlock_if (r : Z) : list Call :=
  if r =? 0 then [] else [virObjectUnlock].

(** ** A reference environment

    Modelled from the spec: a scripted rest-of-the-world for running the
    entry points on concrete inputs.  The script gives, call after call,
    the helper's return value and whether the hypervisor process died while
    the helper had the object unlocked; past the end of the script every
    helper succeeds.  The effect of a helper on the object follows the
    lifecycle state machine: stopping the CPUs leaves the domain [paused]
    with the given reason, starting them [running], stopping the process
    [shutoff] and inactive; [begin_async_job] fills the async slot and
    [end_async_job] clears it. *)

Definition VIR_DOMAIN_SHUTOFF_CRASHED : Z := 3.

Definition Script : Type := list (Z * bool).

Definition ref_effect (c : Call) (r : Z) (v : virDomainObj) : virDomainObj :=
  match c with
  | qemuProcessStopCPUs reason_ _ =>
      if r <? 0 then v else set_state VIR_DOMAIN_PAUSED reason_ v
  | qemuProcessStartCPUs reason_ _ =>
      if r <? 0 then v else set_state VIR_DOMAIN_RUNNING reason_ v
  | qemuProcessStop reason_ _ =>
      set_active false (set_state VIR_DOMAIN_SHUTOFF reason_ v)
  | qemuDomainObjBeginAsyncJob j =>
      if r <? 0 then v else set_job (set_asyncJob j (job v)) v
  | qemuDomainObjEndAsyncJob =>
      set_job (set_asyncJob QEMU_ASYNC_JOB_NONE (job v)) v
  | _ => v
  end.

Definition default_ret (c : Call) : Z :=
  match c with
  | virDomainObjListFindByUUID
  | virQEMUDriverGetCapabilities
  | qemuMigrationIsAllowed
  | qemuDomainObjEndJob
  | qemuDomainObjEndAsyncJob
  | qemuDomainAgentAvailable _
  | virDomainEventLifecycleNewFromObj _ _
  | virDomainDefParseString
  | qemuDomainDefCheckABIStability
  | qemuDomainDefFormatLive _ => 1
  | _ => 0
  end.

Definition died (v : virDomainObj) : virDomainObj :=
  set_active false (set_state VIR_DOMAIN_SHUTOFF VIR_DOMAIN_SHUTOFF_CRASHED v).

Definition scripted (c : Call) (s : Script) (v : virDomainObj)
  : Z * Script * virDomainObj :=
  match s with
  | [] => (default_ret c, [], ref_effect c (default_ret c) v)
  | (r, dies) :: s' =>
      (r, s', if dies then died (ref_effect c r v) else ref_effect c r v)
  end.

Definition no_status : qemuMonitorMigrationStatus :=
  mkMigStatus false 0 false 0 0 0 false 0 0 0 0 0.

Definition idle_job : qemuDomainJobObj :=
  mkJobObj QEMU_ASYNC_JOB_NONE false 0 zero_info no_status.

(** A persistent running guest without an agent and without a job. *)
Definition vm_running : virDomainObj :=
  mkVm true VIR_DOMAIN_RUNNING 1 true VIR_DOMAIN_LIFECYCLE_DESTROY false false idle_job.

(** The same guest paused by the user. *)
Definition vm_paused : virDomainObj :=
  set_state VIR_DOMAIN_PAUSED VIR_DOMAIN_PAUSED_USER vm_running.

(** A guest the user paused and that is now being migrated away. *)
Definition vm_paused_migrating : virDomainObj :=
  set_job (set_asyncJob QEMU_ASYNC_JOB_MIGRATION_OUT idle_job) vm_paused.

(** A running guest one second into an outgoing migration that started at
    clock value 1000. *)
Definition vm_migrating : virDomainObj :=
  set_job (mkJobObj QEMU_ASYNC_JOB_MIGRATION_OUT false 1000
                    (set_type VIR_DOMAIN_JOB_UNBOUNDED zero_info) no_status)
          vm_running.


Definition retval {Env A : Type} (r : A * World Env) : A := fst r.
Definition final_vm {Env A : Type} (r : A * World Env) : virDomainObj := w_vm (snd r).
Definition log {Env A : Type} (r : A * World Env) : list Entry := w_log (snd r).

(** ** The operations that run under a synchronous job *)

Inductive JobOp : Type :=
| OpSuspend
| OpResume
| OpShutdown (flags : Z)
| OpDestroy (flags : Z)
| OpAbortJob.

Definition run_op {Env : Type} (ext : Oracle Env) (op : JobOp) : Drv Env Z :=
  match op with
  | OpSuspend => qemuDomainSuspend ext
  | OpResume => qemuDomainResume ext
  | OpShutdown flags => qemuDomainShutdownFlags ext flags
  | OpDestroy flags => qemuDomainDestroyFlags ext flags
  | OpAbortJob => qemuDomainAbortJob ext
  end.

(** What the liveness re-check leaves of the object: destroy has reset its
    marker by then, the others have written nothing. *)
Definition after_recheck (op : JobOp) (v : virDomainObj) : virDomainObj :=
  match op with
  | OpDestroy _ => set_beingDestroyed false v
  | _ => v
  end.

(** ** The graceful stop, in the spec's words

    The caller asks for the agent, for ACPI, or for neither ("prefer the
    agent if connected").  The agent is used when it is asked for, or
    preferred and connected, and it is available; the monitor power-down
    follows when the agent was not used, or when the agent attempt failed
    and the flags ask for ACPI or for nothing.  Asking for the agent alone
    while it is unavailable fails the operation. *)

Definition agent_requested (flags : Z) : bool :=
  negb (Z.land flags VIR_DOMAIN_SHUTDOWN_GUEST_AGENT =? 0).

Definition acpi_requested (flags : Z) : bool :=
  negb (Z.land flags VIR_DOMAIN_SHUTDOWN_ACPI_POWER_BTN =? 0).

Definition shutdown_uses_agent (flags : Z) (connected available : bool) : bool :=
  (agent_requested flags || ((flags =? 0) && connected)) && available.

Definition shutdown_falls_back (flags : Z) (used_agent : bool) (agent_ret : Z) : bool :=
  negb used_agent || ((agent_ret <? 0) && (acpi_requested flags || (flags =? 0))).

Definition shutdown_agent_only_unavailable (flags : Z) (available : bool) : bool :=
  agent_requested flags && negb (acpi_requested flags) && negb available.

(** The calls of the two attempts, in the order the spec gives them. *)
Definition agent_attempt (used : bool) (a : virDomainLifecycleAction) : list Call :=
  if used then
    [qemuDomainObjEnterAgent; qemuAgentShutdown (shutdown_mode a); qemuDomainObjExitAgent]
  else [].

Definition monitor_attempt (falls_back : bool) (a : virDomainLifecycleAction) : list Call :=
  if falls_back then
    [qemuDomainSetFakeReboot (is_reboot a); qemuDomainObjEnterMonitor;
     qemuMonitorSystemPowerdown; qemuDomainObjExitMonitor]
  else [].

(** The return value of the agent attempt as the log has it; [-1], the
    initial [ret], when the agent was not tried. *)
Definition agent_result (l : list Entry) : Z :=
  match first_call is_agent_shutdown l with
  | Some (e, _) => e_ret e
  | None => -1
  end.

(** ** More log readers *)

Definition is_unlock (c : Call) : bool :=
  match c with virObjectUnlock => true | _ => false end.

Definition is_queue_of (ev : Event) (c : Call) : bool :=
  match c with
  | qemuDomainEventQueue e =>
      (ev_type e =? ev_type ev) && (ev_detail e =? ev_detail ev)
  | _ => false
  end.

(** Some [qemuDomainEventQueue] comes after a [virObjectUnlock]. *)
Fixpoint queue_after_unlock (unlocked : bool) (l : list Entry) : bool :=
  match l with
  | [] => false
  | e :: l' =>
      (is_event_queue (e_call e) && unlocked)
      || queue_after_unlock (unlocked || is_unlock (e_call e)) l'
  end.

(** Everything of the object but [priv->job.info.timeElapsed]. *)
Definition with_timeElapsed (t : Z) (v : virDomainObj) : virDomainObj :=
  set_job (set_info (set_timeElapsed t (info (job v))) (job v)) v.

(** The return value of the monitor power-down as the log has it, or
    [otherwise] when the monitor was not used. *)
Definition monitor_result (mon : list Entry) (otherwise : Z) : Z :=
  match first_call is_powerdown mon with
  | Some (e, _) => e_ret e
  | None => otherwise
  end.


Definition is_time_now (c : Call) : bool :=
  match c with virTimeMillisNow => true | _ => false end.

(** Calls that build or release a typed parameter list, or unlock. *)
Definition param_call (c : Call) : bool :=
  match c with
  | virTypedParamsAddULLong _ _ | virTypedParamsFree | virObjectUnlock => true
  | _ => false
  end.

(** A computation that leaves the object alone and only makes
    [param_call]s. *)
Definition quiet {Env A : Type} (m : Drv Env A) : Prop :=
  forall w,
    w_vm (snd (m w)) = w_vm w
    /\ exists l, w_log (snd (m w)) = (w_log w ++ l)%list
                 /\ forallb (fun e => param_call (e_call e)) l = true.

(** Scripts for the reference environment. *)

(** Lookup, access check, [qemuDomainSetFakeReboot] and the kill succeed;
    [begin_job] fails, as it does when the job slot stays taken until the
    wait times out. *)
Definition destroy_job_timeout : Script :=
  [(1, false); (0, false); (0, false); (0, false); (-1, false)].

(** Capabilities, migration check, [begin_async_job], stopping the CPUs and
    formatting the XML succeed; writing the image fails. *)
Definition save_image_write_fails : Script :=
  [(1, false); (1, false); (0, false); (0, false); (1, false); (-1, false)].

(** Lookup and access check succeed, the clock reads 5000. *)
Definition clock_at_5000 : Script :=
  [(1, false); (0, false); (5000, false)].

(** Lookup, access check, [begin_job] and the capabilities succeed;
    writing the status file fails. *)
Definition status_write_fails : Script :=
  [(1, false); (0, false); (0, false); (1, false); (-1, false)].

(** Lookup and access check succeed; the agent is not available. *)
Definition agent_unavailable : Script :=
  [(1, false); (0, false); (0, false)].

(** Lookup and access check succeed; the guest dies while [begin_job]
    waits. *)
Definition dies_waiting_for_job : Script :=
  [(1, false); (0, false); (0, true)].

(** ** Symbolic execution of an entry point

    [exec ext] unfolds the monad and the entry points, asks the oracle
    [ext] for each call in turn and splits on every test the C code makes;
    a test met a second time is rewritten with its first outcome. *)

Ltac exec_unfold :=
  cbv beta iota zeta delta
    [run run_op bind ret call read write when virCheckFlags qemuDomObjFromDomain
     newEvent queueEvent not_running
     qemuDomainSuspend qemuDomainSuspend_endjob qemuDomainSuspend_cleanup
     qemuDomainResume qemuDomainResume_endjob qemuDomainResume_cleanup
     qemuDomainShutdownFlags qemuDomainShutdownFlags_endjob
     qemuDomainShutdownFlags_cleanup
     qemuDomainDestroyFlags qemuDomainDestroyFlags_endjob
     qemuDomainDestroyFlags_cleanup
     qemuDomainSaveInternal qemuDomainSaveInternal_endjob
     qemuDomainSaveInternal_cleanup
     qemuDomainGetJobInfo qemuDomainGetJobInfo_cleanup
     qemuDomainGetJobStats qemuDomainGetJobStats_cleanup
     qemuDomainAbortJob qemuDomainAbortJob_endjob qemuDomainAbortJob_cleanup
     retval final_vm log touches_vm];
  cbn [w_vm w_env w_log e_call e_ret e_pre e_post fst snd app map existsb
       negb andb orb
       calls first_call called events_outside_lock lock_after queue_after_unlock
       is_begin_job is_begin_async_job is_end_job is_event_queue is_new_event
       is_stop_cpus is_start_cpus is_kill is_save_memory is_save_status
       is_get_capabilities is_agent_available is_agent_shutdown is_powerdown
       is_abort_async is_migrate_cancel is_lookup is_acl is_unlock is_time_now
       active state reason persistent onPoweroff agent beingDestroyed job
       asyncJob dump_memory_only start info status
       set_beingDestroyed set_job set_state set_active set_info set_asyncJob].

Ltac exec_case x :=
  lazymatch x with
  | negb ?y => exec_case y
  | andb ?y _ => exec_case y
  | orb ?y _ => exec_case y
  | _ =>
      match goal with
      | H : x = _ |- _ => rewrite H
      | _ =>
          let y := eval cbv in x in
          lazymatch y with
          | true => change x with true
          | false => change x with false
          | _ => destruct x eqn:?
          end
      end
  end.

Ltac exec_step f :=
  match goal with
  | |- context [f ?c ?e ?v] => destruct (f c e v) as [[? ?] ?] eqn:?
  | |- context [match ?x with _ => _ end] =>
      lazymatch x with
      | context [f] => fail
      | context [match _ with _ => _ end] => fail
      | _ => exec_case x
      end
  end.

Ltac exec f := exec_unfold; repeat (exec_step f; exec_unfold).

Ltac bool_hyps :=
  repeat match goal with
  | H : negb _ = true |- _ => apply negb_true_iff in H
  | H : negb _ = false |- _ => apply negb_false_iff in H
  | H : (_ <? _) = true |- _ => apply Z.ltb_lt in H
  | H : (_ <? _) = false |- _ => apply Z.ltb_ge in H
  | H : (_ =? _) = true |- _ => apply Z.eqb_eq in H
  | H : (_ =? _) = false |- _ => apply Z.eqb_neq in H
  | H : (_ <=? _) = true |- _ => apply Z.leb_le in H
  | H : (_ <=? _) = false |- _ => apply Z.leb_gt in H
  | H : andb _ _ = true |- _ => apply andb_true_iff in H; destruct H
  | H : orb _ _ = false |- _ => apply orb_false_iff in H; destruct H
  end.

Ltac unfold_consts :=
  unfold VIR_DOMAIN_RUNNING, VIR_DOMAIN_PAUSED, VIR_DOMAIN_PMSUSPENDED,
         VIR_DOMAIN_SHUTOFF in *.

(** A path the hypotheses of the theorem exclude. *)
Ltac absurd_path :=
  exfalso; bool_hyps; unfold_consts; first [ lia | congruence ].

(** The log ends with [virObjectUnlock] exactly when [end_job] said the
    object is still there. *)
Ltac pick_unlock :=
  unfold unlock_if; cbn [e_ret e_call calls map];
  bool_hyps;
  repeat match goal with
  | |- context [?z =? 0] => destruct (Z.eqb_spec z 0); try (exfalso; lia)
  end.

(** The first call of a kind, read off an executed log. *)
Ltac take_entry H :=
  try discriminate H; inversion H; subst; clear H; cbn [e_ret e_post e_pre e_call].

Ltac use_tests :=
  repeat match goal with
  | H : ?x = true |- context [?x] => rewrite H
  | H : ?x = false |- context [?x] => rewrite H
  end.

(** The split of the log of a shutdown into agent attempt ([a] entries)
    and monitor attempt ([m] entries). *)
Ltac shutdown_split a m :=
  match goal with
  | |- exists ag mon ej tail, ?rest = _ /\ _ =>
      exists (firstn a rest), (firstn m (skipn a rest)); do 2 eexists;
      cbn [firstn skipn app]; split; [reflexivity|]
  end.

Ltac shutdown_solve a m :=
  shutdown_split a m;
  cbn [calls map e_call e_ret agent_result monitor_result first_call
       is_agent_shutdown is_powerdown];
  use_tests; cbn [negb andb orb];
  unfold agent_attempt, monitor_attempt;
  repeat split; try reflexivity; pick_unlock; reflexivity.

(** In a concrete run: the first call of a kind and what follows it. *)
Ltac find_entry := do 2 eexists; split; [vm_compute; reflexivity|].

(** A fact about a concrete run, by evaluation. *)
Ltac by_run := vm_compute; first [ reflexivity | discriminate | intro; discriminate ].

(** ** Counting calls and following the lock *)

Definition count_calls (p : Call -> bool) (l : list Entry) : nat :=
  List.length (filter (fun e => p (e_call e)) l).

(** Whether the calling thread holds the object lock at the end of the
    log, having started with [held]. *)
Definition lock_state (held : bool) (l : list Entry) : bool :=
  fold_left lock_after l held.

(** The log holds a [begin_job] and it succeeded. *)
Definition job_acquired (l : list Entry) : bool :=
  match first_call is_begin_job l with
  | Some (bj, _) => negb (e_ret bj <? 0)
  | None => false
  end.

Definition async_job_acquired (l : list Entry) : bool :=
  match first_call is_begin_async_job l with
  | Some (bj, _) => negb (e_ret bj <? 0)
  | None => false
  end.

Definition is_end_async_job (c : Call) : bool :=
  match c with qemuDomainObjEndAsyncJob => true | _ => false end.

Definition is_process_stop (c : Call) : bool :=
  match c with qemuProcessStop _ _ => true | _ => false end.

Definition is_remove_inactive (c : Call) : bool :=
  match c with qemuDomainRemoveInactive => true | _ => false end.

Definition is_report_error (c : Call) : bool :=
  match c with virReportError _ _ => true | _ => false end.

(** [end_async_job] answers with a reference count, never a negative
    number. *)
Definition end_async_counts (l : list Entry) : bool :=
  forallb (fun e => negb (is_end_async_job (e_call e)) || negb (e_ret e <? 0)) l.

(** A computation that, whatever the lock state before it, ends with the
    object lock released. *)
Definition releases {Env A : Type} (m : Drv Env A) : Prop :=
  forall w, exists l,
    w_log (snd (m w)) = (w_log w ++ l)%list
    /\ forall held, lock_state held l = false.

(** The error every entry point reports when the lookup fails. *)
Definition no_domain_error : Call :=
  virReportError VIR_ERR_NO_DOMAIN "no domain with matching uuid '%s' (%s)".

(** Lookup succeeds and the access check denies the call. *)
Definition acl_denied : Script := [(1, false); (-1, false)].

(** Lookup, access check and [begin_job] succeed; stopping or starting the
    CPUs fails. *)
Definition cpus_fail : Script := [(1, false); (0, false); (0, false); (-1, false)].

Ltac exec_unfold2 :=
  exec_unfold;
  cbn [fold_left filter List.length count_calls lock_state lock_after job_acquired
       async_job_acquired first_call forallb end_async_counts
       is_end_async_job is_process_stop is_remove_inactive is_report_error
       is_begin_job is_begin_async_job is_end_job e_call e_ret negb andb orb].

Ltac exec2 f := exec_unfold2; repeat (exec_step f; exec_unfold2).

(** ** Failures of the save after the pause, and later deaths of the guest *)


Definition is_exit_agent (c : Call) : bool :=
  match c with qemuDomainObjExitAgent => true | _ => false end.


(** The guest is found, the caller is allowed, the agent is available, the
    job is taken and the agent is entered; the agent's shutdown command
    fails. *)
Definition agent_shutdown_fails : Script :=
  [(1, false); (0, false); (1, false); (0, false); (0, false); (-1, false)].

(** The same, and the guest dies during the agent's command. *)
Definition dies_in_agent_round_trip : Script :=
  [(1, false); (0, false); (1, false); (0, false); (0, false); (-1, true)].

(** The capabilities are there and the migration is allowed; the guest
    dies while the save waits for its async job. *)
Definition dies_waiting_for_async_job : Script :=
  [(1, false); (1, false); (0, true)].


Ltac queue_seen :=
  cbn [called existsb e_call is_queue_of ev_type ev_detail orb];
  rewrite ?Z.eqb_refl; cbn [andb orb]; rewrite ?orb_true_r; reflexivity.

(** A running guest that suspended itself to memory (S3). *)
Definition vm_pmsuspended : virDomainObj :=
  set_state VIR_DOMAIN_PMSUSPENDED 0 vm_running.

(** Lookup fails. *)
Definition no_such_domain : Script := [(0, false)].

(** Lookup and access check succeed, the fake-reboot flag is cleared; the
    process cannot be killed. *)
Definition kill_fails : Script := [(1, false); (0, false); (0, false); (-1, false)].

(** * The save image: header, padding, writer and reader

    [qemuDomainSaveMemory], [qemuDomainSaveHeader] and
    [qemuDomainSaveImageOpen] work on a file and not on the domain object.
    They get a world of their own: an oracle for the file and library
    calls, and a log of the calls with what they returned. *)

Module SaveImage.

Definition QEMU_SAVE_MAGIC : string := "LibvirtQemudSave".
Definition QEMU_SAVE_PARTIAL : string := "LibvirtQemudPart".
Definition QEMU_SAVE_VERSION : Z := 2.
Definition QEMU_SAVE_FORMAT_RAW : Z := 0.
Definition QEMU_SAVE_FORMAT_LAST : Z := 5.

(** The names of [virQEMUSaveFormat], by number. *)
Definition qemuSaveCompression : list string :=
  ["raw"; "gzip"; "bzip2"; "xz"; "lzop"].

(** [virQEMUSaveHeader]: 16 bytes of magic and four [uint32_t]; the 15
    unused words are zeroed by the writer and never looked at. *)
Record virQEMUSaveHeader : Type := mkHeader {
  magic : string;
  version : Z;
  xml_len : Z;
  was_running : Z;
  compressed : Z
}.

(** [sizeof(virQEMUSaveHeader)]: 16 + 4 * 4 + 15 * 4. *)
Definition sizeof_header : Z := 92.

(** [bswap_32] of the C library's <byteswap.h>: the four bytes of a
    32-bit word in reverse order. *)
Definition bswap_32 (x : Z) : Z :=
  (x mod 256) * 2 ^ 24
  + ((x / 2 ^ 8) mod 256) * 2 ^ 16
  + ((x / 2 ^ 16) mod 256) * 2 ^ 8
  + (x / 2 ^ 24) mod 256.

Definition bswap_header (hdr : virQEMUSaveHeader) : virQEMUSaveHeader :=
  mkHeader (magic hdr) (bswap_32 (version hdr)) (bswap_32 (xml_len hdr))
           (bswap_32 (was_running hdr)) (bswap_32 (compressed hdr)).

Definition set_magic (m : string) (h : virQEMUSaveHeader) : virQEMUSaveHeader :=
  mkHeader m (version h) (xml_len h) (was_running h) (compressed h).

Definition set_was_running (w : Z) (h : virQEMUSaveHeader) : virQEMUSaveHeader :=
  mkHeader (magic h) (version h) (xml_len h) w (compressed h).

Definition set_xml_len (n : Z) (h : virQEMUSaveHeader) : virQEMUSaveHeader :=
  mkHeader (magic h) (version h) n (was_running h) (compressed h).

(** The fields of a header are 32-bit words. *)
Definition word32 (x : Z) : Prop := 0 <= x < 2 ^ 32.

Definition header_words (h : virQEMUSaveHeader) : Prop :=
  word32 (version h) /\ word32 (xml_len h) /\ word32 (was_running h)
  /\ word32 (compressed h).

(** [unsigned long long] and [size_t] arithmetic (both 64 bits wide), and
    what a store to a [uint32_t] field keeps. *)
Definition ull (x : Z) : Z := x mod 2 ^ 64.

Definition u32 (x : Z) : Z := x mod 2 ^ 32.

(** The padding [qemuDomainSaveMemory] puts after the XML, for the block
    size [bs] ([QEMU_MONITOR_MIGRATE_TO_FILE_BS]) and the offset of the end
    of the XML:
    [pad = 1024; pad += (bs - ((offset + pad) % bs));] *)
Definition save_padding (bs offset : Z) : Z :=
  ull (1024 + ull (bs - ull (offset + 1024) mod bs)).

(** How a file is opened. *)
Inductive OpenMode : Type :=
| O_RDONLY
| O_RDWR
| O_WRONLY
| O_WRONLY_TRUNC_CREAT.

(** The definitions [qemuDomainSaveImageOpen] juggles: the one parsed from
    the image, the one parsed from the caller's XML, and the migratable
    copy of the latter. *)
Inductive DefRef : Type :=
| SavedDef
| UserDef
| CopyDef.

Inductive ICall : Type :=
| virFileDirectFdFlag
| virReportError (code : virErrorNumber) (msg : string)
| virReportSystemError (msg : string)
| errno
| virQEMUDriverGetCapabilities
| qemuOpenFile (with_vm : bool) (mode : OpenMode) (directFlag : Z)
| qemuOpenFile_needUnlink
| qemuOpenFile_bypassSecurityDriver
| virSecurityManagerSetImageFDLabel
| virFileWrapperFdNew (bypass_cache : bool)
| virFileWrapperFdClose
| saferead_header
| saferead_xml (len : Z)
| safewrite_header (header : virQEMUSaveHeader)
| safewrite_xml (len : Z)
| qemuMigrationToFile (offset : Z) (program : option string)
                      (bypassSecurityDriver : bool)
| VIR_CLOSE
| VIR_FORCE_CLOSE
| unlink
| VIR_ALLOC_N (count : Z)
| virDomainDefParseString (which : DefRef)
| qemuDomainDefCopy
| virDomainDefCheckABIStability (src dst : DefRef)
| virDomainDefFree (def : option DefRef)
| virResetLastError.

Definition IOracle (Env : Type) : Type := ICall -> Env -> Z * Env.

Section IO.

Variable Env : Type.
Variable ext : IOracle Env.

Record IWorld : Type := mkIWorld {
  io_env : Env;
  io_log : list (ICall * Z)
}.

Definition IO (A : Type) : Type := IWorld -> A * IWorld.

Definition ireturn {A : Type} (a : A) : IO A := fun w => (a, w).

Definition ibind {A B : Type} (m : IO A) (k : A -> IO B) : IO B :=
  fun w => let (a, w') := m w in k a w'.

Definition icall (c : ICall) : IO Z :=
  fun w =>
    let (r, e') := ext c (io_env w) in
    (r, mkIWorld e' (io_log w ++ [(c, r)])).

Definition irun {A : Type} (m : IO A) (env : Env) : A * IWorld :=
  m (mkIWorld env []).

Notation "x <- m ;; k" := (ibind m (fun x => k))
  (at level 61, m at next level, right associativity).
Notation "m ;;; k" := (ibind m (fun _ => k))
  (at level 61, right associativity).

(** [if (header.version > QEMU_SAVE_VERSION) bswap_header(&header);]:
    a header whose version is too big is taken to come from a host of the
    other byte order. *)
Definition host_header (file_header : virQEMUSaveHeader) : virQEMUSaveHeader :=
  if QEMU_SAVE_VERSION <? version file_header then bswap_header file_header
  else file_header.

(** [VIR_ENUM_IMPL(qemuSaveCompression, QEMU_SAVE_FORMAT_LAST, "raw",
    "gzip", "bzip2", "xz", "lzop")]: the name of a save format, and [NULL]
    for a number that is none. *)
Definition qemuSaveCompressionTypeToString (type : Z) : option string :=
  if (type <? 0) || (QEMU_SAVE_FORMAT_LAST <=? type) then None
  else nth_error qemuSaveCompression (Z.to_nat type).

(** [qemuCompressProgramName]: no program for a raw image, otherwise the
    name of the save format. *)
Definition qemuCompressProgramName (compress : Z) : option string :=
  if compress =? QEMU_SAVE_FORMAT_RAW then None
  else qemuSaveCompressionTypeToString compress.

(** [qemuDomainSaveHeader]: 0, or [-errno] of the write that fell short. *)
Definition qemuDomainSaveHeader (header : virQEMUSaveHeader) : IO Z :=
  n <- icall (safewrite_header header) ;;
  if negb (n =? sizeof_header) then
    (e <- icall errno ;;
     icall (virReportError VIR_ERR_OPERATION_FAILED
              "failed to write header to domain save file '%s'") ;;;
     ireturn (- e))
  else
  n <- icall (safewrite_xml (xml_len header)) ;;
  if negb (n =? xml_len header) then
    (e <- icall errno ;;
     icall (virReportError VIR_ERR_OPERATION_FAILED "failed to write xml to '%s'") ;;;
     ireturn (- e))
  else ireturn 0.

(** [cleanup:] of [qemuDomainSaveMemory]. *)
Definition qemuDomainSaveMemory_cleanup (needUnlink : bool) (ret_ : Z) : IO Z :=
  icall VIR_FORCE_CLOSE ;;;
  (if negb (ret_ =? 0) && needUnlink then (icall unlink ;;; ireturn tt)
   else ireturn tt) ;;;
  ireturn ret_.

(** [qemuDomainSaveMemory] for the block size [bs]; [domXML_len] is
    [strlen(domXML)].  The answers for the two out-parameters of the first
    [qemuOpenFile] are asked for right after it. *)
Definition qemuDomainSaveMemory (bs : Z) (domXML_len : Z) (compressed_ : Z)
           (was_running_ : bool) (flags : Z) : IO Z :=
  let header :=
    mkHeader QEMU_SAVE_PARTIAL QEMU_SAVE_VERSION 0
             (if was_running_ then 1 else 0) (u32 compressed_) in
  let len := ull (domXML_len + 1) in
  let offset := ull (sizeof_header + len) in
  let pad := save_padding bs offset in
  a <- icall (VIR_ALLOC_N (ull (len + pad))) ;;
  if a <? 0 then qemuDomainSaveMemory_cleanup false (-1) else
  let offset := ull (offset + pad) in
  let header := set_xml_len (u32 len) header in
  let bypass := negb (Z.land flags VIR_DOMAIN_SAVE_BYPASS_CACHE =? 0) in
  let open_file (directFlag : Z) : IO Z :=
    fd <- icall (qemuOpenFile true O_WRONLY_TRUNC_CREAT directFlag) ;;
    nu <- icall qemuOpenFile_needUnlink ;;
    bs_ <- icall qemuOpenFile_bypassSecurityDriver ;;
    let needUnlink := negb (nu =? 0) in
    if fd <? 0 then qemuDomainSaveMemory_cleanup needUnlink (-1) else
    l <- icall virSecurityManagerSetImageFDLabel ;;
    if l <? 0 then qemuDomainSaveMemory_cleanup needUnlink (-1) else
    w <- icall (virFileWrapperFdNew bypass) ;;
    if w =? 0 then qemuDomainSaveMemory_cleanup needUnlink (-1) else
    h <- qemuDomainSaveHeader header ;;
    if h <? 0 then qemuDomainSaveMemory_cleanup needUnlink (-1) else
    m <- icall (qemuMigrationToFile offset (qemuCompressProgramName compressed_)
                                    (negb (bs_ =? 0))) ;;
    if m <? 0 then qemuDomainSaveMemory_cleanup needUnlink (-1) else
    c <- icall VIR_CLOSE ;;
    if c <? 0 then
      (icall (virReportSystemError "unable to close %s") ;;;
       qemuDomainSaveMemory_cleanup needUnlink (-1))
    else
    wc <- icall virFileWrapperFdClose ;;
    if wc <? 0 then qemuDomainSaveMemory_cleanup needUnlink (-1) else
    fd2 <- icall (qemuOpenFile true O_WRONLY 0) ;;
    if fd2 <? 0 then qemuDomainSaveMemory_cleanup needUnlink (-1) else
    n <- icall (safewrite_header (set_magic QEMU_SAVE_MAGIC header)) ;;
    if negb (n =? sizeof_header) then
      (icall (virReportSystemError "unable to write %s") ;;;
       qemuDomainSaveMemory_cleanup needUnlink (-1))
    else
    c2 <- icall VIR_CLOSE ;;
    if c2 <? 0 then
      (icall (virReportSystemError "unable to close %s") ;;;
       qemuDomainSaveMemory_cleanup needUnlink (-1))
    else qemuDomainSaveMemory_cleanup needUnlink 0 in
  if bypass then
    (d <- icall virFileDirectFdFlag ;;
     if d <? 0 then
       (icall (virReportError VIR_ERR_OPERATION_FAILED
                 "bypass cache unsupported by this system") ;;;
        qemuDomainSaveMemory_cleanup false (-1))
     else open_file d)
  else open_file 0.

(** What [qemuDomainSaveImageOpen] hands back: the return value (the open
    descriptor, -1, -2 or -3) and, on success, [*ret_def] and
    [*ret_header]. *)
Definition Opened : Type := Z * option (DefRef * virQEMUSaveHeader).

(** [error:] of [qemuDomainSaveImageOpen]. *)
Definition qemuDomainSaveImageOpen_error (def : option DefRef) : IO Opened :=
  icall (virDomainDefFree def) ;;;
  icall VIR_FORCE_CLOSE ;;;
  ireturn (-1, None).

(** [if (VIR_CLOSE(fd) < 0 || unlink(path) < 0) { ...; goto error; }
     return -3;] *)
Definition remove_corrupt : IO Opened :=
  c <- icall VIR_CLOSE ;;
  if c <? 0 then
    (icall (virReportSystemError "cannot remove corrupt file: %s") ;;;
     qemuDomainSaveImageOpen_error None)
  else
  u <- icall unlink ;;
  if u <? 0 then
    (icall (virReportSystemError "cannot remove corrupt file: %s") ;;;
     qemuDomainSaveImageOpen_error None)
  else ireturn (-3, None).

(** [qemuDomainSaveImageOpen].  [file_header] and [file_xml] are what the
    file holds where the header and the XML are read; [xmlin] is the
    caller's XML if any, [state] is -1 for no change, 0 for paused and 1
    for running.  The callers edit with an XML only: [STREQ(xml, xmlin)]
    on a NULL [xmlin] is not modelled and counts as a difference. *)
Definition qemuDomainSaveImageOpen (file_header : virQEMUSaveHeader)
           (file_xml : string) (bypass_cache : bool) (xmlin : option string)
           (state_ : Z) (edit unlink_corrupt : bool) : IO Opened :=
  let fail (msg : string) (def : option DefRef) : IO Opened :=
    icall (virReportError VIR_ERR_OPERATION_FAILED msg) ;;;
    qemuDomainSaveImageOpen_error def in
  let opened (directFlag : Z) : IO Opened :=
    caps <- icall virQEMUDriverGetCapabilities ;;
    if caps =? 0 then qemuDomainSaveImageOpen_error None else
    fd <- icall (qemuOpenFile false (if edit then O_RDWR else O_RDONLY) directFlag) ;;
    if fd <? 0 then qemuDomainSaveImageOpen_error None else
    w <- (if bypass_cache then icall (virFileWrapperFdNew true) else ireturn 1) ;;
    if w =? 0 then qemuDomainSaveImageOpen_error None else
    n <- icall saferead_header ;;
    if negb (n =? sizeof_header) then
      (if unlink_corrupt then remove_corrupt
       else fail "failed to read qemu header" None)
    else
    if negb (String.eqb (magic file_header) QEMU_SAVE_MAGIC) then
      (if String.eqb (magic file_header) QEMU_SAVE_PARTIAL then
         (if unlink_corrupt then remove_corrupt
          else fail "save image is incomplete" None)
       else fail "image magic is incorrect" None)
    else
    let header := host_header file_header in
    if QEMU_SAVE_VERSION <? version header then
      fail "image version is not supported (%d > %d)" None
    else
    if xml_len header <=? 0 then fail "invalid XML length: %d" None else
    a <- icall (VIR_ALLOC_N (xml_len header)) ;;
    if a <? 0 then qemuDomainSaveImageOpen_error None else
    n <- icall (saferead_xml (xml_len header)) ;;
    if negb (n =? xml_len header) then fail "failed to read XML" None else
    if edit
       && match xmlin with Some x => String.eqb file_xml x | None => false end
       && ((state_ <? 0) || (state_ =? was_running header)) then
      (c <- icall VIR_CLOSE ;;
       if c <? 0 then
         (icall (virReportSystemError "cannot close file: %s") ;;;
          qemuDomainSaveImageOpen_error None)
       else ireturn (-2, None))
    else
    let header := if 0 <=? state_ then set_was_running state_ header else header in
    def <- icall (virDomainDefParseString SavedDef) ;;
    if def =? 0 then qemuDomainSaveImageOpen_error None else
    match xmlin with
    | Some _ =>
        def2 <- icall (virDomainDefParseString UserDef) ;;
        if def2 =? 0 then qemuDomainSaveImageOpen_error (Some SavedDef) else
        newdef <- icall qemuDomainDefCopy ;;
        if newdef =? 0 then
          (icall (virDomainDefFree (Some UserDef)) ;;;
           qemuDomainSaveImageOpen_error (Some SavedDef))
        else
        abi <- icall (virDomainDefCheckABIStability SavedDef CopyDef) ;;
        if abi =? 0 then
          (icall (virDomainDefFree (Some CopyDef)) ;;;
           icall virResetLastError ;;;
           abi2 <- icall (virDomainDefCheckABIStability SavedDef UserDef) ;;
           if abi2 =? 0 then
             (icall (virDomainDefFree (Some UserDef)) ;;;
              qemuDomainSaveImageOpen_error (Some SavedDef))
           else
             (icall (virDomainDefFree (Some SavedDef)) ;;;
              ireturn (fd, Some (UserDef, header))))
        else
          (icall (virDomainDefFree (Some UserDef)) ;;;
           icall (virDomainDefFree (Some SavedDef)) ;;;
           ireturn (fd, Some (CopyDef, header)))
    | None => ireturn (fd, Some (SavedDef, header))
    end in
  if bypass_cache then
    (d <- icall virFileDirectFdFlag ;;
     if d <? 0 then fail "bypass cache unsupported by this system" None
     else opened d)
  else opened 0.

End IO.

Arguments irun {Env A} m env.

(** Reading the log. *)

Definition icalls (l : list (ICall * Z)) : list ICall := map fst l.

Definition icalled (p : ICall -> bool) (l : list (ICall * Z)) : bool :=
  existsb (fun e => p (fst e)) l.

Fixpoint ifirst (p : ICall -> bool) (l : list (ICall * Z))
  : option ((ICall * Z) * list (ICall * Z)) :=
  match l with
  | [] => None
  | e :: l' => if p (fst e) then Some (e, l') else ifirst p l'
  end.

Definition is_unlink (c : ICall) : bool :=
  match c with unlink => true | _ => false end.

Definition is_report (c : ICall) : bool :=
  match c with virReportError _ _ | virReportSystemError _ => true | _ => false end.

Definition is_parse (c : ICall) : bool :=
  match c with virDomainDefParseString _ => true | _ => false end.

Definition is_migration (c : ICall) : bool :=
  match c with qemuMigrationToFile _ _ _ => true | _ => false end.

Definition is_write_header (c : ICall) : bool :=
  match c with safewrite_header _ => true | _ => false end.

Definition is_read_xml (c : ICall) : bool :=
  match c with saferead_xml _ => true | _ => false end.

Definition is_read_header (c : ICall) : bool :=
  match c with saferead_header => true | _ => false end.

Definition is_needUnlink (c : ICall) : bool :=
  match c with qemuOpenFile_needUnlink => true | _ => false end.

Definition is_alloc (c : ICall) : bool :=
  match c with VIR_ALLOC_N _ => true | _ => false end.

(** One of the four complaints of [qemuDomainSaveImageOpen] about the
    header it has read. *)
Definition is_header_error (c : ICall) : bool :=
  match c with
  | virReportError _ msg =>
      String.eqb msg "image magic is incorrect"
      || String.eqb msg "save image is incomplete"
      || String.eqb msg "image version is not supported (%d > %d)"
      || String.eqb msg "invalid XML length: %d"
  | _ => false
  end.

(** The header of the last [safewrite] of a header: both writes of
    [qemuDomainSaveMemory] go to the start of the file, so this is the
    header the file is left with. *)
Fixpoint last_header_write (l : list (ICall * Z)) : option virQEMUSaveHeader :=
  match l with
  | [] => None
  | e :: l' =>
      match last_header_write l' with
      | Some h => Some h
      | None => match fst e with safewrite_header h => Some h | _ => None end
      end
  end.

Definition iretval {Env A : Type} (r : A * IWorld Env) : A := fst r.
Definition ilog {Env A : Type} (r : A * IWorld Env) : list (ICall * Z) := io_log (snd r).

(** A file system on which every call succeeds: reads and writes are
    complete, descriptors and pointers are valid, the created file needs
    unlinking if the save fails.  A script overrides the answers call by
    call. *)
Definition io_default (c : ICall) : Z :=
  match c with
  | saferead_header | safewrite_header _ => sizeof_header
  | saferead_xml n | safewrite_xml n => n
  | qemuOpenFile _ _ _ => 7
  | qemuOpenFile_needUnlink => 1
  | virQEMUDriverGetCapabilities | virFileWrapperFdNew _
  | virDomainDefParseString _ | qemuDomainDefCopy
  | virDomainDefCheckABIStability _ _ => 1
  | errno => 5
  | _ => 0
  end.

Definition io_scripted (c : ICall) (s : list Z) : Z * list Z :=
  match s with
  | [] => (io_default c, [])
  | r :: s' => (r, s')
  end.

(** The header [qemuDomainSaveMemory] writes first for an XML of
    [domXML_len] characters, and the one it writes last. *)
Definition first_header (domXML_len compressed_ : Z) (was_running_ : bool)
  : virQEMUSaveHeader :=
  mkHeader QEMU_SAVE_PARTIAL QEMU_SAVE_VERSION (u32 (ull (domXML_len + 1)))
           (if was_running_ then 1 else 0) (u32 compressed_).

Definition final_header (domXML_len compressed_ : Z) (was_running_ : bool)
  : virQEMUSaveHeader :=
  set_magic QEMU_SAVE_MAGIC (first_header domXML_len compressed_ was_running_).

End SaveImage.

(** Symbolic execution in the world of the save image. *)

Ltac iexec_unfold :=
  cbv beta iota zeta delta
    [SaveImage.irun SaveImage.ibind SaveImage.ireturn SaveImage.icall
     SaveImage.qemuDomainSaveMemory SaveImage.qemuDomainSaveMemory_cleanup
     SaveImage.qemuDomainSaveHeader SaveImage.qemuDomainSaveImageOpen
     SaveImage.qemuDomainSaveImageOpen_error SaveImage.remove_corrupt
     SaveImage.iretval SaveImage.ilog];
  cbn [SaveImage.io_env SaveImage.io_log fst snd app map existsb
       SaveImage.icalls SaveImage.icalled SaveImage.ifirst
       SaveImage.is_unlink SaveImage.is_report SaveImage.is_parse
       SaveImage.is_migration SaveImage.is_write_header SaveImage.is_read_xml
       SaveImage.is_read_header SaveImage.is_needUnlink SaveImage.is_alloc
       SaveImage.last_header_write
       negb andb orb].

Ltac iexec_case x :=
  lazymatch x with
  | negb ?y => iexec_case y
  | andb ?y _ => iexec_case y
  | orb ?y _ => iexec_case y
  | _ =>
      match goal with
      | H : x = _ |- _ => rewrite H
      | _ => first [ change x with true | change x with false
                   | destruct x eqn:? ]
      end
  end.

Ltac iexec_step f :=
  match goal with
  | |- context [f ?c ?e] => destruct (f c e) as [? ?] eqn:?
  | |- context [match ?x with _ => _ end] =>
      lazymatch x with
      | context [f] => fail
      | context [match _ with _ => _ end] => fail
      | _ => iexec_case x
      end
  end.

Ltac iexec f := iexec_unfold; repeat (iexec_step f; iexec_unfold).

Ltac take_call H :=
  try discriminate H; inversion H; subst; clear H; cbn [fst snd].

(** The run is named and executed once, whatever the number of times the
    statement mentions it. *)
Ltac iexec_once f :=
  match goal with
  | |- context [@SaveImage.irun ?E ?A ?m ?env] =>
      let r := fresh "r" in
      let Hr := fresh "Hr" in
      remember (@SaveImage.irun E A m env) as r eqn:Hr; revert Hr
  end;
  iexec f; intros ->; iexec_unfold.

(** Evaluates what the log readers say about the headers written. *)
Ltac isimp :=
  cbn [SaveImage.is_header_error SaveImage.magic SaveImage.xml_len
       SaveImage.first_header SaveImage.final_header
       SaveImage.set_magic SaveImage.set_xml_len
       SaveImage.QEMU_SAVE_MAGIC SaveImage.QEMU_SAVE_PARTIAL
       String.eqb Ascii.eqb Bool.eqb orb andb negb fst snd] in *.

Ltac str_hyps :=
  repeat match goal with
  | H : String.eqb _ _ = true |- _ => apply String.eqb_eq in H
  | H : String.eqb _ _ = false |- _ => apply String.eqb_neq in H
  end.

(** * Block I/O tuning: merging device lists

    [qemuDomainMergeBlkioDevice] works on two arrays of devices and on
    nothing else.  Arrays are lists; the [for] loops are recursions over
    them. *)

Module Blkio.

(** Public API constants (libvirt.h): the names of the per-device
    parameters. *)
Definition VIR_DOMAIN_BLKIO_DEVICE_WEIGHT : string := "device_weight".
Definition VIR_DOMAIN_BLKIO_DEVICE_READ_IOPS : string := "device_read_iops_sec".
Definition VIR_DOMAIN_BLKIO_DEVICE_WRITE_IOPS : string := "device_write_iops_sec".
Definition VIR_DOMAIN_BLKIO_DEVICE_READ_BPS : string := "device_read_bytes_sec".
Definition VIR_DOMAIN_BLKIO_DEVICE_WRITE_BPS : string := "device_write_bytes_sec".

(** [virBlkioDevice]. *)
Record virBlkioDevice : Type := mkDev {
  path : string;
  weight : Z;
  riops : Z;
  wiops : Z;
  rbps : Z;
  wbps : Z
}.

Definition set_path (p : string) (d : virBlkioDevice) : virBlkioDevice :=
  mkDev p (weight d) (riops d) (wiops d) (rbps d) (wbps d).
Definition set_weight (x : Z) (d : virBlkioDevice) : virBlkioDevice :=
  mkDev (path d) x (riops d) (wiops d) (rbps d) (wbps d).
Definition set_riops (x : Z) (d : virBlkioDevice) : virBlkioDevice :=
  mkDev (path d) (weight d) x (wiops d) (rbps d) (wbps d).
Definition set_wiops (x : Z) (d : virBlkioDevice) : virBlkioDevice :=
  mkDev (path d) (weight d) (riops d) x (rbps d) (wbps d).
Definition set_rbps (x : Z) (d : virBlkioDevice) : virBlkioDevice :=
  mkDev (path d) (weight d) (riops d) (wiops d) x (wbps d).
Definition set_wbps (x : Z) (d : virBlkioDevice) : virBlkioDevice :=
  mkDev (path d) (weight d) (riops d) (wiops d) (rbps d) x.

(** The chain of [STREQ(type, ...)] tests that copies one field of [src]
    to [dest]; [None] is its last [else]. *)
Definition copy_param (type : string) (src dest : virBlkioDevice)
  : option virBlkioDevice :=
  if String.eqb type VIR_DOMAIN_BLKIO_DEVICE_WEIGHT then
    Some (set_weight (weight src) dest)
  else if String.eqb type VIR_DOMAIN_BLKIO_DEVICE_READ_IOPS then
    Some (set_riops (riops src) dest)
  else if String.eqb type VIR_DOMAIN_BLKIO_DEVICE_WRITE_IOPS then
    Some (set_wiops (wiops src) dest)
  else if String.eqb type VIR_DOMAIN_BLKIO_DEVICE_READ_BPS then
    Some (set_rbps (rbps src) dest)
  else if String.eqb type VIR_DOMAIN_BLKIO_DEVICE_WRITE_BPS then
    Some (set_wbps (wbps src) dest)
  else None.

(** The inner loop: the first device of [dest] with the path of [src]
    gets the field. *)
Inductive Found : Type :=
| NotFound
| Updated (dest : list virBlkioDevice)
| UnknownType.

Fixpoint merge_into (type : string) (src : virBlkioDevice)
         (dest : list virBlkioDevice) : Found :=
  match dest with
  | [] => NotFound
  | d :: dest' =>
      if String.eqb (path src) (path d) then
        match copy_param type src d with
        | Some d' => Updated (d' :: dest')
        | None => UnknownType
        end
      else
        match merge_into type src dest' with
        | Updated l => Updated (d :: l)
        | r => r
        end
  end.

(** [!src->weight && !src->riops && !src->wiops && !src->rbps && !src->wbps] *)
Definition all_zero (src : virBlkioDevice) : bool :=
  (weight src =? 0) && (riops src =? 0) && (wiops src =? 0)
  && (rbps src =? 0) && (wbps src =? 0).

(** The element [VIR_EXPAND_N] adds: zero-filled. *)
Definition zero_device : virBlkioDevice := mkDev EmptyString 0 0 0 0 0.

(** What the call leaves: the return value, [*dest_array], for every
    device of [src_array] whether its path was handed over to the
    destination ([src->path = NULL]), and whether [virReportError] was
    called. *)
Record Merged : Type := mkMerged {
  m_ret : Z;
  m_dest : list virBlkioDevice;
  m_moved : list bool;
  m_reported : bool
}.

Definition stop (ret_ : Z) (dest src : list virBlkioDevice) (reported : bool)
  : Merged :=
  mkMerged ret_ dest (map (fun _ => false) src) reported.

Definition moved (b : bool) (m : Merged) : Merged :=
  mkMerged (m_ret m) (m_dest m) (b :: m_moved m) (m_reported m).

(** [qemuDomainMergeBlkioDevice]; [room] is the number of times
    [VIR_EXPAND_N] still succeeds. *)
Fixpoint qemuDomainMergeBlkioDevice (room : nat) (type : string)
         (dest src : list virBlkioDevice) : Merged :=
  match src with
  | [] => mkMerged 0 dest [] false
  | s :: src' =>
      match merge_into type s dest with
      | Updated dest' =>
          moved false (qemuDomainMergeBlkioDevice room type dest' src')
      | UnknownType => stop (-1) dest src true
      | NotFound =>
          if all_zero s then
            moved false (qemuDomainMergeBlkioDevice room type dest src')
          else
            match room with
            | O => stop (-1) dest src false
            | S room' =>
                match copy_param type s zero_device with
                | Some d =>
                    moved true
                      (qemuDomainMergeBlkioDevice room' type
                         (dest ++ [set_path (path s) d]) src')
                | None => stop (-1) dest src false
                end
            end
      end
  end.

(** The value of the parameter [type] in a device. *)
Definition param (type : string) (d : virBlkioDevice) : option Z :=
  if String.eqb type VIR_DOMAIN_BLKIO_DEVICE_WEIGHT then Some (weight d)
  else if String.eqb type VIR_DOMAIN_BLKIO_DEVICE_READ_IOPS then Some (riops d)
  else if String.eqb type VIR_DOMAIN_BLKIO_DEVICE_WRITE_IOPS then Some (wiops d)
  else if String.eqb type VIR_DOMAIN_BLKIO_DEVICE_READ_BPS then Some (rbps d)
  else if String.eqb type VIR_DOMAIN_BLKIO_DEVICE_WRITE_BPS then Some (wbps d)
  else None.

(** The first device with the given path. *)
Fixpoint lookup (p : string) (l : list virBlkioDevice) : option virBlkioDevice :=
  match l with
  | [] => None
  | d :: l' => if String.eqb p (path d) then Some d else lookup p l'
  end.

Definition paths (l : list virBlkioDevice) : list string := map path l.

(** The number of paths handed over. *)
Definition count_moved (l : list bool) : nat := List.length (filter (fun b => b) l).

End Blkio.

(** * Opening files with the right ownership

    [qemuOpenFile] and [qemuOpenFileAs] talk to the file system and to the
    configuration; their world is an oracle for those calls and the log of
    the calls with what they returned.  An out-parameter of a call
    ([struct stat], the parsed ids) is asked for by calls of its own. *)

Module OpenFile.

(** Platform constants (Linux): [O_CREAT], [EPERM], [EACCES], the modes
    [S_IRUSR | S_IWUSR] and [S_IRUSR | S_IWUSR | S_IRGRP | S_IWGRP]; and the
    [VIR_FILE_OPEN_*] flags of virfile.h. *)
Definition O_CREAT : Z := 64.
Definition EPERM : Z := 1.
Definition EACCES : Z := 13.
Definition S_IRUSR_IWUSR : Z := 384.
Definition S_IRUSR_IWUSR_IRGRP_IWGRP : Z := 432.
Definition VIR_FILE_OPEN_NOFORK : Z := 1.
Definition VIR_FILE_OPEN_FORK : Z := 2.
Definition VIR_FILE_OPEN_FORCE_OWNER : Z := 8.

Inductive FCall : Type :=
| cfg_user
| cfg_group
| cfg_dynamicOwnership
| virDomainDefGetSecurityLabelDef
| seclabel_label
| virParseOwnershipIds
| parsed_user
| parsed_group
| virFileIsSharedFS
| geteuid
| getegid
| stat
| S_ISREG
| st_uid
| st_gid
| open (oflags : Z)
| errno
| virFileOpenAs (oflags mode uid gid vfoflags : Z)
| virReportSystemError (code : Z) (msg : string).

Definition FOracle (Env : Type) : Type := FCall -> Env -> Z * Env.

Section FS.

Variable Env : Type.
Variable ext : FOracle Env.

Record FWorld : Type := mkFWorld {
  f_env : Env;
  f_log : list (FCall * Z)
}.

Definition FS (A : Type) : Type := FWorld -> A * FWorld.

Definition freturn {A : Type} (a : A) : FS A := fun w => (a, w).

Definition fbind {A B : Type} (m : FS A) (k : A -> FS B) : FS B :=
  fun w => let (a, w') := m w in k a w'.

Definition fcall (c : FCall) : FS Z :=
  fun w =>
    let (r, e') := ext c (f_env w) in
    (r, mkFWorld e' (f_log w ++ [(c, r)])).

Definition frun {A : Type} (m : FS A) (env : Env) : A * FWorld :=
  m (mkFWorld env []).

Notation "x <- m ;; k" := (fbind m (fun x => k))
  (at level 61, m at next level, right associativity).
Notation "m ;;; k" := (fbind m (fun _ => k))
  (at level 61, right associativity).

(** What [qemuOpenFileAs] hands back: the descriptor (or a negative
    error), [need_unlink] and [bypass_security]. *)
Record OpenedFile : Type := mkOpenedFile {
  fd : Z;
  need_unlink : bool;
  bypass_security : bool
}.

Definition creating (oflags : Z) : bool := negb (Z.land oflags O_CREAT =? 0).

(** [error:] of [qemuOpenFileAs]. *)
Definition qemuOpenFileAs_error (oflags : Z) (fd_ : Z) (need_unlink_ : bool)
  : FS OpenedFile :=
  fcall (virReportSystemError (- fd_)
           (if creating oflags then "Failed to create file '%s'"
            else "Failed to open file '%s'")) ;;;
  freturn (mkOpenedFile fd_ need_unlink_ false).

Definition qemuOpenFileAs (fallback_uid fallback_gid : Z)
           (dynamicOwnership : bool) (oflags : Z) : FS OpenedFile :=
  path_shared <- fcall virFileIsSharedFS ;;
  uid <- fcall geteuid ;;
  gid <- fcall getegid ;;
  let need_unlink_ := creating oflags in
  let vfoflags :=
    if creating oflags && ((path_shared <=? 0) || dynamicOwnership)
    then Z.lor 0 VIR_FILE_OPEN_FORCE_OWNER else 0 in
  let opening (is_reg : bool) (uid gid : Z) : FS OpenedFile :=
    if negb is_reg then
      (fd_ <- fcall (open (Z.land oflags (Z.lnot O_CREAT))) ;;
       if fd_ <? 0 then
         (e <- fcall errno ;; qemuOpenFileAs_error oflags (- e) need_unlink_)
       else freturn (mkOpenedFile fd_ need_unlink_ false))
    else
      (fd_ <- fcall (virFileOpenAs oflags S_IRUSR_IWUSR uid gid
                       (Z.lor vfoflags VIR_FILE_OPEN_NOFORK)) ;;
       if fd_ <? 0 then
         (* [switch (path_shared)]: 1, -1, and 0 with the default *)
         let retry : FS OpenedFile :=
           if path_shared =? 1 then
             (fd2 <- fcall (virFileOpenAs oflags S_IRUSR_IWUSR_IRGRP_IWGRP
                              fallback_uid fallback_gid
                              (Z.lor vfoflags VIR_FILE_OPEN_FORK)) ;;
              if fd2 <? 0 then
                (fcall (virReportSystemError (- fd2)
                          (if creating oflags
                           then "Error from child process creating '%s'"
                           else "Error from child process opening '%s'")) ;;;
                 freturn (mkOpenedFile fd2 need_unlink_ false))
              else freturn (mkOpenedFile fd2 need_unlink_ true))
           else if path_shared =? -1 then
             (fcall (virReportSystemError (- fd_)
                       (if creating oflags
                        then "Failed to create file '%s': couldn't determine fs type"
                        else "Failed to open file '%s': couldn't determine fs type")) ;;;
              freturn (mkOpenedFile fd_ need_unlink_ false))
           else qemuOpenFileAs_error oflags fd_ need_unlink_ in
         if negb (fd_ =? - EACCES) && negb (fd_ =? - EPERM) then
           qemuOpenFileAs_error oflags fd_ need_unlink_
         else
           (euid <- fcall geteuid ;;
            if fallback_uid =? euid then
              qemuOpenFileAs_error oflags fd_ need_unlink_
            else retry)
       else freturn (mkOpenedFile fd_ need_unlink_ false)) in
  if creating oflags then
    (st <- fcall stat ;;
     if st =? 0 then
       (reg <- fcall S_ISREG ;;
        let is_reg := negb (reg =? 0) in
        if is_reg && negb dynamicOwnership then
          (u <- fcall st_uid ;;
           g <- fcall st_gid ;;
           opening is_reg u g)
        else opening is_reg uid gid)
     else opening true uid gid)
  else opening true uid gid.

(** [qemuOpenFile]: [None] when it returns before the out-parameters are
    written. *)
Definition qemuOpenFile (with_vm : bool) (oflags : Z) : FS (Z * option OpenedFile) :=
  user <- fcall cfg_user ;;
  group <- fcall cfg_group ;;
  dyn <- fcall cfg_dynamicOwnership ;;
  let go (user group : Z) : FS (Z * option OpenedFile) :=
    o <- qemuOpenFileAs user group (negb (dyn =? 0)) oflags ;;
    freturn (fd o, Some o) in
  if with_vm then
    (seclabel <- fcall virDomainDefGetSecurityLabelDef ;;
     if seclabel =? 0 then go user group else
     label <- fcall seclabel_label ;;
     if label =? 0 then go user group else
     p <- fcall virParseOwnershipIds ;;
     if p <? 0 then freturn (-1, None) else
     u <- fcall parsed_user ;;
     g <- fcall parsed_group ;;
     go u g)
  else go user group.

End FS.

Arguments frun {Env A} m env.

Definition fretval {Env A : Type} (r : A * FWorld Env) : A := fst r.
Definition flog {Env A : Type} (r : A * FWorld Env) : list (FCall * Z) := f_log (snd r).

Definition is_error_report (c : FCall) : bool :=
  match c with virReportSystemError _ _ => true | _ => false end.

Definition is_open (c : FCall) : bool :=
  match c with open _ => true | _ => false end.

Definition is_open_as (c : FCall) : bool :=
  match c with virFileOpenAs _ _ _ _ _ => true | _ => false end.

Definition is_shared_fs (c : FCall) : bool :=
  match c with virFileIsSharedFS => true | _ => false end.

Definition fcount (p : FCall -> bool) (l : list (FCall * Z)) : nat :=
  List.length (filter (fun e => p (fst e)) l).

Definition fcalls (p : FCall -> bool) (l : list (FCall * Z)) : list (FCall * Z) :=
  filter (fun e => p (fst e)) l.

(** A file system that answers from a script, and with 0 after it. *)
Definition fs_scripted (c : FCall) (s : list Z) : Z * list Z :=
  match s with
  | [] => (0, [])
  | r :: s' => (r, s')
  end.

End OpenFile.

(** Symbolic execution in the world of [qemuOpenFile]. *)

Ltac fexec_unfold :=
  cbv beta iota zeta delta
    [OpenFile.frun OpenFile.fbind OpenFile.freturn OpenFile.fcall
     OpenFile.qemuOpenFileAs OpenFile.qemuOpenFileAs_error OpenFile.qemuOpenFile
     OpenFile.fretval OpenFile.flog];
  cbn [OpenFile.f_env OpenFile.f_log fst snd app map filter List.length
       OpenFile.fd OpenFile.need_unlink OpenFile.bypass_security
       OpenFile.fcount OpenFile.fcalls OpenFile.is_error_report OpenFile.is_open
       OpenFile.is_open_as OpenFile.is_shared_fs negb andb orb].

Ltac fexec_case x :=
  lazymatch x with
  | negb ?y => fexec_case y
  | andb ?y _ => fexec_case y
  | orb ?y _ => fexec_case y
  | _ =>
      match goal with
      | H : x = _ |- _ => rewrite H
      | _ => first [ change x with true | change x with false
                   | destruct x eqn:? ]
      end
  end.

Ltac fexec_step f :=
  match goal with
  | |- context [f ?c ?e] => destruct (f c e) as [? ?] eqn:?
  | |- context [match ?x with _ => _ end] =>
      lazymatch x with
      | context [f] => fail
      | context [match _ with _ => _ end] => fail
      | _ => fexec_case x
      end
  end.

Ltac fexec f := fexec_unfold; repeat (fexec_step f; fexec_unfold).

Ltac fexec_once f :=
  match goal with
  | |- context [@OpenFile.frun ?E ?A ?m ?env] =>
      let r := fresh "r" in
      let Hr := fresh "Hr" in
      remember (@OpenFile.frun E A m env) as r eqn:Hr; revert Hr
  end;
  fexec f; intros ->; fexec_unfold.

(** * The next free domain id

    [qemuStateInitialize] sets [nextvmid] to 1 and runs
    [qemuDomainFindMaxID] over every domain of the list.  The domains are
    given by their ids; [int] arithmetic is exact as long as no id is
    [INT_MAX]. *)

From Stdlib Require Import Permutation.

Definition INT_MAX : Z := 2 ^ 31 - 1.

(** [qemuDomainFindMaxID]: the new [*driver_maxid]. *)
Definition qemuDomainFindMaxID (id : Z) (driver_maxid : Z) : Z :=
  if id >=? driver_maxid then id + 1 else driver_maxid.

(** [virDomainObjListForEach (domains, qemuDomainFindMaxID, &nextvmid)] for
    the domains in the order the list hands them out. *)
Definition find_max_id (ids : list Z) (nextvmid : Z) : Z :=
  fold_left (fun maxid id => qemuDomainFindMaxID id maxid) ids nextvmid.

(** * Theorems *)

(** ** Helper lemmas *)

Lemma with_timeElapsed_same :
  forall v : virDomainObj, with_timeElapsed (timeElapsed (info (job v))) v = v.
Proof.
  intros [a s r p o g b [aj d st [t te tr dt dp dr mt mp mr ft fp fr] ms]].
  reflexivity.
Qed.

Section Quiet.

Variable Env : Type.
Variable ext : Oracle Env.

Lemma quiet_cleanup :
  forall vm out ret_, quiet (qemuDomainGetJobStats_cleanup ext vm out ret_).
Proof.
  intros vm out ret_ w.
  unfold qemuDomainGetJobStats_cleanup, when, bind, ret, call.
  destruct vm; destruct (ret_ <? 0);
    repeat match goal with
    | |- context [ext ?c ?e ?v] => destruct (ext c e v) as [[? ?] ?]
    end;
    cbn [snd w_vm w_log touches_vm]; (split; [reflexivity|]).
  - eexists; rewrite <- app_assoc; split; reflexivity.
  - eexists; split; reflexivity.
  - eexists; split; reflexivity.
  - exists []; rewrite app_nil_r; split; reflexivity.
Qed.

Lemma quiet_addULLong :
  forall par name value k,
    (forall par', quiet (k par')) ->
    quiet (addULLong ext par name value k).
Proof.
  intros par name value k Hk w.
  unfold addULLong, bind, call.
  destruct (ext (virTypedParamsAddULLong name value) (w_env w) (w_vm w))
    as [[rc e'] v'].
  cbn [touches_vm].
  destruct (rc <? 0).
  - destruct (quiet_cleanup true None (-1)
                (mkWorld (w_vm w) e'
                   (w_log w ++ [mkEntry (virTypedParamsAddULLong name value) rc
                                        (w_vm w) (w_vm w)])))
      as [Hv [l [Hl Hp]]].
    cbn [w_vm w_log] in Hv, Hl. split; [exact Hv|].
    eexists; rewrite Hl, <- app_assoc; split; [reflexivity|].
    cbn [app forallb e_call param_call andb]. exact Hp.
  - destruct (Hk (par ++ [(name, value)])%list
                (mkWorld (w_vm w) e'
                   (w_log w ++ [mkEntry (virTypedParamsAddULLong name value) rc
                                        (w_vm w) (w_vm w)])))
      as [Hv [l [Hl Hp]]].
    cbn [w_vm w_log] in Hv, Hl. split; [exact Hv|].
    eexists; rewrite Hl, <- app_assoc; split; [reflexivity|].
    cbn [app forallb e_call param_call andb]. exact Hp.
Qed.

Lemma quiet_addULLongIf :
  forall c par name value k,
    (forall par', quiet (k par')) ->
    quiet (addULLongIf ext c par name value k).
Proof.
  intros c par name value k Hk. unfold addULLongIf.
  destruct c; [apply quiet_addULLong; exact Hk | apply Hk].
Qed.

Lemma quiet_params :
  forall j, quiet (qemuDomainGetJobStats_params ext j).
Proof.
  intro j. unfold qemuDomainGetJobStats_params.
  repeat first [ apply quiet_addULLong; intro
               | apply quiet_addULLongIf; intro ].
  apply quiet_cleanup.
Qed.

End Quiet.

Lemma quiet_called :
  forall (p : Call -> bool) (l : list Entry),
    (forall c, param_call c = true -> p c = false) ->
    forallb (fun e => param_call (e_call e)) l = true ->
    called p l = false.
Proof.
  intros p l Hp. induction l as [|e l IH]; intro H; [reflexivity|].
  cbn [forallb] in H. apply andb_true_iff in H. destruct H as [He Hl].
  cbn [called existsb]. rewrite (Hp _ He). exact (IH Hl).
Qed.

(** ** Suspend *)

(** C1 (as amended).  A suspend that finds the guest already [paused] once
    it holds the suspend job stops no CPUs and creates no event: after
    [begin_job] it only writes the status file, ends the job and unlocks.
    The domain object, lifecycle state and pause reason included, is left
    as it was, whether or not the reason the call would have asked for
    equals the recorded one, and the call returns 0 exactly when the status
    file was written. *)
Theorem suspend_already_paused :
  forall (Env : Type) (ext : Oracle Env) (env : Env) (vm : virDomainObj),
  let r := run (qemuDomainSuspend ext) env vm in
  forall bj rest,
    first_call is_begin_job (log r) = Some (bj, rest) ->
    0 <= e_ret bj ->
    active (e_post bj) = true ->
    state (e_post bj) = VIR_DOMAIN_PAUSED ->
    exists st ej tail,
      rest = st :: ej :: tail
      /\ e_call st = virDomainSaveStatus
      /\ e_call ej = qemuDomainObjEndJob
      /\ calls tail = unlock_if (e_ret ej)
      /\ final_vm r = e_post bj
      /\ (retval r = 0 <-> 0 <= e_ret st).
Proof.
  intros Env ext env vm r. subst r.
  exec ext.
  all: intros bj rest H; take_entry H.
  all: intros Hret Hact Hst.
  all: try absurd_path.
  all: do 3 eexists; repeat split; try reflexivity; cbn [e_ret].
  all: pick_unlock; try reflexivity; intros; try lia.
Qed.

(** The user-paused guest under an outgoing migration: the suspend finds
    it paused, succeeds and leaves the object as it is. *)
Lemma suspend_already_paused_witness :
  let r := run (qemuDomainSuspend scripted) [] vm_paused_migrating in
  exists bj rest,
    first_call is_begin_job (log r) = Some (bj, rest)
    /\ 0 <= e_ret bj
    /\ active (e_post bj) = true
    /\ state (e_post bj) = VIR_DOMAIN_PAUSED
    /\ final_vm r = e_post bj.
Proof.
  cbv zeta. find_entry.
  split; [by_run|]. split; [by_run|]. split; [by_run|].
  destruct (@suspend_already_paused Script scripted [] vm_paused_migrating _ _
              eq_refl ltac:(by_run) eq_refl eq_refl)
    as (st & ej & tail & _ & _ & _ & _ & Hvm & _).
  exact Hvm.
Defined.

(** C1 as stated fails: the guest was paused by the user and is being
    migrated, so the suspend asks for the reason "migration", which differs
    from the recorded "user"; the call succeeds and the recorded reason is
    still "user". *)
Lemma suspend_paused_reason_not_updated :
  let vm := vm_paused_migrating in
  let r := run (qemuDomainSuspend scripted) [] vm in
  state vm = VIR_DOMAIN_PAUSED
  /\ retval r = 0
  /\ fst (suspend_reason (asyncJob (job vm))) = VIR_DOMAIN_PAUSED_MIGRATION
  /\ reason vm = VIR_DOMAIN_PAUSED_USER
  /\ reason (final_vm r) = VIR_DOMAIN_PAUSED_USER
  /\ reason (final_vm r) <> fst (suspend_reason (asyncJob (job vm))).
Proof.
  cbv zeta. repeat split; by_run.
Qed.

(** ** Liveness re-check *)

(** C2 (as amended).  Suspend, resume, graceful shutdown, destroy and
    abort-job re-check the guest once, right after [begin_job] returned: if
    the guest is inactive by then, the operation returns -1, and after the
    job was acquired it only reports [VIR_ERR_OPERATION_INVALID] "domain is
    not running", ends the job and unlocks.  No helper that changes the
    lifecycle state is called and the object is left as [begin_job]
    returned it (destroy has reset its marker). *)
Theorem liveness_recheck_after_job :
  forall (Env : Type) (ext : Oracle Env) (env : Env) (vm : virDomainObj) (op : JobOp),
  let r := run (run_op ext op) env vm in
  forall bj rest,
    first_call is_begin_job (log r) = Some (bj, rest) ->
    0 <= e_ret bj ->
    active (e_post bj) = false ->
    retval r = -1
    /\ final_vm r = after_recheck op (e_post bj)
    /\ exists er ej tail,
         rest = er :: ej :: tail
         /\ e_call er = virReportError VIR_ERR_OPERATION_INVALID "domain is not running"
         /\ e_call ej = qemuDomainObjEndJob
         /\ calls tail = unlock_if (e_ret ej).
Proof.
  intros Env ext env vm op r. subst r.
  destruct op.
  all: exec ext.
  all: intros bj rest H; take_entry H.
  all: intros Hret Hact.
  all: try absurd_path.
  all: split; [reflexivity|split; [reflexivity|]].
  all: do 3 eexists; repeat split; try reflexivity; cbn [e_ret].
  all: pick_unlock; try reflexivity; intros; try lia.
Qed.

(** A running guest that dies while the suspend waits for its job. *)
Lemma liveness_recheck_after_job_witness :
  let r := run (run_op scripted OpSuspend) dies_waiting_for_job vm_running in
  exists bj rest,
    first_call is_begin_job (log r) = Some (bj, rest)
    /\ 0 <= e_ret bj
    /\ active (e_post bj) = false
    /\ retval r = -1.
Proof.
  cbv zeta. find_entry.
  split; [by_run|]. split; [by_run|].
  refine (proj1 (@liveness_recheck_after_job Script scripted dies_waiting_for_job
                   vm_running OpSuspend _ _ _ _ _)); by_run.
Defined.

(** C2 as stated fails: the re-check is not made by every operation that
    takes a job, nor after every wait without the lock.  A save whose guest
    dies while it waits for its async job reports no error, writes the
    image, stops the process and returns 0.  A graceful shutdown whose
    guest dies during the agent's command reports no error either: it goes
    on to the monitor's power-down and returns its result. *)
Lemma liveness_not_rechecked_later :
  let save := run (qemuDomainSaveInternal scripted "/var/lib/libvirt/guest.save" 0 false 0)
                  dies_waiting_for_async_job vm_running in
  let flags := Z.lor VIR_DOMAIN_SHUTDOWN_ACPI_POWER_BTN VIR_DOMAIN_SHUTDOWN_GUEST_AGENT in
  let shutdown := run (qemuDomainShutdownFlags scripted flags)
                      dies_in_agent_round_trip vm_running in
  (exists aj rest,
     first_call is_begin_async_job (log save) = Some (aj, rest)
     /\ 0 <= e_ret aj
     /\ active (e_post aj) = false
     /\ called is_report_error (log save) = false
     /\ called is_save_memory rest = true
     /\ called is_process_stop rest = true
     /\ retval save = 0)
  /\ (exists xa rest,
        first_call is_exit_agent (log shutdown) = Some (xa, rest)
        /\ active (e_post xa) = false
        /\ called is_report_error (log shutdown) = false
        /\ calls rest =
           [qemuDomainSetFakeReboot false; qemuDomainObjEnterMonitor;
            qemuMonitorSystemPowerdown; qemuDomainObjExitMonitor;
            qemuDomainObjEndJob; virObjectUnlock]
        /\ retval shutdown = 0).
Proof.
  cbv zeta. split; find_entry; repeat split; by_run.
Qed.

(** ** Destroy *)

(** What [qemuDomainDestroyFlags] does with its marker on each path: the
    marker is set when the kill is issued; the kill comes before
    [begin_job]; a failed kill resets the marker; once the job is held the
    marker is reset before anything else is called; but when [begin_job]
    fails the object is left exactly as [begin_job] returned it. *)
Lemma destroy_marker_paths :
  forall (Env : Type) (ext : Oracle Env) (env : Env) (vm : virDomainObj) (flags : Z),
  let r := run (qemuDomainDestroyFlags ext flags) env vm in
  (forall k rest,
     first_call is_kill (log r) = Some (k, rest) ->
     beingDestroyed (e_pre k) = true
     /\ (e_ret k < 0 ->
         beingDestroyed (final_vm r) = false /\ called is_begin_job rest = false))
  /\ (forall bj rest,
        first_call is_begin_job (log r) = Some (bj, rest) ->
        called is_kill rest = false
        /\ (exists k rest', first_call is_kill (log r) = Some (k, rest') /\ 0 <= e_ret k)
        /\ (e_ret bj < 0 -> final_vm r = e_post bj)
        /\ (0 <= e_ret bj ->
            forall next tail, rest = next :: tail -> beingDestroyed (e_pre next) = false)).
Proof.
  intros Env ext env vm flags r. subst r.
  exec ext.
  all: split.
  all: intros k rest H; take_entry H.
  all: try (split; [reflexivity|]; intro Hk; try absurd_path; split; reflexivity).
  all: split; [reflexivity|].
  all: split; [do 2 eexists; split; [reflexivity|]; cbn [e_ret]; bool_hyps; lia|].
  all: split; intro Hb; try absurd_path; try reflexivity.
  all: intros next tail H; take_entry H; reflexivity.
Qed.

(** C3.  The marker is not reset on every exit path.  The kill succeeds
    and [begin_job] for the destroy job then fails: the call returns -1
    after unlocking, and the guest's "being destroyed" marker, false on
    entry, is left true. *)
Theorem destroy_job_failure_leaves_marker :
  let r := run (qemuDomainDestroyFlags scripted 0) destroy_job_timeout vm_running in
  beingDestroyed vm_running = false
  /\ retval r = -1
  /\ calls (log r) =
     [virDomainObjListFindByUUID; virDomainDestroyFlagsEnsureACL;
      qemuDomainSetFakeReboot false; qemuProcessKill VIR_QEMU_PROCESS_KILL_FORCE;
      qemuDomainObjBeginJob QEMU_JOB_DESTROY; virObjectUnlock]
  /\ beingDestroyed (final_vm r) = true.
Proof.
  cbv zeta. repeat split; by_run.
Qed.

(** ** Graceful shutdown *)

(** C4.  Every graceful shutdown with supported flags looks the guest up,
    checks the caller's permission and then asks whether the agent is
    available.  Asking for the agent alone while it is unavailable fails
    the call there: -1, nothing but the unlock follows.  Otherwise the job
    is begun, and once it is held and the guest is active the calls that
    follow are: the agent attempt (enter, shutdown, exit) exactly when the
    agent is asked for, or preferred and connected, and available; then the
    monitor power-down (inside the monitor guard) exactly when the agent
    was not used, or its attempt failed and the flags ask for ACPI or for
    nothing; then [end_job] and the unlock.  The agent attempt is complete
    before the monitor is entered, and the call returns the result of the
    monitor's command if it was sent and that of the agent's otherwise. *)
Theorem shutdown_agent_then_monitor :
  forall (Env : Type) (ext : Oracle Env) (env : Env) (vm : virDomainObj) (flags : Z),
  Z.land flags (Z.lnot (Z.lor VIR_DOMAIN_SHUTDOWN_ACPI_POWER_BTN
                              VIR_DOMAIN_SHUTDOWN_GUEST_AGENT)) = 0 ->
  let r := run (qemuDomainShutdownFlags ext flags) env vm in
  exists lk after_lookup,
    log r = lk :: after_lookup
    /\ e_call lk = virDomainObjListFindByUUID
    /\ (e_ret lk <> 0 ->
        exists acl after_acl,
          after_lookup = acl :: after_acl
          /\ e_call acl = virDomainShutdownFlagsEnsureACL flags
          /\ (0 <= e_ret acl ->
              exists av rest0,
                after_acl = av :: rest0
                /\ e_call av =
                   qemuDomainAgentAvailable
                     (agent_requested flags && negb (acpi_requested flags))
                /\ let available := negb (e_ret av =? 0) in
                   let used := shutdown_uses_agent flags (agent vm) available in
                   (shutdown_agent_only_unavailable flags available = true ->
                    retval r = -1 /\ calls rest0 = [virObjectUnlock])
                   /\ (shutdown_agent_only_unavailable flags available = false ->
                       exists bj rest,
                         rest0 = bj :: rest
                         /\ e_call bj = qemuDomainObjBeginJob QEMU_JOB_MODIFY
                         /\ (0 <= e_ret bj ->
                             active (e_post bj) = true ->
                             exists ag mon ej tail,
                               rest = (ag ++ mon ++ ej :: tail)%list
                               /\ calls ag = agent_attempt used (onPoweroff vm)
                               /\ calls mon =
                                  monitor_attempt
                                    (shutdown_falls_back flags used (agent_result ag))
                                    (onPoweroff vm)
                               /\ e_call ej = qemuDomainObjEndJob
                               /\ calls tail = unlock_if (e_ret ej)
                               /\ retval r = monitor_result mon (agent_result ag))))).
Proof.
  intros Env ext env vm flags Hflags r. subst r.
  apply Z.eqb_eq in Hflags.
  unfold shutdown_uses_agent, shutdown_agent_only_unavailable, shutdown_falls_back,
         agent_requested, acpi_requested.
  destruct (Z.land flags VIR_DOMAIN_SHUTDOWN_GUEST_AGENT =? 0) eqn:Hag;
    destruct (Z.land flags VIR_DOMAIN_SHUTDOWN_ACPI_POWER_BTN =? 0) eqn:Hac;
    destruct (flags =? 0) eqn:Hfl; destruct (agent vm) eqn:Hcon;
    cbn [negb andb orb].
  all: exec_unfold; rewrite Hflags; exec ext.
  all: do 2 eexists; split; [reflexivity|]; split; [reflexivity|].
  all: cbn [e_ret]; intro Hlk; try absurd_path.
  all: do 2 eexists; split; [reflexivity|]; split; [reflexivity|].
  all: cbn [e_ret]; intro Hacl; try absurd_path.
  all: do 2 eexists; split; [reflexivity|];
       split; [cbn [e_call]; use_tests; reflexivity|].
  all: cbn [e_ret]; use_tests; cbn [negb andb orb].
  all: split; [intro H; first [discriminate H | split; reflexivity]|].
  all: intro H; try discriminate H.
  all: do 2 eexists; split; [reflexivity|]; split; [reflexivity|].
  all: cbn [e_ret e_post]; intros Hret Hact; try absurd_path.
  all: first [ shutdown_solve 0%nat 0%nat | shutdown_solve 3%nat 0%nat
             | shutdown_solve 0%nat 4%nat | shutdown_solve 3%nat 4%nat ].
Qed.

(** Both flags, the agent's command fails: the agent attempt is made and
    completed, then the monitor's power-down is sent and the call returns
    0.  Only the agent is asked for and it is unavailable: the call fails
    and makes no further call but the unlock. *)
Lemma shutdown_agent_then_monitor_witness :
  let flags := Z.lor VIR_DOMAIN_SHUTDOWN_ACPI_POWER_BTN VIR_DOMAIN_SHUTDOWN_GUEST_AGENT in
  let r := run (qemuDomainShutdownFlags scripted flags) agent_shutdown_fails vm_running in
  Z.land flags (Z.lnot (Z.lor VIR_DOMAIN_SHUTDOWN_ACPI_POWER_BTN
                              VIR_DOMAIN_SHUTDOWN_GUEST_AGENT)) = 0
  /\ (exists lk acl av bj rest,
        log r = lk :: acl :: av :: bj :: rest
        /\ e_ret lk <> 0
        /\ 0 <= e_ret acl
        /\ shutdown_agent_only_unavailable flags (negb (e_ret av =? 0)) = false
        /\ 0 <= e_ret bj
        /\ active (e_post bj) = true
        /\ exists ag mon ej tail,
             rest = (ag ++ mon ++ ej :: tail)%list
             /\ calls ag =
                [qemuDomainObjEnterAgent; qemuAgentShutdown QEMU_AGENT_SHUTDOWN_POWERDOWN;
                 qemuDomainObjExitAgent]
             /\ agent_result ag = -1
             /\ calls mon =
                [qemuDomainSetFakeReboot false; qemuDomainObjEnterMonitor;
                 qemuMonitorSystemPowerdown; qemuDomainObjExitMonitor]
             /\ e_call ej = qemuDomainObjEndJob)
  /\ retval r = 0
  /\ (let r' := run (qemuDomainShutdownFlags scripted VIR_DOMAIN_SHUTDOWN_GUEST_AGENT)
                    agent_unavailable vm_running in
      retval r' = -1
      /\ calls (log r') =
         [virDomainObjListFindByUUID;
          virDomainShutdownFlagsEnsureACL VIR_DOMAIN_SHUTDOWN_GUEST_AGENT;
          qemuDomainAgentAvailable true; virObjectUnlock]).
Proof.
  cbv zeta.
  assert (Hf : Z.land (Z.lor VIR_DOMAIN_SHUTDOWN_ACPI_POWER_BTN VIR_DOMAIN_SHUTDOWN_GUEST_AGENT)
                 (Z.lnot (Z.lor VIR_DOMAIN_SHUTDOWN_ACPI_POWER_BTN
                                VIR_DOMAIN_SHUTDOWN_GUEST_AGENT)) = 0) by by_run.
  split; [exact Hf|].
  split; [|split; [by_run|]].
  2: {
    pose proof (@shutdown_agent_then_monitor Script scripted agent_unavailable
                  vm_running VIR_DOMAIN_SHUTDOWN_GUEST_AGENT ltac:(by_run)) as H.
    cbv zeta in H.
    destruct H as (lk & l1 & Hlog & _ & H).
    vm_compute in Hlog. injection Hlog as <- <-.
    destruct (H ltac:(by_run)) as (acl & l2 & Hl & _ & H2). clear H.
    injection Hl as <- <-.
    destruct (H2 ltac:(by_run)) as (av & l3 & Hl & _ & H3 & _). clear H2.
    injection Hl as <- <-.
    split; [exact (proj1 (H3 ltac:(by_run)))|by_run].
  }
  pose proof (@shutdown_agent_then_monitor Script scripted agent_shutdown_fails
                vm_running _ Hf) as H.
  cbv zeta in H.
  destruct H as (lk & l1 & Hlog & _ & H).
  vm_compute in Hlog. injection Hlog as <- <-.
  destruct (H ltac:(by_run)) as (acl & l2 & Hl & _ & H2). clear H.
  injection Hl as <- <-.
  destruct (H2 ltac:(by_run)) as (av & l3 & Hl & _ & _ & H3). clear H2.
  injection Hl as <- <-.
  destruct (H3 ltac:(by_run)) as (bj & l4 & Hl & _ & H4). clear H3.
  injection Hl as <- <-.
  destruct (H4 ltac:(by_run) ltac:(by_run))
    as (ag & mon & ej & tail & Hrest & Hag & Hmon & Hej & _). clear H4.
  do 5 eexists. split; [vm_compute; reflexivity|].
  do 5 (split; [by_run|]).
  exists ag, mon, ej, tail.
  split; [exact Hrest|].
  assert (Hcalls : calls ag =
                   [qemuDomainObjEnterAgent; qemuAgentShutdown QEMU_AGENT_SHUTDOWN_POWERDOWN;
                    qemuDomainObjExitAgent])
    by (rewrite Hag; vm_compute; reflexivity).
  assert (Har : agent_result ag = -1).
  { destruct ag as [|a1 [|a2 [|a3 [|a4 ag]]]]; try discriminate Hcalls.
    cbn [app] in Hrest. injection Hrest as <- <- <- _. vm_compute. reflexivity. }
  split; [exact Hcalls|]. split; [exact Har|]. split; [|exact Hej].
  rewrite Hmon, Har. vm_compute. reflexivity.
Defined.

(** ** Save *)




(** ** Abort job *)





(** ** Job progress queries *)

(** C7 (as amended).  Neither progress query begins a synchronous or an
    asynchronous job, and with no async job outstanding on an active guest
    (or during a memory-only dump) both return job type NONE, the
    statistics query with an empty parameter list, and then only unlock.
    [qemuDomainGetJobInfo] leaves the domain object untouched.
    [qemuDomainGetJobStats] leaves everything but
    [priv->job.info.timeElapsed] untouched: when it reads the clock
    successfully it stores the refreshed elapsed time, the clock value
    minus the start of the job, in the job's own progress block. *)
Theorem job_query_without_job :
  forall (Env : Type) (ext : Oracle Env) (env : Env) (vm : virDomainObj),
  (forall flags,
     let r := run (qemuDomainGetJobStats ext flags) env vm in
     called is_begin_job (log r) = false
     /\ called is_begin_async_job (log r) = false
     /\ final_vm r =
        match first_call is_time_now (log r) with
        | Some (now, _) =>
            if e_ret now <? 0 then vm
            else with_timeElapsed (ull_sub (e_ret now) (start (job vm))) vm
        | None => vm
        end
     /\ (forall acl rest,
           first_call is_acl (log r) = Some (acl, rest) ->
           0 <= e_ret acl ->
           active vm = true ->
           is_async_none (asyncJob (job vm)) || dump_memory_only (job vm) = true ->
           retval r = (0, Some (VIR_DOMAIN_JOB_NONE, []))
           /\ calls rest = [virObjectUnlock]))
  /\ (forall info0,
        let r := run (qemuDomainGetJobInfo ext info0) env vm in
        called is_begin_job (log r) = false
        /\ called is_begin_async_job (log r) = false
        /\ final_vm r = vm
        /\ (forall acl rest,
              first_call is_acl (log r) = Some (acl, rest) ->
              0 <= e_ret acl ->
              active vm = true ->
              is_async_none (asyncJob (job vm)) || dump_memory_only (job vm) = true ->
              retval r = (0, set_type VIR_DOMAIN_JOB_NONE zero_info)
              /\ calls rest = [virObjectUnlock])).
Proof.
  intros Env ext env vm. split.
  - intros flags r. subst r.
    destruct (is_async_none (asyncJob (job vm))) eqn:Hnone;
      destruct (dump_memory_only (job vm)) eqn:Hdump; cbn [negb andb orb].
    all: exec ext.
    all: lazymatch goal with
         | |- context [@qemuDomainGetJobStats_params ?E ?f ?j ?w] =>
             destruct (@quiet_params E f j w) as [Hv [l [Hl Hp]]];
             cbn [w_vm w_log app] in Hv, Hl; rewrite Hv, Hl;
             cbn [called existsb orb first_call e_call e_ret is_begin_job
                  is_begin_async_job is_time_now is_acl];
             fold (called is_begin_job l); fold (called is_begin_async_job l);
             rewrite (quiet_called is_begin_job l), (quiet_called is_begin_async_job l);
             try exact Hp; try (intros [] Hc; try discriminate Hc; reflexivity)
         | _ => idtac
         end.
    all: use_tests.
    all: do 3 (split; [reflexivity|]).
    all: intros acl rest H; take_entry H.
    all: intros Hacl Hact Hn; try absurd_path; try discriminate Hn.
    all: repeat split; reflexivity.
  - intros info0 r. subst r.
    destruct (is_async_none (asyncJob (job vm))) eqn:Hnone;
      destruct (dump_memory_only (job vm)) eqn:Hdump; cbn [negb andb orb].
    all: exec ext.
    all: do 3 (split; [reflexivity|]).
    all: intros acl rest H; take_entry H.
    all: intros Hacl Hact Hn; try absurd_path; try discriminate Hn.
    all: repeat split; reflexivity.
Qed.

(** The statistics query on a running guest without any job. *)
Lemma job_query_without_job_witness :
  let r := run (qemuDomainGetJobStats scripted 0) [] vm_running in
  exists acl rest,
    first_call is_acl (log r) = Some (acl, rest)
    /\ 0 <= e_ret acl
    /\ active vm_running = true
    /\ is_async_none (asyncJob (job vm_running)) || dump_memory_only (job vm_running) = true
    /\ retval r = (0, Some (VIR_DOMAIN_JOB_NONE, [])).
Proof.
  cbv zeta. find_entry.
  split; [by_run|]. split; [by_run|]. split; [by_run|].
  destruct (@job_query_without_job Script scripted [] vm_running) as [Hstats _].
  destruct (Hstats 0) as (_ & _ & _ & Hnone).
  refine (proj1 (Hnone _ _ _ _ _ _)); by_run.
Defined.

(** C7 as stated fails: the statistics query is not read-only.  One second
    into an outgoing migration that started at clock value 1000 the stored
    elapsed time is 0; the query reads the clock at 5000 and leaves 4000 in
    the job's progress block. *)
Lemma job_stats_refreshes_elapsed_time :
  let r := run (qemuDomainGetJobStats scripted 0) clock_at_5000 vm_migrating in
  fst (retval r) = 0
  /\ timeElapsed (info (job vm_migrating)) = 0
  /\ timeElapsed (info (job (final_vm r))) = 4000
  /\ final_vm r <> vm_migrating.
Proof.
  cbv zeta. repeat split; by_run.
Qed.

(** ** Events and the object lock *)

(** C8 (as amended).  Suspend, resume and destroy queue their lifecycle
    event only when the calling thread no longer holds the object lock, on
    every path.  The save does the opposite: it never queues its event
    after the unlock. *)
Theorem events_queued_after_unlock :
  forall (Env : Type) (ext : Oracle Env) (env : Env) (vm : virDomainObj),
  events_outside_lock false (log (run (qemuDomainSuspend ext) env vm)) = true
  /\ events_outside_lock false (log (run (qemuDomainResume ext) env vm)) = true
  /\ (forall flags,
        events_outside_lock false (log (run (qemuDomainDestroyFlags ext flags) env vm)) = true)
  /\ (forall path compressed xmlin flags,
        queue_after_unlock false
          (log (run (qemuDomainSaveInternal ext path compressed xmlin flags) env vm)) = false).
Proof.
  intros Env ext env vm.
  split; [|split; [|split]]; intros.
  - exec ext; reflexivity.
  - exec ext; reflexivity.
  - exec ext; reflexivity.
  - exec ext; reflexivity.
Qed.

(** C8 as stated fails for the save: a successful save of a persistent
    running guest queues the "stopped/saved" event while the object is
    still locked, and unlocks afterwards. *)
Lemma save_queues_event_under_lock :
  let r := run (qemuDomainSaveInternal scripted "/var/lib/libvirt/guest.save" 0 false 0)
               [] vm_running in
  retval r = 0
  /\ calls (log r) =
     [virQEMUDriverGetCapabilities; qemuMigrationIsAllowed;
      qemuDomainObjBeginAsyncJob QEMU_ASYNC_JOB_SAVE;
      qemuProcessStopCPUs VIR_DOMAIN_PAUSED_SAVE QEMU_ASYNC_JOB_SAVE;
      qemuDomainDefFormatLive false;
      qemuDomainSaveMemory "/var/lib/libvirt/guest.save" 0 true 0;
      qemuProcessStop VIR_DOMAIN_SHUTOFF_SAVED 0; virDomainAuditStop "saved";
      virDomainEventLifecycleNewFromObj VIR_DOMAIN_EVENT_STOPPED
                                        VIR_DOMAIN_EVENT_STOPPED_SAVED;
      qemuDomainObjEndAsyncJob;
      qemuDomainEventQueue (mkEvent VIR_DOMAIN_EVENT_STOPPED
                                    VIR_DOMAIN_EVENT_STOPPED_SAVED);
      virObjectUnlock]
  /\ events_outside_lock true (log r) = false.
Proof.
  cbv zeta. repeat split; by_run.
Qed.

(** ** Resume *)

(** C10 (as amended).  A resume that finds the guest active and neither
    [paused] nor [pmsuspended] once it holds its job starts no CPUs,
    creates and queues no event and leaves the domain object as it was.
    It fetches the capabilities and rewrites the status file; it returns 0
    exactly when both succeed and -1 otherwise. *)
Theorem resume_not_paused :
  forall (Env : Type) (ext : Oracle Env) (env : Env) (vm : virDomainObj),
  let r := run (qemuDomainResume ext) env vm in
  forall bj rest,
    first_call is_begin_job (log r) = Some (bj, rest) ->
    0 <= e_ret bj ->
    active (e_post bj) = true ->
    state (e_post bj) <> VIR_DOMAIN_PAUSED ->
    state (e_post bj) <> VIR_DOMAIN_PMSUSPENDED ->
    called is_start_cpus (log r) = false
    /\ called is_new_event (log r) = false
    /\ called is_event_queue (log r) = false
    /\ final_vm r = e_post bj
    /\ exists caps tail,
         rest = caps :: tail
         /\ e_call caps = virQEMUDriverGetCapabilities
         /\ ((e_ret caps = 0 /\ retval r = -1 /\ called is_save_status tail = false)
             \/ (e_ret caps <> 0 /\
                 exists st tail', tail = st :: tail'
                   /\ e_call st = virDomainSaveStatus
                   /\ (retval r = 0 <-> 0 <= e_ret st)
                   /\ (retval r = 0 \/ retval r = -1))).
Proof.
  intros Env ext env vm r. subst r.
  exec ext.
  all: intros bj rest H; take_entry H.
  all: intros Hret Hact Hp Hpm.
  all: try absurd_path.
  all: repeat (split; [reflexivity|]).
  all: do 2 eexists; split; [reflexivity|split; [reflexivity|]]; cbn [e_ret].
  all: bool_hyps.
  all: first [ left; repeat split; (reflexivity || assumption)
             | right; split; [assumption|];
               do 2 eexists; split; [reflexivity|split; [reflexivity|]];
               cbn [e_ret]; split; [split; intros; lia | lia] ].
Qed.

(** Resuming a guest that is already running: nothing is started and the
    call succeeds. *)
Lemma resume_not_paused_witness :
  let r := run (qemuDomainResume scripted) [] vm_running in
  exists bj rest,
    first_call is_begin_job (log r) = Some (bj, rest)
    /\ 0 <= e_ret bj
    /\ active (e_post bj) = true
    /\ state (e_post bj) <> VIR_DOMAIN_PAUSED
    /\ state (e_post bj) <> VIR_DOMAIN_PMSUSPENDED
    /\ called is_start_cpus (log r) = false
    /\ retval r = 0.
Proof.
  cbv zeta. find_entry.
  split; [by_run|]. split; [by_run|]. split; [by_run|]. split; [by_run|].
  split; [|by_run].
  refine (proj1 (@resume_not_paused Script scripted [] vm_running _ _ _ _ _ _ _)); by_run.
Defined.

(** C10 as stated fails: resuming a running guest does not always return
    success.  When the status file cannot be written the call returns -1,
    although the guest was active, running and left alone. *)
Lemma resume_running_status_write_fails :
  let r := run (qemuDomainResume scripted) status_write_fails vm_running in
  active vm_running = true
  /\ state vm_running = VIR_DOMAIN_RUNNING
  /\ calls (log r) =
     [virDomainObjListFindByUUID; virDomainResumeEnsureACL;
      qemuDomainObjBeginJob QEMU_JOB_MODIFY; virQEMUDriverGetCapabilities;
      virDomainSaveStatus; qemuDomainObjEndJob; virObjectUnlock]
  /\ final_vm r = vm_running
  /\ retval r = -1.
Proof.
  cbv zeta. repeat split; by_run.
Qed.

(** ** Further properties of the entry points *)

(** X1.  On every path of suspend, resume, shutdown, destroy and abort-job the
    job is begun at most once; it is ended exactly once if beginning it
    succeeded and never otherwise; and nothing begins a job after the
    [end_job]. *)
Theorem job_released_on_every_path :
  forall (Env : Type) (ext : Oracle Env) (env : Env) (vm : virDomainObj) (op : JobOp),
  let r := run (run_op ext op) env vm in
  (count_calls is_begin_job (log r) <= 1)%nat
  /\ count_calls is_end_job (log r) = (if job_acquired (log r) then 1%nat else 0%nat)
  /\ (forall ej rest,
        first_call is_end_job (log r) = Some (ej, rest) ->
        called is_begin_job rest = false).
Proof.
  intros Env ext env vm op r. subst r.
  destruct op.
  all: exec2 ext.
  all: split; [lia|]; split; [reflexivity|].
  all: intros ej rest H; take_entry H; reflexivity.
Qed.

(** X2.  Suspending a guest that is active and neither paused nor pmsuspended
    once the job is held: the CPUs are stopped with the reason the async
    job gives.  A failure returns -1 with no event and no status write; a
    success writes the status file (the return value is 0 exactly when
    that write succeeded), creates the event unless a snapshot is running,
    and queues the event if it was allocated. *)
Theorem suspend_running_guest :
  forall (Env : Type) (ext : Oracle Env) (env : Env) (vm : virDomainObj),
  let r := run (qemuDomainSuspend ext) env vm in
  forall bj rest,
    first_call is_begin_job (log r) = Some (bj, rest) ->
    0 <= e_ret bj ->
    active (e_post bj) = true ->
    state (e_post bj) <> VIR_DOMAIN_PAUSED ->
    state (e_post bj) <> VIR_DOMAIN_PMSUSPENDED ->
    let want := suspend_reason (asyncJob (job (e_post bj))) in
    ((0 <=? snd want) = false <-> asyncJob (job (e_post bj)) = QEMU_ASYNC_JOB_SNAPSHOT)
    /\ exists sc tail,
         rest = sc :: tail
         /\ e_call sc = qemuProcessStopCPUs (fst want) QEMU_ASYNC_JOB_NONE
         /\ (e_ret sc < 0 ->
             retval r = -1
             /\ called is_new_event tail = false
             /\ called is_event_queue tail = false
             /\ called is_save_status tail = false)
         /\ (0 <= e_ret sc ->
             called is_new_event tail = (0 <=? snd want)
             /\ called is_save_status tail = true
             /\ (forall st t, first_call is_save_status tail = Some (st, t) ->
                   (retval r = 0 <-> 0 <= e_ret st))
             /\ (forall ne tail',
                   first_call is_new_event tail = Some (ne, tail') ->
                   e_call ne =
                     virDomainEventLifecycleNewFromObj VIR_DOMAIN_EVENT_SUSPENDED (snd want)
                   /\ (e_ret ne <> 0 ->
                       called (is_queue_of (mkEvent VIR_DOMAIN_EVENT_SUSPENDED (snd want)))
                              tail' = true))).
Proof.
  intros Env ext env vm r. subst r.
  exec ext.
  all: intros bj rest H; take_entry H.
  all: intros Hret Hact Hp Hpm; try absurd_path.
  all: match goal with
       | |- context [suspend_reason (asyncJob (job ?v))] =>
           split;
           [ destruct (asyncJob (job v)); cbn; split; intro; congruence
           | ]
       end.
  all: do 2 eexists; split; [reflexivity|]; split; [reflexivity|]; cbn [e_ret].
  all: split; intro Hsc; try absurd_path.
  all: try (repeat split; reflexivity).
  all: use_tests.
  all: split; [reflexivity|]; split; [reflexivity|].
  all: split; [intros st t H; take_entry H; bool_hyps; split; intros; lia|].
  all: intros ne tail' H; take_entry H.
  all: split; [reflexivity|]; intro Hne; try absurd_path.
  all: cbn [called existsb e_call is_queue_of ev_type ev_detail orb]; rewrite !Z.eqb_refl; cbn [andb orb]; rewrite ?orb_true_r; reflexivity.
Qed.

Lemma suspend_running_guest_witness :
  let r := run (qemuDomainSuspend scripted) [] vm_running in
  exists bj rest,
    first_call is_begin_job (log r) = Some (bj, rest)
    /\ 0 <= e_ret bj
    /\ active (e_post bj) = true
    /\ state (e_post bj) <> VIR_DOMAIN_PAUSED
    /\ state (e_post bj) <> VIR_DOMAIN_PMSUSPENDED
    /\ exists sc tail,
         rest = sc :: tail
         /\ e_call sc = qemuProcessStopCPUs VIR_DOMAIN_PAUSED_USER QEMU_ASYNC_JOB_NONE.
Proof.
  cbv zeta. find_entry.
  do 4 (split; [by_run|]).
  destruct (@suspend_running_guest Script scripted [] vm_running _ _
              ltac:(by_run) ltac:(by_run) ltac:(by_run) ltac:(by_run) ltac:(by_run))
    as (_ & sc & tail & Hrest & Hcall & _).
  exists sc, tail. split; [exact Hrest|exact Hcall].
Defined.

(** X3.  Suspend ([resume = false]) and resume ([resume = true]) refuse a
    pmsuspended guest: one error report, [end_job], the unlock, -1, and the
    domain object as it was when the job was obtained. *)
Theorem pmsuspended_refused :
  forall (Env : Type) (ext : Oracle Env) (env : Env) (vm : virDomainObj) (resume : bool),
  let r := run (if resume then qemuDomainResume ext else qemuDomainSuspend ext) env vm in
  forall bj rest,
    first_call is_begin_job (log r) = Some (bj, rest) ->
    0 <= e_ret bj ->
    active (e_post bj) = true ->
    state (e_post bj) = VIR_DOMAIN_PMSUSPENDED ->
    retval r = -1
    /\ final_vm r = e_post bj
    /\ exists er ej tail,
         rest = er :: ej :: tail
         /\ e_call er = virReportError VIR_ERR_OPERATION_INVALID "domain is pmsuspended"
         /\ e_call ej = qemuDomainObjEndJob
         /\ calls tail = unlock_if (e_ret ej).
Proof.
  intros Env ext env vm resume r. subst r.
  destruct resume.
  all: exec ext.
  all: intros bj rest H; take_entry H.
  all: intros Hret Hact Hst; try absurd_path.
  all: split; [reflexivity|split; [reflexivity|]].
  all: do 3 eexists; repeat split; try reflexivity; cbn [e_ret].
  all: pick_unlock; reflexivity.
Qed.

Lemma pmsuspended_refused_witness :
  let r := run (qemuDomainSuspend scripted) [] vm_pmsuspended in
  exists bj rest,
    first_call is_begin_job (log r) = Some (bj, rest)
    /\ 0 <= e_ret bj
    /\ active (e_post bj) = true
    /\ state (e_post bj) = VIR_DOMAIN_PMSUSPENDED
    /\ retval r = -1.
Proof.
  cbv zeta. find_entry.
  do 3 (split; [by_run|]).
  refine (proj1 (@pmsuspended_refused Script scripted [] vm_pmsuspended false _ _ _ _ _ _));
    by_run.
Defined.

(** X4.  Resuming a paused guest once the job is held: the CPUs are started
    with [VIR_DOMAIN_RUNNING_UNPAUSED].  On failure the call returns -1,
    no event and no status write follow, and an error is reported exactly
    when [virGetLastError] has none.  On success the resumed event is
    created and it is queued exactly when it was allocated. *)
Theorem resume_paused_guest :
  forall (Env : Type) (ext : Oracle Env) (env : Env) (vm : virDomainObj),
  let r := run (qemuDomainResume ext) env vm in
  forall bj rest,
    first_call is_begin_job (log r) = Some (bj, rest) ->
    0 <= e_ret bj ->
    active (e_post bj) = true ->
    state (e_post bj) = VIR_DOMAIN_PAUSED ->
    exists sc tail,
      rest = sc :: tail
      /\ e_call sc = qemuProcessStartCPUs VIR_DOMAIN_RUNNING_UNPAUSED QEMU_ASYNC_JOB_NONE
      /\ (e_ret sc < 0 ->
          retval r = -1
          /\ called is_new_event tail = false
          /\ called is_event_queue tail = false
          /\ called is_save_status tail = false
          /\ exists le tail',
               tail = le :: tail'
               /\ e_call le = virGetLastError
               /\ called is_report_error tail' = (e_ret le =? 0))
      /\ (0 <= e_ret sc ->
          exists ne tail',
            tail = ne :: tail'
            /\ e_call ne =
                 virDomainEventLifecycleNewFromObj VIR_DOMAIN_EVENT_RESUMED
                                                   VIR_DOMAIN_EVENT_RESUMED_UNPAUSED
            /\ (e_ret ne <> 0 ->
                called (is_queue_of (mkEvent VIR_DOMAIN_EVENT_RESUMED
                                             VIR_DOMAIN_EVENT_RESUMED_UNPAUSED))
                       tail' = true)
            /\ (e_ret ne = 0 -> called is_event_queue tail' = false)).
Proof.
  intros Env ext env vm r. subst r.
  exec ext.
  all: intros bj rest H; take_entry H.
  all: intros Hret Hact Hst; try absurd_path.
  all: do 2 eexists; split; [reflexivity|]; split; [reflexivity|]; cbn [e_ret].
  all: split; intro Hsc; try absurd_path.
  all: try (do 4 (split; [reflexivity|]); do 2 eexists; split; [reflexivity|];
            split; [reflexivity|]; cbn [e_ret called existsb e_call is_report_error orb];
            use_tests; reflexivity).
  all: do 2 eexists; split; [reflexivity|]; split; [reflexivity|]; cbn [e_ret].
  all: split; intro Hne; try absurd_path; try reflexivity.
  all: queue_seen.
Qed.

Lemma resume_paused_guest_witness :
  let r := run (qemuDomainResume scripted) [] vm_paused in
  exists bj rest,
    first_call is_begin_job (log r) = Some (bj, rest)
    /\ 0 <= e_ret bj
    /\ active (e_post bj) = true
    /\ state (e_post bj) = VIR_DOMAIN_PAUSED
    /\ exists sc tail,
         rest = sc :: tail
         /\ e_call sc = qemuProcessStartCPUs VIR_DOMAIN_RUNNING_UNPAUSED QEMU_ASYNC_JOB_NONE.
Proof.
  cbv zeta. find_entry.
  do 3 (split; [by_run|]).
  destruct (@resume_paused_guest Script scripted [] vm_paused _ _
              ltac:(by_run) ltac:(by_run) ltac:(by_run) ltac:(by_run))
    as (sc & tail & Hrest & Hcall & _).
  exists sc, tail. split; [exact Hrest|exact Hcall].
Defined.

(** X5.  Destroying a guest that is still active when the job is obtained
    returns 0 and runs [qemuProcessStop], the stopped event, the audit
    record and [end_job]; then a persistent guest is unlocked, a transient
    one is removed from the list, and the event is queued last. *)
Theorem destroy_active_guest :
  forall (Env : Type) (ext : Oracle Env) (env : Env) (vm : virDomainObj) (flags : Z),
  let r := run (qemuDomainDestroyFlags ext flags) env vm in
  forall bj rest,
    first_call is_begin_job (log r) = Some (bj, rest) ->
    0 <= e_ret bj ->
    active (e_post bj) = true ->
    retval r = 0
    /\ exists ps ne au ej tail,
         rest = ps :: ne :: au :: ej :: tail
         /\ calls [ps; ne; au; ej] =
            [qemuProcessStop VIR_DOMAIN_SHUTOFF_DESTROYED 0;
             virDomainEventLifecycleNewFromObj VIR_DOMAIN_EVENT_STOPPED
                                               VIR_DOMAIN_EVENT_STOPPED_DESTROYED;
             virDomainAuditStop "destroyed"; qemuDomainObjEndJob]
         /\ calls tail =
            ((if persistent (e_post ps) then unlock_if (e_ret ej)
              else if e_ret ej =? 0 then [] else [qemuDomainRemoveInactive])
             ++ (if e_ret ne =? 0 then []
                 else [qemuDomainEventQueue
                         (mkEvent VIR_DOMAIN_EVENT_STOPPED
                                  VIR_DOMAIN_EVENT_STOPPED_DESTROYED)]))%list.
Proof.
  intros Env ext env vm flags r. subst r.
  exec ext.
  all: intros bj rest H; take_entry H.
  all: intros Hret Hact; try absurd_path.
  all: split; [reflexivity|].
  all: do 5 eexists; split; [reflexivity|]; split; [reflexivity|].
  all: cbn [e_ret e_post calls map e_call]; unfold unlock_if; use_tests; reflexivity.
Qed.

Lemma destroy_active_guest_witness :
  let r := run (qemuDomainDestroyFlags scripted 0) [] vm_running in
  exists bj rest,
    first_call is_begin_job (log r) = Some (bj, rest)
    /\ 0 <= e_ret bj
    /\ active (e_post bj) = true
    /\ retval r = 0.
Proof.
  cbv zeta. find_entry.
  do 2 (split; [by_run|]).
  refine (proj1 (@destroy_active_guest Script scripted [] vm_running 0 _ _ _ _ _));
    by_run.
Defined.

(** X6.  [qemuProcessKill] is called without [VIR_QEMU_PROCESS_KILL_FORCE]
    exactly when [VIR_DOMAIN_DESTROY_GRACEFUL] is given.  If it fails the
    call returns -1, the object is unlocked and the [beingDestroyed] marker
    is cleared. *)
Theorem destroy_kill :
  forall (Env : Type) (ext : Oracle Env) (env : Env) (vm : virDomainObj) (flags : Z),
  let r := run (qemuDomainDestroyFlags ext flags) env vm in
  forall k rest,
    first_call is_kill (log r) = Some (k, rest) ->
    e_call k =
      qemuProcessKill (if Z.land flags VIR_DOMAIN_DESTROY_GRACEFUL =? 0
                       then VIR_QEMU_PROCESS_KILL_FORCE else 0)
    /\ (e_ret k < 0 ->
        retval r = -1
        /\ calls rest = [virObjectUnlock]
        /\ final_vm r = set_beingDestroyed false (e_post k)).
Proof.
  intros Env ext env vm flags r. subst r.
  destruct (Z.land flags VIR_DOMAIN_DESTROY_GRACEFUL =? 0) eqn:Hg; cbn [negb].
  all: exec ext.
  all: intros k rest H; take_entry H.
  all: split; [reflexivity|]; intro Hk; try absurd_path.
  all: repeat split; reflexivity.
Qed.

Lemma destroy_kill_witness :
  let r := run (qemuDomainDestroyFlags scripted VIR_DOMAIN_DESTROY_GRACEFUL)
               kill_fails vm_running in
  exists k rest,
    first_call is_kill (log r) = Some (k, rest)
    /\ e_call k = qemuProcessKill 0
    /\ e_ret k < 0
    /\ retval r = -1.
Proof.
  cbv zeta. find_entry.
  destruct (@destroy_kill Script scripted kill_fails vm_running
              VIR_DOMAIN_DESTROY_GRACEFUL _ _ ltac:(by_run)) as [Hcall Hfail].
  split; [exact Hcall|].
  split; [by_run|].
  refine (proj1 (Hfail _)). by_run.
Defined.

(** X7.  Flags outside the supported set are rejected by shutdown, destroy and
    the job statistics before anything else happens: one
    [VIR_ERR_INVALID_ARG] report, the result -1, the domain object
    untouched. *)
Theorem unsupported_flags_rejected :
  forall (Env : Type) (ext : Oracle Env) (env : Env) (vm : virDomainObj) (flags : Z),
  let bad := virReportError VIR_ERR_INVALID_ARG "unsupported flags (0x%lx) in function %s" in
  (Z.land flags (Z.lnot (Z.lor VIR_DOMAIN_SHUTDOWN_ACPI_POWER_BTN
                               VIR_DOMAIN_SHUTDOWN_GUEST_AGENT)) <> 0 ->
   let r := run (qemuDomainShutdownFlags ext flags) env vm in
   retval r = -1 /\ calls (log r) = [bad] /\ final_vm r = vm)
  /\ (Z.land flags (Z.lnot VIR_DOMAIN_DESTROY_GRACEFUL) <> 0 ->
      let r := run (qemuDomainDestroyFlags ext flags) env vm in
      retval r = -1 /\ calls (log r) = [bad] /\ final_vm r = vm)
  /\ (Z.land flags (Z.lnot 0) <> 0 ->
      let r := run (qemuDomainGetJobStats ext flags) env vm in
      retval r = (-1, None) /\ calls (log r) = [bad] /\ final_vm r = vm).
Proof.
  intros Env ext env vm flags bad. subst bad.
  split; [|split]; intros Hbad r; subst r.
  all: apply Z.eqb_neq in Hbad.
  all: exec_unfold; rewrite Hbad; exec ext.
  all: repeat split; reflexivity.
Qed.

Lemma unsupported_flags_rejected_witness :
  let r := run (qemuDomainDestroyFlags scripted 2) [] vm_running in
  Z.land 2 (Z.lnot VIR_DOMAIN_DESTROY_GRACEFUL) <> 0
  /\ retval r = -1
  /\ final_vm r = vm_running.
Proof.
  cbv zeta.
  split; [by_run|].
  destruct (@unsupported_flags_rejected Script scripted [] vm_running 2)
    as (_ & Hdestroy & _).
  destruct (Hdestroy ltac:(by_run)) as (Hret & _ & Hvm).
  split; [exact Hret|exact Hvm].
Defined.

(** X8.  A failed lookup ends the call with the [VIR_ERR_NO_DOMAIN] report and
    -1; a denied access check ends it with the unlock and -1.  The domain
    object is unchanged in both cases. *)
Theorem lookup_or_access_failure :
  forall (Env : Type) (ext : Oracle Env) (env : Env) (vm : virDomainObj) (op : JobOp),
  let r := run (run_op ext op) env vm in
  forall lk rest,
    first_call is_lookup (log r) = Some (lk, rest) ->
    (e_ret lk = 0 ->
     retval r = -1 /\ calls rest = [no_domain_error] /\ final_vm r = vm)
    /\ (e_ret lk <> 0 ->
        forall acl rest',
          first_call is_acl rest = Some (acl, rest') ->
          e_ret acl < 0 ->
          retval r = -1 /\ calls rest' = [virObjectUnlock] /\ final_vm r = vm).
Proof.
  intros Env ext env vm op r. subst r.
  destruct op.
  all: exec ext.
  all: intros lk rest H; take_entry H.
  all: split; intro Hlk; try absurd_path.
  all: try (repeat split; reflexivity).
  all: intros acl rest' H; take_entry H.
  all: intro Hacl; try absurd_path.
  all: repeat split; reflexivity.
Qed.

Lemma lookup_or_access_failure_witness :
  let r := run (run_op scripted OpSuspend) no_such_domain vm_running in
  exists lk rest,
    first_call is_lookup (log r) = Some (lk, rest)
    /\ e_ret lk = 0
    /\ retval r = -1
    /\ calls rest = [no_domain_error].
Proof.
  cbv zeta. find_entry.
  split; [by_run|].
  destruct (@lookup_or_access_failure Script scripted no_such_domain vm_running
              OpSuspend _ _ ltac:(by_run)) as [Hnone _].
  destruct (Hnone ltac:(by_run)) as (Hret & Hcalls & _).
  split; [exact Hret|exact Hcalls].
Defined.

(** X9.  On every path of [qemuDomainSaveInternal] the async job is begun at
    most once and ended exactly once if it was obtained; and the object
    lock the caller passed in is released at the end, [end_async_job]
    answering with a reference count. *)
Theorem save_async_job_released :
  forall (Env : Type) (ext : Oracle Env) (env : Env) (vm : virDomainObj)
         (path : string) (compressed : Z) (xmlin : bool) (flags : Z),
  let r := run (qemuDomainSaveInternal ext path compressed xmlin flags) env vm in
  (count_calls is_begin_async_job (log r) <= 1)%nat
  /\ count_calls is_end_async_job (log r) =
     (if async_job_acquired (log r) then 1%nat else 0%nat)
  /\ (end_async_counts (log r) = true -> lock_state true (log r) = false).
Proof.
  intros Env ext env vm path compressed xmlin flags r. subst r.
  destruct xmlin.
  all: exec2 ext.
  all: split; [lia|]; split; [reflexivity|].
  all: intro H; try discriminate H; use_tests; try reflexivity.
  all: bool_hyps; exfalso; lia.
Qed.

Lemma save_async_job_released_witness :
  let r := run (qemuDomainSaveInternal scripted "/var/lib/libvirt/guest.save" 0 false 0)
               save_image_write_fails vm_running in
  end_async_counts (log r) = true
  /\ async_job_acquired (log r) = true
  /\ count_calls is_end_async_job (log r) = 1%nat
  /\ lock_state true (log r) = false.
Proof.
  cbv zeta.
  destruct (@save_async_job_released Script scripted save_image_write_fails vm_running
              "/var/lib/libvirt/guest.save" 0 false 0) as (_ & Hend & Hlock).
  assert (Hc : end_async_counts (log (run (qemuDomainSaveInternal scripted
                 "/var/lib/libvirt/guest.save" 0 false 0)
                 save_image_write_fails vm_running)) = true) by (vm_compute; reflexivity).
  split; [exact Hc|]. split; [vm_compute; reflexivity|].
  split; [vm_compute; reflexivity|exact (Hlock Hc)].
Defined.

(** X10.  Once [qemuDomainSaveMemory] has returned 0 the save returns 0: the
    process is stopped with reason saved, audited, the stopped event is
    created and the async job ended; a transient guest is removed, the
    event queued, a persistent guest unlocked. *)
Theorem save_success :
  forall (Env : Type) (ext : Oracle Env) (env : Env) (vm : virDomainObj)
         (path : string) (compressed : Z) (xmlin : bool) (flags : Z),
  let r := run (qemuDomainSaveInternal ext path compressed xmlin flags) env vm in
  forall sm rest,
    first_call is_save_memory (log r) = Some (sm, rest) ->
    e_ret sm = 0 ->
    retval r = 0
    /\ exists ps au ne ej tail,
         rest = ps :: au :: ne :: ej :: tail
         /\ calls [ps; au; ne; ej] =
            [qemuProcessStop VIR_DOMAIN_SHUTOFF_SAVED 0; virDomainAuditStop "saved";
             virDomainEventLifecycleNewFromObj VIR_DOMAIN_EVENT_STOPPED
                                               VIR_DOMAIN_EVENT_STOPPED_SAVED;
             qemuDomainObjEndAsyncJob]
         /\ calls tail =
            ((if persistent (e_post ps) then []
              else if 0 <? e_ret ej then [qemuDomainRemoveInactive] else [])
             ++ (if e_ret ne =? 0 then []
                 else [qemuDomainEventQueue
                         (mkEvent VIR_DOMAIN_EVENT_STOPPED VIR_DOMAIN_EVENT_STOPPED_SAVED)])
             ++ (if persistent (e_post ps) then unlock_if (e_ret ej) else []))%list.
Proof.
  intros Env ext env vm path compressed xmlin flags r. subst r.
  destruct xmlin.
  all: exec ext.
  all: intros sm rest H; take_entry H.
  all: intro Hsm; subst; try discriminate.
  all: split; [reflexivity|].
  all: do 5 eexists; split; [reflexivity|]; split; [reflexivity|].
  all: cbn [e_ret e_post calls map e_call]; unfold unlock_if; use_tests; reflexivity.
Qed.

Lemma save_success_witness :
  let r := run (qemuDomainSaveInternal scripted "/var/lib/libvirt/guest.save" 0 false 0)
               [] vm_running in
  exists sm rest,
    first_call is_save_memory (log r) = Some (sm, rest)
    /\ e_ret sm = 0
    /\ retval r = 0.
Proof.
  cbv zeta. find_entry.
  split; [by_run|].
  refine (proj1 (@save_success Script scripted [] vm_running
                   "/var/lib/libvirt/guest.save" 0 false 0 _ _ _ _)); by_run.
Defined.

(** X11.  [qemuDomainGetJobInfo] after the access check: an inactive guest gives
    the error "domain is not running" and -1; an active guest with an
    async job gets the stored job info with the elapsed time refreshed
    from one reading of the clock, or -1 if the clock fails. *)
Theorem job_info_snapshot :
  forall (Env : Type) (ext : Oracle Env) (env : Env) (vm : virDomainObj)
         (info0 : virDomainJobInfo),
  let r := run (qemuDomainGetJobInfo ext info0) env vm in
  forall acl rest,
    first_call is_acl (log r) = Some (acl, rest) ->
    0 <= e_ret acl ->
    (active vm = false ->
     retval r = (-1, info0)
     /\ calls rest = [virReportError VIR_ERR_OPERATION_INVALID "domain is not running";
                      virObjectUnlock])
    /\ (active vm = true ->
        is_async_none (asyncJob (job vm)) = false ->
        dump_memory_only (job vm) = false ->
        exists now,
          calls rest = [virTimeMillisNow; virObjectUnlock]
          /\ first_call is_time_now rest = Some (now, tl rest)
          /\ retval r =
             (if e_ret now <? 0 then (-1, info (job vm))
              else (0, set_timeElapsed (ull_sub (e_ret now) (start (job vm)))
                                       (info (job vm))))).
Proof.
  intros Env ext env vm info0 r. subst r.
  destruct (is_async_none (asyncJob (job vm))) eqn:Hnone;
    destruct (dump_memory_only (job vm)) eqn:Hdump; cbn [negb andb orb].
  all: exec ext.
  all: intros acl rest H; take_entry H.
  all: intro Hacl; try absurd_path.
  all: split; [intro Hact; try discriminate Hact; split; reflexivity|].
  all: intros Hact Hn Hd; try discriminate.
  all: eexists; split; [reflexivity|]; split; [reflexivity|].
  all: cbn [e_ret]; use_tests; reflexivity.
Qed.

Lemma job_info_snapshot_witness :
  let r := run (qemuDomainGetJobInfo scripted zero_info) clock_at_5000 vm_migrating in
  exists acl rest,
    first_call is_acl (log r) = Some (acl, rest)
    /\ 0 <= e_ret acl
    /\ active vm_migrating = true
    /\ is_async_none (asyncJob (job vm_migrating)) = false
    /\ dump_memory_only (job vm_migrating) = false
    /\ exists now, calls rest = [virTimeMillisNow; virObjectUnlock] /\ e_ret now = 5000.
Proof.
  cbv zeta. find_entry.
  do 4 (split; [by_run|]).
  destruct (@job_info_snapshot Script scripted clock_at_5000 vm_migrating zero_info _ _
              ltac:(by_run) ltac:(by_run)) as [_ Hactive].
  destruct (Hactive ltac:(by_run) ltac:(by_run) ltac:(by_run)) as (now & Hcalls & Hfirst & _).
  exists now. split; [exact Hcalls|].
  revert Hfirst. vm_compute. intro Hfirst. inversion Hfirst. reflexivity.
Defined.

Section Releases.

Variable Env : Type.
Variable ext : Oracle Env.

Lemma releases_cleanup :
  forall out ret_, releases (qemuDomainGetJobStats_cleanup ext true out ret_).
Proof.
  intros out ret_ w.
  unfold qemuDomainGetJobStats_cleanup, when, bind, ret, call.
  destruct (ret_ <? 0);
    repeat match goal with
    | |- context [ext ?c ?e ?v] => destruct (ext c e v) as [[? ?] ?]
    end;
    cbn [snd w_vm w_log touches_vm].
  - eexists; rewrite <- app_assoc; split; [reflexivity|]. intro held. reflexivity.
  - eexists; split; [reflexivity|]. intro held. reflexivity.
Qed.

Lemma releases_addULLong :
  forall par name value k,
    (forall par', releases (k par')) ->
    releases (addULLong ext par name value k).
Proof.
  intros par name value k Hk w.
  unfold addULLong, bind, call.
  destruct (ext (virTypedParamsAddULLong name value) (w_env w) (w_vm w))
    as [[rc e'] v'].
  cbn [touches_vm].
  destruct (rc <? 0).
  - destruct (releases_cleanup None (-1)
                (mkWorld (w_vm w) e'
                   (w_log w ++ [mkEntry (virTypedParamsAddULLong name value) rc
                                        (w_vm w) (w_vm w)])))
      as [l [Hl Hp]].
    cbn [w_log] in Hl.
    eexists; rewrite Hl, <- app_assoc; split; [reflexivity|].
    intro held. cbn [app lock_state fold_left lock_after e_call]. apply Hp.
  - destruct (Hk (par ++ [(name, value)])%list
                (mkWorld (w_vm w) e'
                   (w_log w ++ [mkEntry (virTypedParamsAddULLong name value) rc
                                        (w_vm w) (w_vm w)])))
      as [l [Hl Hp]].
    cbn [w_log] in Hl.
    eexists; rewrite Hl, <- app_assoc; split; [reflexivity|].
    intro held. cbn [app lock_state fold_left lock_after e_call]. apply Hp.
Qed.

Lemma releases_addULLongIf :
  forall c par name value k,
    (forall par', releases (k par')) ->
    releases (addULLongIf ext c par name value k).
Proof.
  intros c par name value k Hk. unfold addULLongIf.
  destruct c; [apply releases_addULLong; exact Hk | apply Hk].
Qed.

Lemma releases_params :
  forall j, releases (qemuDomainGetJobStats_params ext j).
Proof.
  intro j. unfold qemuDomainGetJobStats_params.
  repeat first [ apply releases_addULLong; intro
               | apply releases_addULLongIf; intro ].
  apply releases_cleanup.
Qed.

End Releases.

(** X12.  Whatever the helpers answer, suspend, resume, shutdown, destroy,
    abort-job, the job info and the job statistics return with the object
    lock released. *)
Theorem lock_released_on_every_path :
  forall (Env : Type) (ext : Oracle Env) (env : Env) (vm : virDomainObj),
  (forall op, lock_state false (log (run (run_op ext op) env vm)) = false)
  /\ (forall info0, lock_state false (log (run (qemuDomainGetJobInfo ext info0) env vm)) = false)
  /\ (forall flags, lock_state false (log (run (qemuDomainGetJobStats ext flags) env vm)) = false).
Proof.
  intros Env ext env vm. split; [|split].
  - intro op. destruct op.
    all: exec2 ext.
    all: use_tests; reflexivity.
  - intro info0. exec2 ext; use_tests; reflexivity.
  - intro flags. exec2 ext.
    all: lazymatch goal with
         | |- context [@qemuDomainGetJobStats_params ?E ?f ?j ?w] =>
             destruct (@releases_params E f j w) as [l [Hl Hp]];
             cbn [w_log app] in Hl; rewrite Hl;
             cbn [lock_state fold_left lock_after e_call e_ret];
             apply Hp
         | _ => use_tests; reflexivity
         end.
Qed.

(** ** The save image *)

Import SaveImage.

Import SaveImage.

Lemma bswap_32_word : forall x, word32 (bswap_32 x).
Proof.
  intro x. unfold word32, bswap_32.
  pose proof (Z.mod_pos_bound x 256 ltac:(lia)).
  pose proof (Z.mod_pos_bound (x / 2 ^ 8) 256 ltac:(lia)).
  pose proof (Z.mod_pos_bound (x / 2 ^ 16) 256 ltac:(lia)).
  pose proof (Z.mod_pos_bound (x / 2 ^ 24) 256 ltac:(lia)).
  lia.
Qed.

Lemma bytes_of_word :
  forall a b c d,
    0 <= a < 256 -> 0 <= b < 256 -> 0 <= c < 256 -> 0 <= d < 256 ->
    let y := a * 16777216 + b * 65536 + c * 256 + d in
    y mod 256 = d /\ (y / 256) mod 256 = c /\ (y / 65536) mod 256 = b
    /\ (y / 16777216) mod 256 = a.
Proof.
  intros a b c d Ha Hb Hc Hd y. subst y.
  assert (H1 : (a * 16777216 + b * 65536 + c * 256 + d) / 256 = a * 65536 + b * 256 + c).
  { symmetry. apply Z.div_unique with (r := d); lia. }
  assert (H2 : (a * 16777216 + b * 65536 + c * 256 + d) / 65536 = a * 256 + b).
  { symmetry. apply Z.div_unique with (r := c * 256 + d); lia. }
  assert (H3 : (a * 16777216 + b * 65536 + c * 256 + d) / 16777216 = a).
  { symmetry. apply Z.div_unique with (r := b * 65536 + c * 256 + d); lia. }
  rewrite H1, H2, H3.
  repeat split.
  - symmetry. apply Z.mod_unique with (q := a * 65536 + b * 256 + c); lia.
  - symmetry. apply Z.mod_unique with (q := a * 256 + b); lia.
  - symmetry. apply Z.mod_unique with (q := a); lia.
  - apply Z.mod_small; lia.
Qed.

Lemma word_of_bytes :
  forall x, 0 <= x < 4294967296 ->
    x = (x / 16777216) mod 256 * 16777216 + (x / 65536) mod 256 * 65536
        + (x / 256) mod 256 * 256 + x mod 256.
Proof.
  intros x Hx.
  assert (E3 : (x / 16777216) mod 256 = x / 16777216).
  { apply Z.mod_small. split; [apply Z.div_pos; lia|].
    apply Z.div_lt_upper_bound; lia. }
  rewrite E3.
  pose proof (Z.div_mod x 256 ltac:(lia)) as D0.
  pose proof (Z.div_mod (x / 256) 256 ltac:(lia)) as D1.
  pose proof (Z.div_mod (x / 65536) 256 ltac:(lia)) as D2.
  rewrite Z.div_div in D1 by lia. change (256 * 256) with 65536 in D1.
  rewrite Z.div_div in D2 by lia. change (65536 * 256) with 16777216 in D2.
  lia.
Qed.

Lemma bswap_32_involutive : forall x, word32 x -> bswap_32 (bswap_32 x) = x.
Proof.
  intros x Hx. unfold word32 in Hx. change (2 ^ 32) with 4294967296 in Hx.
  unfold bswap_32.
  change (2 ^ 8) with 256. change (2 ^ 16) with 65536. change (2 ^ 24) with 16777216.
  pose proof (Z.mod_pos_bound x 256 ltac:(lia)) as B0.
  pose proof (Z.mod_pos_bound (x / 256) 256 ltac:(lia)) as B1.
  pose proof (Z.mod_pos_bound (x / 65536) 256 ltac:(lia)) as B2.
  pose proof (Z.mod_pos_bound (x / 16777216) 256 ltac:(lia)) as B3.
  destruct (bytes_of_word B0 B1 B2 B3) as (E0 & E1 & E2 & E3).
  cbv zeta in E0, E1, E2, E3.
  rewrite E0, E1, E2, E3.
  symmetry. apply word_of_bytes. exact Hx.
Qed.

Lemma bswap_header_involutive :
  forall h, header_words h -> bswap_header (bswap_header h) = h.
Proof.
  intros [m v x w c] (Hv & Hx & Hw & Hc). cbn in *.
  unfold bswap_header; cbn.
  rewrite !bswap_32_involutive by assumption. reflexivity.
Qed.

(** X13.  The byte-order test on the version field: a header of version 1 or 2
    is kept as it is, and the same header with its four fields in the
    other byte order is swapped back to it. *)
Theorem byte_order_detection :
  forall h,
    header_words h ->
    1 <= version h <= QEMU_SAVE_VERSION ->
    host_header h = h
    /\ host_header (bswap_header h) = h
    /\ header_words (bswap_header h).
Proof.
  intros h Hw Hver. unfold QEMU_SAVE_VERSION in Hver.
  split; [|split].
  - unfold host_header.
    replace (QEMU_SAVE_VERSION <? version h) with false; [reflexivity|].
    symmetry. apply Z.ltb_ge. unfold QEMU_SAVE_VERSION. lia.
  - unfold host_header.
    replace (QEMU_SAVE_VERSION <? version (bswap_header h)) with true.
    + apply bswap_header_involutive. exact Hw.
    + assert (Hv : version h = 1 \/ version h = 2) by lia.
      destruct h as [m v x w c]. cbn [version bswap_header] in *.
      destruct Hv as [-> | ->]; reflexivity.
  - destruct h as [m v x w c]. unfold header_words, bswap_header; cbn.
    repeat split; apply bswap_32_word.
Qed.

Lemma byte_order_detection_witness :
  let h := final_header 100 QEMU_SAVE_FORMAT_RAW true in
  header_words h
  /\ 1 <= version h <= QEMU_SAVE_VERSION
  /\ host_header (bswap_header h) = h.
Proof.
  cbv zeta.
  assert (Hw : header_words (final_header 100 QEMU_SAVE_FORMAT_RAW true))
    by (vm_compute; repeat split; first [reflexivity | intro; discriminate]).
  assert (Hv : 1 <= version (final_header 100 QEMU_SAVE_FORMAT_RAW true) <= QEMU_SAVE_VERSION)
    by (vm_compute; split; intro; discriminate).
  split; [exact Hw|]. split; [exact Hv|].
  exact (proj1 (proj2 (byte_order_detection Hw Hv))).
Defined.

Lemma save_padding_aligned :
  forall bs offset,
    0 < bs -> 0 <= offset -> offset + 1024 + bs < 2 ^ 64 ->
    let pad := save_padding bs offset in
    1024 < pad <= 1024 + bs /\ (offset + pad) mod bs = 0.
Proof.
  intros bs offset Hbs Hoff Hmax pad. subst pad. unfold save_padding, ull.
  pose proof (Z.mod_pos_bound (offset + 1024) bs Hbs) as Hm.
  rewrite (Z.mod_small (offset + 1024)) by lia.
  rewrite (Z.mod_small (bs - _)) by lia.
  rewrite (Z.mod_small (1024 + _)) by lia.
  split; [lia|].
  replace (offset + (1024 + (bs - (offset + 1024) mod bs)))
    with ((offset + 1024) - (offset + 1024) mod bs + 1 * bs) by lia.
  rewrite Z.mod_add by lia.
  rewrite Zminus_mod, Zmod_mod, Z.sub_diag. apply Zmod_0_l.
Qed.

Lemma u32_small : forall x, 0 <= x < 2 ^ 32 -> u32 (ull x) = x.
Proof.
  intros x Hx. unfold u32, ull.
  rewrite (Z.mod_small x (2 ^ 64)) by lia. apply Z.mod_small. exact Hx.
Qed.

Lemma final_header_words :
  forall len c b, header_words (final_header len c b).
Proof.
  intros len c b. unfold header_words, word32, final_header, first_header, set_magic.
  cbn [version xml_len was_running compressed]. unfold QEMU_SAVE_VERSION, u32.
  pose proof (Z.mod_pos_bound (ull (len + 1)) (2 ^ 32)).
  pose proof (Z.mod_pos_bound c (2 ^ 32)).
  destruct b; repeat split; lia.
Qed.

Lemma host_header_saved :
  forall len c b fh,
    fh = final_header len c b \/ fh = bswap_header (final_header len c b) ->
    magic fh = QEMU_SAVE_MAGIC /\ host_header fh = final_header len c b.
Proof.
  intros len c b fh [-> | ->].
  - split; reflexivity.
  - split; [reflexivity|].
    unfold host_header.
    replace (QEMU_SAVE_VERSION <? version (bswap_header (final_header len c b)))
      with true by reflexivity.
    apply bswap_header_involutive. apply final_header_words.
Qed.

(** X14.  The image is marked complete last: the first header written is the
    partial one; the file is left with the final header only if
    [qemuMigrationToFile] ran before that write and did not fail; a return
    value of 0 means the file is left with the final header; the return
    value is 0 or -1. *)
Theorem save_memory_two_phase :
  forall (Env : Type) (ext : IOracle Env) (env : Env)
         (bs len compressed_ : Z) (was_running_ : bool) (flags : Z),
  let r := irun (qemuDomainSaveMemory ext bs len compressed_ was_running_ flags) env in
  let final := final_header len compressed_ was_running_ in
  (forall w rest,
     ifirst is_write_header (ilog r) = Some (w, rest) ->
     fst w = safewrite_header (first_header len compressed_ was_running_))
  /\ (last_header_write (ilog r) = Some final ->
      exists m rest,
        ifirst is_migration (ilog r) = Some (m, rest)
        /\ 0 <= snd m
        /\ last_header_write rest = Some final)
  /\ (iretval r = 0 -> last_header_write (ilog r) = Some final)
  /\ (iretval r = 0 \/ iretval r = -1).
Proof.
  intros Env ext env bs len compressed_ was_running_ flags r final.
  subst r final.
  iexec_once ext.
  all: isimp.
  all: split; [intros w rest H; take_call H; reflexivity|].
  all: split; [intro H;
               first [ discriminate H
                     | do 2 eexists; split; [reflexivity|]; cbn [fst snd];
                       split; [bool_hyps; lia|reflexivity] ]|].
  all: split; [intro H; first [discriminate H | reflexivity]|].
  all: first [left; reflexivity | right; reflexivity].
Qed.

Lemma save_memory_two_phase_witness :
  let r := irun (qemuDomainSaveMemory io_scripted 1048576 100 QEMU_SAVE_FORMAT_RAW true 0) [] in
  iretval r = 0
  /\ last_header_write (ilog r) = Some (final_header 100 QEMU_SAVE_FORMAT_RAW true).
Proof.
  cbv zeta.
  assert (H : iretval (irun (qemuDomainSaveMemory io_scripted 1048576 100
                               QEMU_SAVE_FORMAT_RAW true 0) []) = 0)
    by (vm_compute; reflexivity).
  split; [exact H|].
  exact (proj1 (proj2 (proj2 (@save_memory_two_phase (list Z) io_scripted [] 1048576 100
                                QEMU_SAVE_FORMAT_RAW true 0))) H).
Defined.

(** X15.  The offset of the memory image: a multiple of the block size, more
    than 1024 and at most 1024 + [bs] bytes behind the header and the
    XML; the program is gzip, bzip2, xz or lzop for the formats 1 to 4
    and none for raw and for a number that is no save format. *)
Theorem save_memory_data_offset :
  forall (Env : Type) (ext : IOracle Env) (env : Env)
         (bs len compressed_ : Z) (was_running_ : bool) (flags : Z),
  0 < bs -> 0 <= len -> sizeof_header + (len + 1) + 1024 + bs < 2 ^ 64 ->
  let r := irun (qemuDomainSaveMemory ext bs len compressed_ was_running_ flags) env in
  forall m rest,
    ifirst is_migration (ilog r) = Some (m, rest) ->
    exists offset program bypassSecurityDriver,
      fst m = qemuMigrationToFile offset program bypassSecurityDriver
      /\ offset mod bs = 0
      /\ sizeof_header + (len + 1) + 1024 < offset
           <= sizeof_header + (len + 1) + 1024 + bs
      /\ (compressed_ = 1 -> program = Some "gzip")
      /\ (compressed_ = 2 -> program = Some "bzip2")
      /\ (compressed_ = 3 -> program = Some "xz")
      /\ (compressed_ = 4 -> program = Some "lzop")
      /\ (compressed_ <= 0 \/ 5 <= compressed_ -> program = None).
Proof.
  intros Env ext env bs len compressed_ was_running_ flags Hbs Hlen Hmax r.
  subst r.
  assert (Hl : ull (len + 1) = len + 1)
    by (apply Z.mod_small; unfold sizeof_header in Hmax; lia).
  assert (Ho : ull (sizeof_header + ull (len + 1)) = sizeof_header + (len + 1))
    by (rewrite Hl; apply Z.mod_small; unfold sizeof_header in *; lia).
  pose proof (@save_padding_aligned bs (sizeof_header + (len + 1)) Hbs
                ltac:(unfold sizeof_header; lia) ltac:(lia)) as Hp.
  cbv zeta in Hp. destruct Hp as [[Hp1 Hp2] Hp3].
  assert (Hs : ull (sizeof_header + (len + 1)
                    + save_padding bs (sizeof_header + (len + 1)))
               = sizeof_header + (len + 1)
                 + save_padding bs (sizeof_header + (len + 1)))
    by (apply Z.mod_small; unfold sizeof_header in *; lia).
  assert (Hprog :
            (compressed_ = 1 -> qemuCompressProgramName compressed_ = Some "gzip")
            /\ (compressed_ = 2 -> qemuCompressProgramName compressed_ = Some "bzip2")
            /\ (compressed_ = 3 -> qemuCompressProgramName compressed_ = Some "xz")
            /\ (compressed_ = 4 -> qemuCompressProgramName compressed_ = Some "lzop")
            /\ (compressed_ <= 0 \/ 5 <= compressed_ ->
                qemuCompressProgramName compressed_ = None)).
  { do 4 (split; [intros ->; reflexivity|]).
    intros Hout. unfold qemuCompressProgramName, qemuSaveCompressionTypeToString,
                        QEMU_SAVE_FORMAT_RAW, QEMU_SAVE_FORMAT_LAST.
    destruct (Z.eqb_spec compressed_ 0); [reflexivity|].
    destruct (Z.ltb_spec compressed_ 0); [reflexivity|].
    destruct (Z.leb_spec 5 compressed_); [reflexivity|lia]. }
  iexec_once ext.
  all: intros m rest H;
       first [ discriminate H
             | match type of H with
               | Some (?a, _) = _ =>
                   assert (Hm : m = a) by congruence; subst m; clear H
               end ];
       cbn [fst snd].
  all: do 3 eexists; split; [reflexivity|].
  all: rewrite ?Ho, ?Hs.
  all: split; [exact Hp3|].
  all: split; [lia|exact Hprog].
Qed.

Lemma save_memory_data_offset_witness :
  let bs := 1048576 in
  let r := irun (qemuDomainSaveMemory io_scripted bs 100 1 true 0) [] in
  0 < bs
  /\ 0 <= 100
  /\ sizeof_header + (100 + 1) + 1024 + bs < 2 ^ 64
  /\ exists m rest,
       ifirst is_migration (ilog r) = Some (m, rest)
       /\ exists offset bypassSecurityDriver,
            fst m = qemuMigrationToFile offset (Some "gzip") bypassSecurityDriver
            /\ offset mod bs = 0.
Proof.
  cbv zeta.
  split; [by_run|]. split; [by_run|]. split; [by_run|].
  do 2 eexists. split; [vm_compute; reflexivity|].
  destruct (@save_memory_data_offset (list Z) io_scripted [] 1048576 100
              1 true 0 ltac:(by_run) ltac:(by_run) ltac:(by_run)
              _ _ ltac:(vm_compute; reflexivity))
    as (offset & program & b & Hcall & Hmod & _ & Hgzip & _).
  exists offset, b. rewrite (Hgzip eq_refl) in Hcall.
  split; [exact Hcall|exact Hmod].
Defined.

(** X16.  The file is unlinked exactly on a failure after the first
    [qemuOpenFile] whose [needUnlink] answer was true: never on success and
    never before the file is opened. *)
Theorem save_memory_unlinks_on_failure :
  forall (Env : Type) (ext : IOracle Env) (env : Env)
         (bs len compressed_ : Z) (was_running_ : bool) (flags : Z),
  let r := irun (qemuDomainSaveMemory ext bs len compressed_ was_running_ flags) env in
  (iretval r = 0 -> icalled is_unlink (ilog r) = false)
  /\ (ifirst is_needUnlink (ilog r) = None -> icalled is_unlink (ilog r) = false)
  /\ (forall nu rest,
        ifirst is_needUnlink (ilog r) = Some (nu, rest) ->
        iretval r <> 0 ->
        icalled is_unlink rest = negb (snd nu =? 0)).
Proof.
  intros Env ext env bs len compressed_ was_running_ flags r. subst r.
  iexec_once ext.
  all: split; [intro H; first [discriminate H | reflexivity]|].
  all: split; [intro H; first [discriminate H | reflexivity]|].
  all: intros nu rest H; take_call H.
  all: intro Hr; try (exfalso; apply Hr; reflexivity).
  all: match goal with
       | H : ?x = _ |- _ = negb ?x => rewrite H; reflexivity
       end.
Qed.

Lemma save_memory_unlinks_on_failure_witness :
  let r := irun (qemuDomainSaveMemory io_scripted 1048576 100 QEMU_SAVE_FORMAT_RAW true 0)
                [0; 7; 1; 0; 0; 1; 92; 101; -1] in
  iretval r <> 0
  /\ exists nu rest,
       ifirst is_needUnlink (ilog r) = Some (nu, rest)
       /\ snd nu = 1
       /\ icalled is_unlink rest = true.
Proof.
  cbv zeta.
  assert (H : iretval (irun (qemuDomainSaveMemory io_scripted 1048576 100
                               QEMU_SAVE_FORMAT_RAW true 0)
                            [0; 7; 1; 0; 0; 1; 92; 101; -1]) <> 0)
    by (vm_compute; intro; discriminate).
  split; [exact H|].
  do 2 eexists. split; [vm_compute; reflexivity|]. split; [reflexivity|].
  exact (proj2 (proj2 (@save_memory_unlinks_on_failure (list Z) io_scripted
                         [0; 7; 1; 0; 0; 1; 92; 101; -1] 1048576 100
                         QEMU_SAVE_FORMAT_RAW true 0)) _ _ ltac:(vm_compute; reflexivity) H).
Defined.

(** X17.  The image is unlinked only on request and only if the header read
    was short or the magic is the partial one; nothing is parsed then.
    The result -3 comes with an unlink and without an error report. *)
Theorem image_open_removes_only_corrupt :
  forall (Env : Type) (ext : IOracle Env) (env : Env)
         (file_header : virQEMUSaveHeader) (file_xml : string)
         (bypass_cache : bool) (xmlin : option string) (state_ : Z)
         (edit unlink_corrupt : bool),
  let r := irun (qemuDomainSaveImageOpen ext file_header file_xml bypass_cache
                   xmlin state_ edit unlink_corrupt) env in
  (icalled is_unlink (ilog r) = true ->
     unlink_corrupt = true
     /\ icalled is_parse (ilog r) = false
     /\ exists n rest,
          ifirst is_read_header (ilog r) = Some ((saferead_header, n), rest)
          /\ (n <> sizeof_header \/ magic file_header = QEMU_SAVE_PARTIAL))
  /\ (fst (iretval r) = -3 ->
      icalled is_unlink (ilog r) = true /\ icalled is_report (ilog r) = false).
Proof.
  intros Env ext env file_header file_xml bypass_cache xmlin state_ edit
         unlink_corrupt r. subst r.
  iexec_once ext.
  all: split;
    [ intro H;
      first [ discriminate H
            | split; [reflexivity|]; split; [reflexivity|];
              do 2 eexists; split; [reflexivity|];
              bool_hyps; str_hyps;
              first [ left; assumption | right; assumption ] ]
    | intro H;
      first [ discriminate H
            | split; reflexivity
            | exfalso; bool_hyps; lia ] ].
Qed.

Lemma image_open_removes_only_corrupt_witness :
  let r := irun (qemuDomainSaveImageOpen io_scripted
                   (final_header 100 QEMU_SAVE_FORMAT_RAW true) "<domain/>"
                   false None (-1) false true) [1; 7; 10] in
  fst (iretval r) = -3
  /\ icalled is_unlink (ilog r) = true
  /\ icalled is_report (ilog r) = false.
Proof.
  cbv zeta.
  assert (H : fst (iretval (irun (qemuDomainSaveImageOpen io_scripted
                   (final_header 100 QEMU_SAVE_FORMAT_RAW true) "<domain/>"
                   false None (-1) false true) [1; 7; 10])) = -3)
    by (vm_compute; reflexivity).
  split; [exact H|].
  exact (proj2 (@image_open_removes_only_corrupt (list Z) io_scripted [1; 7; 10]
                  (final_header 100 QEMU_SAVE_FORMAT_RAW true) "<domain/>"
                  false None (-1) false true) H).
Defined.

(** X18.  What a returned definition and header imply: a descriptor >= 0, the
    final magic, a supported version, a positive XML length that was read
    in full, the header in host order with the state override, the saved
    definition exactly when no XML was passed in, no unlink and no error
    report.  Without them the result is -1, -2 or -3. *)
Theorem image_open_success :
  forall (Env : Type) (ext : IOracle Env) (env : Env)
         (file_header : virQEMUSaveHeader) (file_xml : string)
         (bypass_cache : bool) (xmlin : option string) (state_ : Z)
         (edit unlink_corrupt : bool),
  let r := irun (qemuDomainSaveImageOpen ext file_header file_xml bypass_cache
                   xmlin state_ edit unlink_corrupt) env in
  let host := host_header file_header in
  (forall def header,
     snd (iretval r) = Some (def, header) ->
     0 <= fst (iretval r)
     /\ magic file_header = QEMU_SAVE_MAGIC
     /\ version host <= QEMU_SAVE_VERSION
     /\ 0 < xml_len host
     /\ header = (if 0 <=? state_ then set_was_running state_ host else host)
     /\ (def = SavedDef <-> xmlin = None)
     /\ icalled is_unlink (ilog r) = false
     /\ icalled is_report (ilog r) = false
     /\ exists rest,
          ifirst is_read_xml (ilog r)
          = Some ((saferead_xml (xml_len host), xml_len host), rest))
  /\ (snd (iretval r) = None ->
      fst (iretval r) = -1 \/ fst (iretval r) = -2 \/ fst (iretval r) = -3).
Proof.
  intros Env ext env file_header file_xml bypass_cache xmlin state_ edit
         unlink_corrupt r host. subst r host.
  iexec_once ext.
  all: split;
    [ intros def header H;
      first [ discriminate H
            | match type of H with
              | Some (?d, ?h) = _ =>
                  assert (Hd : def = d) by congruence;
                  assert (Hh : header = h) by congruence
              end;
              clear H; bool_hyps; str_hyps; subst;
              split; [assumption|];
              split; [assumption|];
              split; [assumption|];
              split; [assumption|];
              split; [reflexivity|];
              split; [split; intro; first [discriminate | reflexivity]|];
              split; [reflexivity|];
              split; [reflexivity|];
              eexists; reflexivity ]
    | intro H;
      first [ discriminate H
            | left; reflexivity
            | right; left; reflexivity
            | right; right; reflexivity ] ].
Qed.

Lemma image_open_success_witness :
  let file_header := final_header 100 QEMU_SAVE_FORMAT_RAW true in
  let r := irun (qemuDomainSaveImageOpen io_scripted file_header "<domain/>"
                   false (Some "<domain type='kvm'/>") 0 false false) [] in
  exists def header,
    snd (iretval r) = Some (def, header)
    /\ header = set_was_running 0 (host_header file_header)
    /\ icalled is_report (ilog r) = false.
Proof.
  cbv zeta. do 2 eexists.
  split; [vm_compute; reflexivity|].
  destruct (proj1 (@image_open_success (list Z) io_scripted []
                     (final_header 100 QEMU_SAVE_FORMAT_RAW true) "<domain/>"
                     false (Some "<domain type='kvm'/>") 0 false false)
              _ _ ltac:(vm_compute; reflexivity))
    as (_ & _ & _ & _ & Hh & _ & _ & Hrep & _).
  split; [exact Hh|exact Hrep].
Defined.

(** X19.  The result -2 means an edit that changes nothing: edit mode, the same
    XML, and no state or the stored one; nothing is parsed, reported or
    unlinked. *)
Theorem image_open_unchanged_edit :
  forall (Env : Type) (ext : IOracle Env) (env : Env)
         (file_header : virQEMUSaveHeader) (file_xml : string)
         (bypass_cache : bool) (xmlin : option string) (state_ : Z)
         (edit unlink_corrupt : bool),
  let r := irun (qemuDomainSaveImageOpen ext file_header file_xml bypass_cache
                   xmlin state_ edit unlink_corrupt) env in
  fst (iretval r) = -2 ->
  edit = true
  /\ xmlin = Some file_xml
  /\ (state_ < 0 \/ state_ = was_running (host_header file_header))
  /\ snd (iretval r) = None
  /\ icalled is_parse (ilog r) = false
  /\ icalled is_report (ilog r) = false
  /\ icalled is_unlink (ilog r) = false.
Proof.
  intros Env ext env file_header file_xml bypass_cache xmlin state_ edit
         unlink_corrupt r. subst r.
  iexec_once ext.
  all: intro H;
    first [ discriminate H
          | exfalso; bool_hyps; lia
          | bool_hyps; str_hyps; subst;
            split; [reflexivity|];
            split; [reflexivity|];
            split; [first [left; lia | right; lia]|];
            repeat split; reflexivity ].
Qed.

Lemma image_open_unchanged_edit_witness :
  let r := irun (qemuDomainSaveImageOpen io_scripted
                   (final_header 100 QEMU_SAVE_FORMAT_RAW true) "<domain/>"
                   false (Some "<domain/>") (-1) true false) [] in
  fst (iretval r) = -2
  /\ icalled is_parse (ilog r) = false.
Proof.
  cbv zeta.
  assert (H : fst (iretval (irun (qemuDomainSaveImageOpen io_scripted
                   (final_header 100 QEMU_SAVE_FORMAT_RAW true) "<domain/>"
                   false (Some "<domain/>") (-1) true false) [])) = -2)
    by (vm_compute; reflexivity).
  split; [exact H|].
  destruct (@image_open_unchanged_edit (list Z) io_scripted []
              (final_header 100 QEMU_SAVE_FORMAT_RAW true) "<domain/>"
              false (Some "<domain/>") (-1) true false H)
    as (_ & _ & _ & _ & Hparse & _).
  exact Hparse.
Defined.

(** X20.  An image [qemuDomainSaveMemory] completed is accepted by
    [qemuDomainSaveImageOpen] in either byte order: no complaint about the
    header, no unlink once the header is read, the XML buffer of the
    length written, and the fields written handed back. *)
Theorem saved_image_reopens :
  forall (Env : Type) (ext : IOracle Env) (env : Env)
         (len c : Z) (b : bool) (file_header : virQEMUSaveHeader)
         (file_xml : string) (bypass_cache : bool) (xmlin : option string)
         (state_ : Z) (edit unlink_corrupt : bool),
  0 <= len -> len + 1 < 2 ^ 32 ->
  file_header = final_header len c b
  \/ file_header = bswap_header (final_header len c b) ->
  let r := irun (qemuDomainSaveImageOpen ext file_header file_xml bypass_cache
                   xmlin state_ edit unlink_corrupt) env in
  icalled is_header_error (ilog r) = false
  /\ (forall n rest,
        ifirst is_read_header (ilog r) = Some ((saferead_header, n), rest) ->
        n = sizeof_header ->
        icalled is_unlink (ilog r) = false
        /\ exists a rest',
             ifirst is_alloc rest = Some ((VIR_ALLOC_N (len + 1), a), rest'))
  /\ (forall def header,
        snd (iretval r) = Some (def, header) ->
        version header = QEMU_SAVE_VERSION
        /\ xml_len header = len + 1
        /\ compressed header = u32 c
        /\ was_running header
           = if 0 <=? state_ then state_ else if b then 1 else 0).
Proof.
  intros Env ext env len c b file_header file_xml bypass_cache xmlin state_
         edit unlink_corrupt Hlen Hmax Hfile r. subst r.
  destruct (host_header_saved Hfile) as [Hmagic Hhost].
  assert (Hxl : xml_len (host_header file_header) = len + 1)
    by (rewrite Hhost; cbn [final_header first_header set_magic xml_len];
        apply u32_small; lia).
  assert (Hm : String.eqb (magic file_header) QEMU_SAVE_MAGIC = true)
    by (apply String.eqb_eq; exact Hmagic).
  assert (Hv : (QEMU_SAVE_VERSION <? version (host_header file_header)) = false)
    by (rewrite Hhost; reflexivity).
  assert (Hx : (xml_len (host_header file_header) <=? 0) = false)
    by (rewrite Hxl; apply Z.leb_gt; lia).
  iexec_once ext.
  all: split; [reflexivity|].
  all: split;
    [ intros n rest H Hn;
      first [ discriminate H
            | exfalso;
              match type of H with
              | Some (_, ?z, _) = _ => assert (Hz : z = n) by congruence
              end; bool_hyps; congruence
            | match type of H with
              | Some (_, ?l) = _ => assert (Hr : rest = l) by congruence
              end; subst rest; cbn [ifirst is_alloc fst];
              split; [reflexivity|]; rewrite Hxl; do 2 eexists; reflexivity ]
    | intros def header H;
      first [ discriminate H
            | match type of H with
              | Some (_, ?h) = _ => assert (Hh : header = h) by congruence
              end; subst header;
              cbn [version xml_len compressed was_running set_was_running];
              rewrite ?Hxl, Hhost;
              cbn [final_header first_header set_magic version xml_len
                   compressed was_running];
              repeat split; reflexivity ] ].
Qed.

Lemma saved_image_reopens_witness :
  let file_header := bswap_header (final_header 100 QEMU_SAVE_FORMAT_RAW true) in
  let r := irun (qemuDomainSaveImageOpen io_scripted file_header "<domain/>"
                   false None (-1) false false) [] in
  0 <= 100
  /\ 100 + 1 < 2 ^ 32
  /\ (exists def header,
        snd (iretval r) = Some (def, header) /\ xml_len header = 100 + 1)
  /\ icalled is_header_error (ilog r) = false.
Proof.
  cbv zeta.
  split; [by_run|]. split; [by_run|].
  destruct (@saved_image_reopens (list Z) io_scripted [] 100 QEMU_SAVE_FORMAT_RAW true
              (bswap_header (final_header 100 QEMU_SAVE_FORMAT_RAW true)) "<domain/>"
              false None (-1) false false ltac:(by_run) ltac:(by_run)
              (or_intror eq_refl))
    as (Herr & _ & Hhdr).
  split; [|exact Herr].
  do 2 eexists. split; [vm_compute; reflexivity|].
  refine (proj1 (proj2 (Hhdr _ _ _))). vm_compute; reflexivity.
Defined.

(** X21.  An image with the partial magic is never used: the result is -1 or
    -3, nothing is allocated or parsed; without [unlink_corrupt] the error
    is "save image is incomplete" and the file stays. *)
Theorem incomplete_image_rejected :
  forall (Env : Type) (ext : IOracle Env) (env : Env)
         (file_header : virQEMUSaveHeader)
         (file_xml : string) (bypass_cache : bool) (xmlin : option string)
         (state_ : Z) (edit unlink_corrupt : bool),
  magic file_header = QEMU_SAVE_PARTIAL ->
  let r := irun (qemuDomainSaveImageOpen ext file_header file_xml bypass_cache
                   xmlin state_ edit unlink_corrupt) env in
  snd (iretval r) = None
  /\ (fst (iretval r) = -1 \/ fst (iretval r) = -3)
  /\ icalled is_alloc (ilog r) = false
  /\ icalled is_parse (ilog r) = false
  /\ (forall n rest,
        ifirst is_read_header (ilog r) = Some ((saferead_header, n), rest) ->
        n = sizeof_header ->
        if unlink_corrupt
        then icalled is_header_error (ilog r) = false
        else fst (iretval r) = -1
             /\ icalled is_unlink (ilog r) = false
             /\ In (virReportError VIR_ERR_OPERATION_FAILED
                      "save image is incomplete") (icalls (ilog r))).
Proof.
  intros Env ext env file_header file_xml bypass_cache xmlin state_
         edit unlink_corrupt Hmagic r. subst r.
  assert (Hm : String.eqb (magic file_header) QEMU_SAVE_MAGIC = false)
    by (rewrite Hmagic; reflexivity).
  assert (Hp : String.eqb (magic file_header) QEMU_SAVE_PARTIAL = true)
    by (rewrite Hmagic; reflexivity).
  iexec_once ext.
  all: split; [reflexivity|].
  all: split; [first [left; reflexivity | right; reflexivity]|].
  all: split; [reflexivity|].
  all: split; [reflexivity|].
  all: intros n rest H Hn;
    first [ discriminate H
          | exfalso;
            match type of H with
            | Some (_, ?z, _) = _ => assert (Hz : z = n) by congruence
            end; bool_hyps; congruence
          | reflexivity
          | split; [reflexivity|]; split; [reflexivity|];
            cbn [icalls map fst In];
            repeat first [ left; reflexivity | right ] ].
Qed.

Lemma incomplete_image_rejected_witness :
  let file_header := first_header 100 QEMU_SAVE_FORMAT_RAW true in
  let r := irun (qemuDomainSaveImageOpen io_scripted file_header "<domain/>"
                   false None (-1) false true) [] in
  magic file_header = QEMU_SAVE_PARTIAL
  /\ snd (iretval r) = None
  /\ fst (iretval r) = -3.
Proof.
  cbv zeta.
  split; [reflexivity|].
  split; [|vm_compute; reflexivity].
  exact (proj1 (@incomplete_image_rejected (list Z) io_scripted []
                  (first_header 100 QEMU_SAVE_FORMAT_RAW true) "<domain/>"
                  false None (-1) false true eq_refl)).
Defined.

(** ** Block I/O tuning *)

Import Blkio.

Lemma lookup_none : forall p l, lookup p l = None <-> ~ In p (paths l).
Proof.
  intros p l. induction l as [|d l IH]; cbn.
  - split; [intros _ []|reflexivity].
  - destruct (String.eqb_spec p (path d)) as [->|Hne].
    + split; [discriminate|]. intro H. exfalso. apply H. left. reflexivity.
    + rewrite IH. split.
      * intros H [E|E]; [apply Hne; symmetry; exact E|exact (H E)].
      * intros H E. apply H. right. exact E.
Qed.

Lemma copy_param_path :
  forall type s d d', copy_param type s d = Some d' -> path d' = path d.
Proof.
  intros type s d d'. unfold copy_param.
  repeat match goal with |- context [if ?b then _ else _] => destruct b end;
    intro H; inversion H; reflexivity.
Qed.

Lemma copy_param_unknown :
  forall type d0 s d, param type d0 = None -> copy_param type s d = None.
Proof.
  intros type d0 s d. unfold param, copy_param.
  repeat match goal with |- context [if ?b then _ else _] => destruct b end;
    intro H; try discriminate H; reflexivity.
Qed.

Lemma copy_param_known :
  forall type s d d0, param type d0 <> None ->
    exists d', copy_param type s d = Some d'.
Proof.
  intros type s d d0. unfold param, copy_param.
  repeat match goal with |- context [if ?b then _ else _] => destruct b end;
    intro H; try (exfalso; apply H; reflexivity); eexists; reflexivity.
Qed.

Lemma copy_param_value :
  forall type s d d', copy_param type s d = Some d' -> param type d' = param type s.
Proof.
  intros type s d d'. unfold copy_param, param.
  repeat match goal with |- context [if ?b then _ else _] => destruct b end;
    intro H; inversion H; reflexivity.
Qed.

Lemma copy_param_others :
  forall type type' s d d',
    copy_param type s d = Some d' -> type' <> type ->
    param type' d' = param type' d.
Proof.
  intros type type' s d d'. unfold copy_param, param.
  destruct (String.eqb_spec type VIR_DOMAIN_BLKIO_DEVICE_WEIGHT) as [->|?];
    [intros H Hne; inversion H; subst; clear H;
     destruct (String.eqb_spec type' VIR_DOMAIN_BLKIO_DEVICE_WEIGHT);
     [contradiction|reflexivity]|].
  destruct (String.eqb_spec type VIR_DOMAIN_BLKIO_DEVICE_READ_IOPS) as [->|?];
    [intros H Hne; inversion H; subst; clear H;
     destruct (String.eqb_spec type' VIR_DOMAIN_BLKIO_DEVICE_READ_IOPS);
     [contradiction|reflexivity]|].
  destruct (String.eqb_spec type VIR_DOMAIN_BLKIO_DEVICE_WRITE_IOPS) as [->|?];
    [intros H Hne; inversion H; subst; clear H;
     destruct (String.eqb_spec type' VIR_DOMAIN_BLKIO_DEVICE_WRITE_IOPS);
     [contradiction|reflexivity]|].
  destruct (String.eqb_spec type VIR_DOMAIN_BLKIO_DEVICE_READ_BPS) as [->|?];
    [intros H Hne; inversion H; subst; clear H;
     destruct (String.eqb_spec type' VIR_DOMAIN_BLKIO_DEVICE_READ_BPS);
     [contradiction|reflexivity]|].
  destruct (String.eqb_spec type VIR_DOMAIN_BLKIO_DEVICE_WRITE_BPS) as [->|?];
    [intros H Hne; inversion H; subst; clear H;
     destruct (String.eqb_spec type' VIR_DOMAIN_BLKIO_DEVICE_WRITE_BPS);
     [contradiction|reflexivity]|].
  discriminate.
Qed.

Lemma merge_into_not_found :
  forall type s dest, merge_into type s dest = NotFound <-> lookup (path s) dest = None.
Proof.
  intros type s dest. induction dest as [|d dest IH]; cbn.
  - split; reflexivity.
  - destruct (String.eqb (path s) (path d)).
    + destruct (copy_param type s d); split; discriminate.
    + destruct (merge_into type s dest); rewrite <- IH; split;
        intro H; try discriminate H; reflexivity.
Qed.

Lemma merge_into_updated :
  forall type s dest l,
    merge_into type s dest = Updated l ->
    paths l = paths dest
    /\ (exists d d', lookup (path s) dest = Some d
                     /\ copy_param type s d = Some d'
                     /\ lookup (path s) l = Some d')
    /\ (forall p, p <> path s -> lookup p l = lookup p dest)
    /\ (forall type', type' <> type -> map (param type') l = map (param type') dest).
Proof.
  intros type s dest. unfold paths.
  induction dest as [|d dest IH]; cbn; intros l H.
  - discriminate H.
  - destruct (String.eqb_spec (path s) (path d)) as [E|Hne].
    + destruct (copy_param type s d) as [d'|] eqn:Hc; [|discriminate H].
      inversion H; subst l; clear H.
      pose proof (copy_param_path _ _ _ Hc) as Hp.
      split; [cbn; rewrite Hp; reflexivity|].
      split.
      * exists d, d'. split; [reflexivity|]. split; [exact Hc|].
        cbn. rewrite Hp, E, String.eqb_refl. reflexivity.
      * split.
        -- intros p Hpne. cbn. rewrite Hp.
           destruct (String.eqb_spec p (path d)); [|reflexivity].
           exfalso. apply Hpne. congruence.
        -- intros type' Hty. cbn. rewrite (copy_param_others _ _ Hc Hty). reflexivity.
    + destruct (merge_into type s dest) as [|l'|] eqn:Hm; try discriminate H.
      inversion H; subst l; clear H.
      destruct (IH l' eq_refl) as (Hpaths & (d0 & d' & Hl & Hc & Hl') & Hother & Hpar).
      split; [cbn; rewrite Hpaths; reflexivity|].
      split.
      * exists d0, d'. split; [exact Hl|]. split; [exact Hc|].
        cbn. destruct (String.eqb_spec (path s) (path d)); [contradiction|exact Hl'].
      * split.
        -- intros p Hpne. cbn. rewrite (Hother p Hpne). reflexivity.
        -- intros type' Hty. cbn. rewrite (Hpar type' Hty). reflexivity.
Qed.

Lemma merge_into_unknown :
  forall type s dest,
    merge_into type s dest = UnknownType ->
    lookup (path s) dest <> None /\ copy_param type s zero_device = None.
Proof.
  intros type s dest. induction dest as [|d dest IH]; cbn; intro H.
  - discriminate H.
  - destruct (String.eqb (path s) (path d)).
    + split; [discriminate|].
      destruct (copy_param type s d) eqn:Hc; [discriminate H|].
      revert Hc. unfold copy_param.
      repeat match goal with |- context [if ?b then _ else _] => destruct b end;
        intro Hc; try discriminate Hc; reflexivity.
    + destruct (merge_into type s dest); try discriminate H. apply IH. reflexivity.
Qed.

Lemma lookup_app :
  forall p l d,
    lookup p (l ++ [d]) =
    match lookup p l with
    | Some x => Some x
    | None => if String.eqb p (path d) then Some d else None
    end.
Proof.
  intros p l d. induction l as [|x l IH]; cbn.
  - reflexivity.
  - destruct (String.eqb p (path x)); [reflexivity|exact IH].
Qed.

(** X22.  The destination keeps its devices in their order; what is appended
    are distinct paths of the source that the destination did not have,
    one for each path handed over and no more than could be allocated. *)
Theorem merge_keeps_devices :
  forall room type src dest,
    let m := qemuDomainMergeBlkioDevice room type dest src in
    List.length (m_moved m) = List.length src
    /\ (m_ret m = 0 \/ m_ret m = -1)
    /\ exists added,
         paths (m_dest m) = (paths dest ++ added)%list
         /\ List.length added = count_moved (m_moved m)
         /\ (List.length added <= room)%nat
         /\ NoDup added
         /\ forall p, In p added -> In p (paths src) /\ ~ In p (paths dest).
Proof.
  intros room type src. revert room.
  induction src as [|s src IH]; intros room dest; cbn zeta.
  - cbn. split; [reflexivity|]. split; [left; reflexivity|].
    exists []. rewrite app_nil_r.
    split; [reflexivity|]. split; [reflexivity|]. split; [cbn; lia|].
    split; [constructor|]. intros p [].
  - cbn [qemuDomainMergeBlkioDevice].
    assert (Hstop : forall b,
      List.length (m_moved (stop (-1) dest (s :: src) b)) = List.length (s :: src)
      /\ (m_ret (stop (-1) dest (s :: src) b) = 0 \/ m_ret (stop (-1) dest (s :: src) b) = -1)
      /\ exists added,
           paths (m_dest (stop (-1) dest (s :: src) b)) = (paths dest ++ added)%list
           /\ List.length added = count_moved (m_moved (stop (-1) dest (s :: src) b))
           /\ (List.length added <= room)%nat
           /\ NoDup added
           /\ forall p, In p added -> In p (paths (s :: src)) /\ ~ In p (paths dest)).
    { intro b. unfold stop. cbn [m_moved m_ret m_dest].
      split; [apply length_map|]. split; [right; reflexivity|].
      exists []. rewrite app_nil_r. split; [reflexivity|].
      split.
      - unfold count_moved. clear. cbn. induction src; cbn; auto.
      - split; [cbn; lia|]. split; [constructor|]. intros p []. }
    destruct (merge_into type s dest) as [|dest'|] eqn:Hm.
    + destruct (all_zero s).
      * specialize (IH room dest). cbv zeta in IH.
        destruct IH as (Hlen & Hret & added & Hp & Hc & Hr & Hnd & Hin).
        cbn [moved m_moved m_ret m_dest List.length].
        split; [rewrite Hlen; reflexivity|]. split; [exact Hret|].
        exists added. split; [exact Hp|]. split; [exact Hc|].
        split; [exact Hr|]. split; [exact Hnd|].
        intros p H. destruct (Hin p H) as [H1 H2]. split; [right; exact H1|exact H2].
      * destruct room as [|room']; [apply Hstop|].
        destruct (copy_param type s zero_device) as [d|] eqn:Hc; [|apply Hstop].
        specialize (IH room' (dest ++ [set_path (path s) d])%list). cbv zeta in IH.
        destruct IH as (Hlen & Hret & added & Hp & Hcnt & Hr & Hnd & Hin).
        cbn [moved m_moved m_ret m_dest List.length].
        split; [rewrite Hlen; reflexivity|]. split; [exact Hret|].
        exists (path s :: added).
        split.
        { rewrite Hp. unfold paths. rewrite map_app, <- app_assoc. reflexivity. }
        split; [unfold count_moved in *; cbn; rewrite Hcnt; reflexivity|].
        split; [cbn; lia|].
        assert (Hfresh : forall p, In p added -> p <> path s).
        { intros p H E. destruct (Hin p H) as [_ H2]. apply H2.
          unfold paths. rewrite map_app. apply in_or_app. right. left.
          cbn. symmetry. exact E. }
        split.
        { constructor; [|exact Hnd]. intro H. exact (Hfresh _ H eq_refl). }
        intros p [E|H].
        { subst p. split; [left; reflexivity|].
          apply lookup_none. apply merge_into_not_found with (type := type). exact Hm. }
        { destruct (Hin p H) as [H1 H2]. split; [right; exact H1|].
          intro H3. apply H2. unfold paths. rewrite map_app. apply in_or_app.
          left. exact H3. }
    + destruct (merge_into_updated _ _ _ Hm) as (Hpaths & _).
      specialize (IH room dest'). cbv zeta in IH.
      destruct IH as (Hlen & Hret & added & Hp & Hc & Hr & Hnd & Hin).
      cbn [moved m_moved m_ret m_dest List.length].
      split; [rewrite Hlen; reflexivity|]. split; [exact Hret|].
      exists added. rewrite <- Hpaths.
      split; [exact Hp|]. split; [exact Hc|]. split; [exact Hr|]. split; [exact Hnd|].
      intros p H. destruct (Hin p H) as [H1 H2]. split; [right; exact H1|exact H2].
    + apply Hstop.
Qed.

Lemma param_set_path :
  forall type p d, param type (set_path p d) = param type d.
Proof. intros type p d. reflexivity. Qed.

Lemma map_eq_snoc :
  forall (A B : Type) (f : A -> B) l l2 y,
    map f l = map f (l2 ++ [y]) ->
    exists l' x, l = (l' ++ [x])%list /\ map f l' = map f l2 /\ f x = f y.
Proof.
  intros A B f l l2 y H. rewrite map_app in H.
  apply map_eq_app in H. destruct H as (l1' & l2' & -> & H1 & H2).
  destruct l2' as [|x [|? ?]]; cbn in H2; try discriminate H2.
  exists l1', x. split; [reflexivity|]. split; [exact H1|]. congruence.
Qed.

(** X23.  Only the parameter named by [type] changes: every other parameter
    keeps its value in the old devices and is zero in the appended ones. *)
Theorem merge_touches_one_parameter :
  forall room type type' src dest,
    type' <> type ->
    let m := qemuDomainMergeBlkioDevice room type dest src in
    exists old added,
      m_dest m = (old ++ added)%list
      /\ List.length old = List.length dest
      /\ map (param type') old = map (param type') dest
      /\ Forall (fun d => param type' d = param type' zero_device) added.
Proof.
  intros room type type' src dest Hty. cbv zeta. revert room dest.
  induction src as [|s src IH]; intros room dest.
  - cbn. exists dest, []. rewrite app_nil_r. repeat split. constructor.
  - cbn [qemuDomainMergeBlkioDevice].
    assert (Hstop : forall b,
      exists old added,
        m_dest (stop (-1) dest (s :: src) b) = (old ++ added)%list
        /\ List.length old = List.length dest
        /\ map (param type') old = map (param type') dest
        /\ Forall (fun d => param type' d = param type' zero_device) added).
    { intro b. exists dest, []. cbn. rewrite app_nil_r. repeat split. constructor. }
    destruct (merge_into type s dest) as [|dest'|] eqn:Hm; [| |apply Hstop].
    + destruct (all_zero s); [apply IH|].
      destruct room as [|room']; [apply Hstop|].
      destruct (copy_param type s zero_device) as [d|] eqn:Hc; [|apply Hstop].
      destruct (IH room' (dest ++ [set_path (path s) d])%list)
        as (old & added & Hd & Hlen & Hmap & Hall).
      cbn [moved m_dest].
      destruct (map_eq_snoc _ _ _ _ Hmap) as (old' & x & -> & Hmap' & Hx).
      exists old', (x :: added). rewrite Hd, <- app_assoc.
      split; [reflexivity|].
      split; [rewrite !length_app in Hlen; cbn in Hlen; lia|].
      split; [exact Hmap'|].
      constructor; [|exact Hall].
      rewrite Hx, param_set_path. exact (copy_param_others _ _ Hc Hty).
    + destruct (merge_into_updated _ _ _ Hm) as (Hpaths & _ & _ & Hpar).
      destruct (IH room dest') as (old & added & Hd & Hlen & Hmap & Hall).
      cbn [moved m_dest].
      exists old, added. split; [exact Hd|].
      split.
      { rewrite Hlen. unfold paths in Hpaths.
        rewrite <- (length_map path dest'), Hpaths. apply length_map. }
      split; [rewrite Hmap; apply Hpar; exact Hty|exact Hall].
Qed.

Lemma merge_touches_one_parameter_witness :
  let dest := [mkDev "/dev/sda" 100 0 0 0 0; mkDev "/dev/sdb" 200 0 0 0 7] in
  let src := [mkDev "/dev/sdb" 300 0 0 0 0; mkDev "/dev/sdc" 400 0 0 0 0] in
  let m := qemuDomainMergeBlkioDevice 1 VIR_DOMAIN_BLKIO_DEVICE_WEIGHT dest src in
  VIR_DOMAIN_BLKIO_DEVICE_WRITE_BPS <> VIR_DOMAIN_BLKIO_DEVICE_WEIGHT
  /\ exists old added,
       m_dest m = (old ++ added)%list
       /\ List.length old = List.length dest
       /\ map (param VIR_DOMAIN_BLKIO_DEVICE_WRITE_BPS) old
          = map (param VIR_DOMAIN_BLKIO_DEVICE_WRITE_BPS) dest.
Proof.
  cbv zeta.
  assert (Hne : VIR_DOMAIN_BLKIO_DEVICE_WRITE_BPS <> VIR_DOMAIN_BLKIO_DEVICE_WEIGHT)
    by discriminate.
  split; [exact Hne|].
  destruct (@merge_touches_one_parameter 1 VIR_DOMAIN_BLKIO_DEVICE_WEIGHT
              VIR_DOMAIN_BLKIO_DEVICE_WRITE_BPS
              [mkDev "/dev/sdb" 300 0 0 0 0; mkDev "/dev/sdc" 400 0 0 0 0]
              [mkDev "/dev/sda" 100 0 0 0 0; mkDev "/dev/sdb" 200 0 0 0 7] Hne)
    as (old & added & Hd & Hlen & Hmap & _).
  exists old, added. split; [exact Hd|]. split; [exact Hlen|exact Hmap].
Defined.

Lemma merge_frame :
  forall room type src dest p,
    ~ In p (paths src) ->
    lookup p (m_dest (qemuDomainMergeBlkioDevice room type dest src)) = lookup p dest.
Proof.
  intros room type src. revert room.
  induction src as [|s src IH]; intros room dest p Hp.
  - reflexivity.
  - cbn [qemuDomainMergeBlkioDevice].
    assert (Hne : p <> path s) by (intro E; apply Hp; left; symmetry; exact E).
    assert (Hp' : ~ In p (paths src)) by (intro H; apply Hp; right; exact H).
    destruct (merge_into type s dest) as [|dest'|] eqn:Hm; [| |reflexivity].
    + destruct (all_zero s); [cbn [moved m_dest]; apply IH; exact Hp'|].
      destruct room as [|room']; [reflexivity|].
      destruct (copy_param type s zero_device) as [d|]; [|reflexivity].
      cbn [moved m_dest]. rewrite IH by exact Hp'.
      rewrite lookup_app. destruct (lookup p dest); [reflexivity|].
      cbn [set_path path].
      destruct (String.eqb_spec p (path s)); [contradiction|reflexivity].
    + destruct (merge_into_updated _ _ _ Hm) as (_ & _ & Hother & _).
      cbn [moved m_dest]. rewrite IH by exact Hp'. apply Hother. exact Hne.
Qed.

Lemma copy_param_some_param :
  forall type s d d', copy_param type s d = Some d' -> param type s <> None.
Proof.
  intros type s d d'. unfold copy_param, param.
  repeat match goal with |- context [if ?b then _ else _] => destruct b end;
    intro H; try discriminate H; discriminate.
Qed.

(** X24.  After a merge that returned 0, of source devices with distinct paths:
    a device that was in the destination or is not all zero is in the
    result with the value of the source; an all-zero device that was not
    in the destination is not added. *)
Theorem merge_applies_values :
  forall room type src dest,
    let m := qemuDomainMergeBlkioDevice room type dest src in
    m_ret m = 0 ->
    NoDup (paths src) ->
    forall s, In s src ->
      (lookup (path s) dest <> None \/ all_zero s = false ->
       exists d, lookup (path s) (m_dest m) = Some d
                 /\ param type d = param type s
                 /\ param type s <> None)
      /\ (lookup (path s) dest = None -> all_zero s = true ->
          lookup (path s) (m_dest m) = None).
Proof.
  intros room type src. cbv zeta. revert room.
  induction src as [|s0 src IH]; intros room dest Hret Hnd s Hin.
  - destruct Hin.
  - cbn [qemuDomainMergeBlkioDevice] in *.
    unfold paths in Hnd. cbn [map] in Hnd. inversion Hnd as [|? ? Hfresh Hnd']; subst.
    destruct (merge_into type s0 dest) as [|dest'|] eqn:Hm.
    + pose proof (proj1 (merge_into_not_found _ _ _) Hm) as Hnone.
      destruct (all_zero s0) eqn:Hz.
      * cbn [moved m_ret m_dest] in *.
        destruct Hin as [<- | Hin].
        -- split.
           ++ intros [H|H]; [contradiction|rewrite Hz in H; discriminate H].
           ++ intros _ _. rewrite merge_frame by exact Hfresh. exact Hnone.
        -- apply IH; assumption.
      * destruct room as [|room']; [discriminate Hret|].
        destruct (copy_param type s0 zero_device) as [d|] eqn:Hc; [|discriminate Hret].
        cbn [moved m_ret m_dest] in *.
        destruct Hin as [<- | Hin].
        -- split.
           ++ intros _. exists (set_path (path s0) d).
              rewrite merge_frame by exact Hfresh.
              rewrite lookup_app, Hnone. cbn [set_path path].
              rewrite String.eqb_refl. split; [reflexivity|].
              rewrite param_set_path.
              split; [exact (copy_param_value _ _ _ Hc)
                     |exact (copy_param_some_param _ _ _ Hc)].
           ++ intros _ H. rewrite Hz in H. discriminate H.
        -- assert (Hne : path s <> path s0).
           { intro E. apply Hfresh. rewrite <- E. apply in_map. exact Hin. }
           assert (Hl : lookup (path s) (dest ++ [set_path (path s0) d])
                        = lookup (path s) dest).
           { rewrite lookup_app. destruct (lookup (path s) dest); [reflexivity|].
             cbn [set_path path].
             destruct (String.eqb_spec (path s) (path s0)); [contradiction|reflexivity]. }
           rewrite <- Hl. apply IH; assumption.
    + destruct (merge_into_updated _ _ _ Hm)
        as (_ & (d0 & d' & Hl0 & Hc & Hl') & Hother & _).
      cbn [moved m_ret m_dest] in *.
      destruct Hin as [<- | Hin].
      * split.
        -- intros _. exists d'. rewrite merge_frame by exact Hfresh.
           split; [exact Hl'|].
           split; [exact (copy_param_value _ _ _ Hc)
                  |exact (copy_param_some_param _ _ _ Hc)].
        -- intros H. rewrite Hl0 in H. discriminate H.
      * assert (Hne : path s <> path s0).
        { intro E. apply Hfresh. rewrite <- E. apply in_map. exact Hin. }
        rewrite <- (Hother (path s) Hne). apply IH; assumption.
    + discriminate Hret.
Qed.

Lemma merge_applies_values_witness :
  let dest := [mkDev "/dev/sda" 100 0 0 0 0; mkDev "/dev/sdb" 200 0 0 0 7] in
  let sdb := mkDev "/dev/sdb" 300 0 0 0 0 in
  let src := [sdb; mkDev "/dev/sdc" 400 0 0 0 0] in
  let m := qemuDomainMergeBlkioDevice 1 VIR_DOMAIN_BLKIO_DEVICE_WEIGHT dest src in
  m_ret m = 0
  /\ NoDup (paths src)
  /\ In sdb src
  /\ lookup (path sdb) dest <> None
  /\ exists d, lookup (path sdb) (m_dest m) = Some d
               /\ param VIR_DOMAIN_BLKIO_DEVICE_WEIGHT d = Some 300.
Proof.
  cbv zeta.
  assert (Hret : m_ret (qemuDomainMergeBlkioDevice 1 VIR_DOMAIN_BLKIO_DEVICE_WEIGHT
                          [mkDev "/dev/sda" 100 0 0 0 0; mkDev "/dev/sdb" 200 0 0 0 7]
                          [mkDev "/dev/sdb" 300 0 0 0 0; mkDev "/dev/sdc" 400 0 0 0 0]) = 0)
    by reflexivity.
  assert (Hnd : NoDup (paths [mkDev "/dev/sdb" 300 0 0 0 0; mkDev "/dev/sdc" 400 0 0 0 0])).
  { cbn. constructor; [intros [H|[]]; discriminate H|].
    constructor; [intros []|constructor]. }
  assert (Hin : In (mkDev "/dev/sdb" 300 0 0 0 0)
                   [mkDev "/dev/sdb" 300 0 0 0 0; mkDev "/dev/sdc" 400 0 0 0 0])
    by (left; reflexivity).
  assert (Hl : lookup (path (mkDev "/dev/sdb" 300 0 0 0 0))
                 [mkDev "/dev/sda" 100 0 0 0 0; mkDev "/dev/sdb" 200 0 0 0 7] <> None)
    by (vm_compute; discriminate).
  split; [exact Hret|]. split; [exact Hnd|]. split; [exact Hin|]. split; [exact Hl|].
  destruct (proj1 (@merge_applies_values 1 VIR_DOMAIN_BLKIO_DEVICE_WEIGHT _ _ Hret Hnd _ Hin)
              (or_introl Hl)) as (d & Hd & Hp & _).
  exists d. split; [exact Hd|exact Hp].
Defined.

Lemma merge_into_never_updated :
  forall type s dest l,
    param type zero_device = None -> merge_into type s dest <> Updated l.
Proof.
  intros type s dest l Hu H.
  destruct (merge_into_updated _ _ _ H) as (_ & (d & d' & _ & Hc & _) & _).
  rewrite (@copy_param_unknown _ _ s d Hu) in Hc. discriminate Hc.
Qed.

(** X25.  An unknown parameter name: the destination is unchanged; the result
    is 0 exactly when every source device is all zero and not in the
    destination; [virReportError] is called only for a device that is in
    the destination. *)
Theorem merge_unknown_parameter :
  forall room type src dest,
    param type zero_device = None ->
    let m := qemuDomainMergeBlkioDevice room type dest src in
    m_dest m = dest
    /\ count_moved (m_moved m) = 0%nat
    /\ (m_ret m = 0 <->
        forall s, In s src -> lookup (path s) dest = None /\ all_zero s = true)
    /\ (m_ret m = 0 \/ m_ret m = -1)
    /\ (m_reported m = true ->
        exists s, In s src /\ lookup (path s) dest <> None)
    /\ (dest = [] -> m_reported m = false).
Proof.
  intros room type src dest Hu. cbv zeta.
  assert (Hcount : forall l : list virBlkioDevice,
            count_moved (map (fun _ => false) l) = 0%nat).
  { intro l. unfold count_moved. induction l; cbn; auto. }
  induction src as [|s src IH].
  - cbn. split; [reflexivity|]. split; [reflexivity|].
    split; [split; [intros _ s []|reflexivity]|].
    split; [left; reflexivity|]. split; [discriminate|reflexivity].
  - cbn [qemuDomainMergeBlkioDevice].
    destruct (merge_into type s dest) as [|dest'|] eqn:Hm.
    + pose proof (proj1 (merge_into_not_found _ _ _) Hm) as Hnone.
      destruct (all_zero s) eqn:Hz.
      * destruct IH as (Hd & Hc & Hr & Hv & Hrep & He).
        cbn [moved m_ret m_dest m_moved m_reported].
        split; [exact Hd|]. split; [exact Hc|].
        split.
        { rewrite Hr. split.
          - intros H x [<-|Hx]; [split; assumption|apply H; exact Hx].
          - intros H x Hx. apply H. right. exact Hx. }
        split; [exact Hv|].
        split; [|exact He].
        intro H. destruct (Hrep H) as (x & Hx & Hl). exists x.
        split; [right; exact Hx|exact Hl].
      * assert (Hstop :
          m_dest (stop (-1) dest (s :: src) false) = dest
          /\ count_moved (m_moved (stop (-1) dest (s :: src) false)) = 0%nat
          /\ (m_ret (stop (-1) dest (s :: src) false) = 0 <->
              forall x, In x (s :: src) -> lookup (path x) dest = None /\ all_zero x = true)
          /\ (m_ret (stop (-1) dest (s :: src) false) = 0
              \/ m_ret (stop (-1) dest (s :: src) false) = -1)
          /\ (m_reported (stop (-1) dest (s :: src) false) = true ->
              exists x, In x (s :: src) /\ lookup (path x) dest <> None)
          /\ (dest = [] -> m_reported (stop (-1) dest (s :: src) false) = false)).
        { unfold stop. cbn [m_dest m_moved m_ret m_reported].
          split; [reflexivity|]. split; [apply Hcount|].
          split.
          - split; [discriminate|].
            intro H. destruct (H s (or_introl eq_refl)) as [_ H2].
            rewrite Hz in H2. discriminate H2.
          - split; [right; reflexivity|]. split; [discriminate|reflexivity]. }
        destruct room as [|room']; [exact Hstop|].
        rewrite (@copy_param_unknown _ _ s zero_device Hu). exact Hstop.
    + exfalso. exact (@merge_into_never_updated _ _ _ _ Hu Hm).
    + destruct (merge_into_unknown _ _ _ Hm) as [Hl _].
      unfold stop. cbn [m_dest m_moved m_ret m_reported].
      split; [reflexivity|]. split; [apply Hcount|].
      split.
      { split; [discriminate|].
        intro H. destruct (H s (or_introl eq_refl)) as [H1 _]. contradiction. }
      split; [right; reflexivity|].
      split.
      { intros _. exists s. split; [left; reflexivity|exact Hl]. }
      intros ->. cbn in Hl. exfalso. apply Hl. reflexivity.
Qed.

Lemma merge_unknown_parameter_witness :
  let dest := [mkDev "/dev/sda" 100 0 0 0 0] in
  let src := [mkDev "/dev/sdc" 400 0 0 0 0] in
  let m := qemuDomainMergeBlkioDevice 1 "weight" dest src in
  param "weight" zero_device = None
  /\ m_dest m = dest
  /\ m_ret m = -1
  /\ m_reported m = false.
Proof.
  cbv zeta.
  assert (Hu : param "weight" zero_device = None) by reflexivity.
  split; [exact Hu|].
  destruct (@merge_unknown_parameter 1 "weight" [mkDev "/dev/sdc" 400 0 0 0 0]
              [mkDev "/dev/sda" 100 0 0 0 0] Hu) as (Hd & _).
  split; [exact Hd|]. split; reflexivity.
Defined.

(** ** Opening files *)

Import OpenFile.

Lemma qemuOpenFileAs_need_unlink :
  forall (Env : Type) (ext : FOracle Env) (w : FWorld Env)
         (fallback_uid fallback_gid : Z) (dynamicOwnership : bool) (oflags : Z),
  need_unlink (fst (qemuOpenFileAs ext fallback_uid fallback_gid
                      dynamicOwnership oflags w))
  = creating oflags.
Proof.
  intros Env ext w fallback_uid fallback_gid dynamicOwnership oflags.
  destruct (creating oflags) eqn:Hc.
  all: fexec ext.
  all: reflexivity.
Qed.

(** X26.  [qemuOpenFile] stops with -1 before opening anything if the label of
    the domain does not parse; otherwise its result is that of
    [qemuOpenFileAs] and [needUnlink] says whether [O_CREAT] was asked
    for. *)
Theorem open_file_unlink_flag :
  forall (Env : Type) (ext : FOracle Env) (env : Env)
         (with_vm : bool) (oflags : Z),
  let r := frun (qemuOpenFile ext with_vm oflags) env in
  match snd (fretval r) with
  | Some o => fst (fretval r) = fd o /\ need_unlink o = creating oflags
  | None =>
      fst (fretval r) = -1
      /\ with_vm = true
      /\ fcount is_open (flog r) = 0%nat
      /\ fcount is_open_as (flog r) = 0%nat
      /\ fcount is_error_report (flog r) = 0%nat
  end.
Proof.
  intros Env ext env with_vm oflags r. subst r.
  unfold qemuOpenFile, frun, fretval, flog, fbind, fcall, freturn.
  cbn [f_env f_log app].
  repeat match goal with
         | |- context [ext ?c ?e] => destruct (ext c e) as [? ?] eqn:?; cbn [f_env f_log app]
         | |- context [if ?b then _ else _] =>
             lazymatch b with
             | context [ext] => fail
             | _ => destruct b eqn:?
             end
         | |- context [qemuOpenFileAs ext ?u ?g ?d ?o ?w] =>
             pose proof (qemuOpenFileAs_need_unlink ext w u g d o);
             destruct (qemuOpenFileAs ext u g d o w) as [? ?]
         end.
  all: cbn [fst snd] in *.
  all: first [ split; [reflexivity|assumption] | repeat split; reflexivity ].
Qed.

Lemma open_file_unlink_flag_witness :
  let r := frun (qemuOpenFile fs_scripted true 577) [107; 107; 1; 5; 6; -1] in
  snd (fretval r) = None
  /\ fst (fretval r) = -1
  /\ fcount is_open_as (flog r) = 0%nat.
Proof.
  cbv zeta.
  pose proof (@open_file_unlink_flag (list Z) fs_scripted [107; 107; 1; 5; 6; -1]
                true 577) as H.
  cbv zeta in H.
  assert (E : snd (fretval (frun (qemuOpenFile fs_scripted true 577)
                              [107; 107; 1; 5; 6; -1])) = None)
    by (vm_compute; reflexivity).
  rewrite E in H.
  destruct H as (Hret & _ & _ & Has & _).
  split; [exact E|]. split; [exact Hret|exact Has].
Defined.

(** X27.  [qemuOpenFileAs] reports at most one error, exactly one when it
    returns a negative value, and the code reported is the negated
    result. *)
Theorem open_file_failure_reported :
  forall (Env : Type) (ext : FOracle Env) (env : Env)
         (fallback_uid fallback_gid : Z) (dynamicOwnership : bool) (oflags : Z),
  let r := frun (qemuOpenFileAs ext fallback_uid fallback_gid
                   dynamicOwnership oflags) env in
  (fcount is_error_report (flog r) <= 1)%nat
  /\ (fd (fretval r) < 0 -> fcount is_error_report (flog r) = 1%nat)
  /\ (fcount is_error_report (flog r) = 0%nat -> 0 <= fd (fretval r))
  /\ (forall code msg ret_,
        In (virReportSystemError code msg, ret_) (flog r) ->
        code = - fd (fretval r)).
Proof.
  intros Env ext env fallback_uid fallback_gid dynamicOwnership oflags r. subst r.
  destruct (creating oflags) eqn:Hc.
  all: fexec_once ext.
  all: split; [lia|].
  all: split; [intro H; first [reflexivity | exfalso; bool_hyps; lia]|].
  all: split; [intro H; first [discriminate H | bool_hyps; lia]|].
  all: intros code msg ret_ H; cbn [In] in H;
       repeat match type of H with
              | _ \/ _ => destruct H as [H|H]
              end;
       first [ discriminate H | contradiction | congruence ].
Qed.

Lemma open_file_failure_reported_witness :
  let r := frun (qemuOpenFileAs fs_scripted 107 107 false 577)
                [0; 0; 0; -1; - EACCES] in
  fd (fretval r) < 0
  /\ fcount is_error_report (flog r) = 1%nat.
Proof.
  cbv zeta.
  assert (H : fd (fretval (frun (qemuOpenFileAs fs_scripted 107 107 false 577)
                             [0; 0; 0; -1; - EACCES])) < 0)
    by (vm_compute; reflexivity).
  split; [exact H|].
  exact (proj1 (proj2 (@open_file_failure_reported (list Z) fs_scripted
                         [0; 0; 0; -1; - EACCES] 107 107 false 577)) H).
Defined.

(** X28.  [bypass_security] is set only after a first [virFileOpenAs] that
    failed with [EACCES] or [EPERM] on a shared file system, for a
    fallback user other than the effective one, and a second
    [virFileOpenAs] as that user which succeeded. *)
Theorem open_file_bypass_security :
  forall (Env : Type) (ext : FOracle Env) (env : Env)
         (fallback_uid fallback_gid : Z) (dynamicOwnership : bool) (oflags : Z),
  let r := frun (qemuOpenFileAs ext fallback_uid fallback_gid
                   dynamicOwnership oflags) env in
  bypass_security (fretval r) = true ->
  0 <= fd (fretval r)
  /\ fcount is_error_report (flog r) = 0%nat
  /\ fcount is_open (flog r) = 0%nat
  /\ fcalls is_shared_fs (flog r) = [(virFileIsSharedFS, 1)]
  /\ (exists euid, In (geteuid, euid) (flog r) /\ euid <> fallback_uid)
  /\ exists uid gid first,
       let vfoflags :=
         if creating oflags && dynamicOwnership
         then VIR_FILE_OPEN_FORCE_OWNER else 0 in
       fcalls is_open_as (flog r)
       = [(virFileOpenAs oflags S_IRUSR_IWUSR uid gid
             (Z.lor vfoflags VIR_FILE_OPEN_NOFORK), first);
          (virFileOpenAs oflags S_IRUSR_IWUSR_IRGRP_IWGRP fallback_uid fallback_gid
             (Z.lor vfoflags VIR_FILE_OPEN_FORK), fd (fretval r))]
       /\ (first = - EACCES \/ first = - EPERM).
Proof.
  intros Env ext env fallback_uid fallback_gid dynamicOwnership oflags r. subst r.
  destruct (creating oflags) eqn:Hc; destruct dynamicOwnership.
  all: fexec_once ext.
  all: intro H; try discriminate H.
  all: bool_hyps; subst; try lia.
  all: split; [assumption|].
  all: split; [reflexivity|].
  all: split; [reflexivity|].
  all: split; [reflexivity|].
  all: split;
    [ match goal with
      | Hne : ?u <> ?z |- (exists _, _ /\ _ <> ?u) =>
          exists z; split;
          [ cbn [In]; repeat first [left; reflexivity | right]
          | congruence ]
      end
    | ].
  all: do 3 eexists; cbv zeta; cbn [andb]; split; [reflexivity|].
  all: first [left; reflexivity | right; reflexivity].
Qed.

Lemma open_file_bypass_security_witness :
  let r := frun (qemuOpenFileAs fs_scripted 107 107 false 577)
                [1; 0; 0; -1; - EACCES; 0; 9] in
  bypass_security (fretval r) = true
  /\ fd (fretval r) = 9
  /\ fcount is_error_report (flog r) = 0%nat.
Proof.
  cbv zeta.
  assert (H : bypass_security (fretval (frun (qemuOpenFileAs fs_scripted 107 107 false 577)
                [1; 0; 0; -1; - EACCES; 0; 9])) = true) by (vm_compute; reflexivity).
  split; [exact H|]. split; [vm_compute; reflexivity|].
  exact (proj1 (proj2 (@open_file_bypass_security (list Z) fs_scripted
                         [1; 0; 0; -1; - EACCES; 0; 9] 107 107 false 577 H))).
Defined.

(** X29.  Plain [open] is used only for [O_CREAT] on an existing file that is
    not regular, with [O_CREAT] cleared, once, and instead of
    [virFileOpenAs]. *)
Theorem open_file_existing_device :
  forall (Env : Type) (ext : FOracle Env) (env : Env)
         (fallback_uid fallback_gid : Z) (dynamicOwnership : bool) (oflags : Z),
  let r := frun (qemuOpenFileAs ext fallback_uid fallback_gid
                   dynamicOwnership oflags) env in
  (1 <= fcount is_open (flog r) + fcount is_open_as (flog r) <= 2)%nat
  /\ (fcount is_open (flog r) = 1%nat ->
      creating oflags = true
      /\ fcount is_open_as (flog r) = 0%nat
      /\ In (stat, 0) (flog r)
      /\ In (S_ISREG, 0) (flog r)
      /\ bypass_security (fretval r) = false
      /\ exists ret_,
           fcalls is_open (flog r) = [(open (Z.land oflags (Z.lnot O_CREAT)), ret_)])
  /\ (creating oflags = false -> fcount is_open (flog r) = 0%nat)
  /\ (forall ret_, In (S_ISREG, ret_) (flog r) -> ret_ <> 0 ->
      fcount is_open (flog r) = 0%nat).
Proof.
  intros Env ext env fallback_uid fallback_gid dynamicOwnership oflags r. subst r.
  destruct (creating oflags) eqn:Hc.
  all: fexec_once ext.
  all: split; [lia|].
  all: split;
    [ intro H;
      first [ discriminate H
            | split; [reflexivity|]; split; [reflexivity|];
              bool_hyps; subst;
              split; [cbn [In]; tauto|]; split; [cbn [In]; tauto|];
              split; [reflexivity|]; eexists; reflexivity ]
    | ].
  all: split; [intro H; first [discriminate H | reflexivity]|].
  all: intros ret_ H Hne; first [reflexivity | exfalso];
       cbn [In] in H;
       repeat match type of H with
              | _ \/ _ => destruct H as [H|H]
              end;
       first [ discriminate H | contradiction
             | bool_hyps; congruence ].
Qed.

Lemma open_file_existing_device_witness :
  let r := frun (qemuOpenFileAs fs_scripted 107 107 false 577) [0; 0; 0; 0; 0; 9] in
  fcount is_open (flog r) = 1%nat
  /\ fcount is_open_as (flog r) = 0%nat
  /\ fcalls is_open (flog r) = [(OpenFile.open 513, 9)].
Proof.
  cbv zeta.
  assert (H : fcount is_open (flog (frun (qemuOpenFileAs fs_scripted 107 107 false 577)
                                      [0; 0; 0; 0; 0; 9])) = 1%nat)
    by (vm_compute; reflexivity).
  split; [exact H|].
  destruct (proj1 (proj2 (@open_file_existing_device (list Z) fs_scripted
                            [0; 0; 0; 0; 0; 9] 107 107 false 577)) H)
    as (_ & Has & _ & _ & _ & ret_ & Hopen).
  split; [exact Has|]. vm_compute. reflexivity.
Defined.

(** ** The next free domain id *)

Lemma find_max_id_spec :
  forall ids init,
    find_max_id ids init = fold_right (fun id m => Z.max (id + 1) m) init ids.
Proof.
  intros ids. unfold find_max_id.
  induction ids as [|id ids IH]; intro init; cbn.
  - reflexivity.
  - rewrite IH. unfold qemuDomainFindMaxID. rewrite Z.geb_leb.
    destruct (Z.leb_spec init id).
    + clear IH. induction ids as [|x ids IH]; cbn; lia.
    + clear IH. induction ids as [|x ids IH]; cbn; lia.
Qed.

(** X30.  After [qemuDomainFindMaxID] has run over the list, [nextvmid] is above
    every id, is its initial value or an id plus one, does not overflow,
    and does not depend on the order of the list. *)
Theorem find_max_id_exceeds_all :
  forall ids init,
    init <= INT_MAX ->
    Forall (fun id => id < INT_MAX) ids ->
    let m := find_max_id ids init in
    init <= m <= INT_MAX
    /\ Forall (fun id => id < m) ids
    /\ (m = init \/ In (m - 1) ids)
    /\ forall ids', Permutation ids ids' -> find_max_id ids' init = m.
Proof.
  intros ids init Hinit Hids m. subst m. unfold INT_MAX in *.
  split; [|split; [|split]].
  - rewrite find_max_id_spec. induction Hids as [|id ids Hid _ IH]; cbn; lia.
  - rewrite find_max_id_spec. clear Hids Hinit.
    induction ids as [|id ids IH]; cbn; constructor.
    + lia.
    + eapply Forall_impl; [|exact IH]. cbn. intros; lia.
  - rewrite find_max_id_spec. clear Hids Hinit.
    induction ids as [|id ids IH]; cbn.
    + left. reflexivity.
    + destruct (Z.max_spec (id + 1) (fold_right (fun id m => Z.max (id + 1) m) init ids))
        as [[_ ->] | [_ ->]].
      * destruct IH as [IH|IH]; [left; exact IH|right; right; exact IH].
      * right. left. lia.
  - intros ids' Hperm. rewrite !find_max_id_spec. clear Hids Hinit.
    induction Hperm; cbn.
    + reflexivity.
    + rewrite IHHperm. reflexivity.
    + lia.
    + congruence.
Qed.

Lemma find_max_id_exceeds_all_witness :
  1 <= INT_MAX
  /\ Forall (fun id => id < INT_MAX) [3; 7; -1; 5]
  /\ find_max_id [3; 7; -1; 5] 1 = 8
  /\ find_max_id [5; -1; 7; 3] 1 = find_max_id [3; 7; -1; 5] 1.
Proof.
  assert (Hi : 1 <= INT_MAX) by (vm_compute; intro; discriminate).
  assert (Hf : Forall (fun id => id < INT_MAX) [3; 7; -1; 5])
    by (repeat constructor).
  split; [exact Hi|]. split; [exact Hf|]. split; [reflexivity|].
  apply (proj2 (proj2 (proj2 (@find_max_id_exceeds_all _ _ Hi Hf)))).
  apply Permutation.Permutation_rev with (l := [3; 7; -1; 5]).
Defined.
